(** * Asset-Management-Tool: hierarchy document, naming resolution and
      filesystem reconciliation of [PMT/PMT_v2.py]

    A shallow embedding of the document-handling core of
    [ProjectManagerUI]: values as [json.load] returns them, the dynamic
    operations the code applies to them (with the exceptions Python raises
    on the wrong shape), the schema migration of [load_assets_from_json],
    the project and asset operations, and the three reconciliation passes
    over a model of the directory tree. *)

From Stdlib Require Import Ascii String ZArith.
From stdpp Require Import base strings list gmap.

Open Scope string_scope.
Open Scope list_scope.

(* ===================================================================== *)
(** * Values and exceptions *)
(* ===================================================================== *)

(** What [json.load] returns: [None], booleans, integers, strings, lists
    and dicts with string keys.  Floating-point numbers are outside this
    embedding.  A dict keeps insertion order, so it is an association
    list; [json.load] never yields the same key twice. *)
#[warnings="-register-all"]
Inductive json : Type :=
| JNull
| JBool (b : bool)
| JInt (n : Z)
| JStr (s : string)
| JArr (items : list json)
| JObj (fields : list (string * json)).

Abbreviation dict := (list (string * json)).

Inductive exception : Type :=
| TypeError | AttributeError | KeyError | ValueError | RuntimeError | OSError.

Inductive result (A : Type) : Type :=
| Ok (x : A)
| Raise (e : exception).
Arguments Ok {A} x.
Arguments Raise {A} e.

#[global] Instance result_ret : MRet result := fun A x => Ok x.
#[global] Instance result_bind : MBind result := fun A B f m =>
  match m with Ok x => f x | Raise e => Raise e end.

(** [for x in l: ...] where the body yields a value and may raise. *)
Fixpoint for_result {A B : Type} (f : A -> result B) (l : list A) : result (list B) :=
  match l with
  | [] => Ok []
  | x :: r => y ← f x; ys ← for_result f r; Ok (y :: ys)
  end.

(* ===================================================================== *)
(** * Strings *)
(* ===================================================================== *)

(** [s.replace(" ", "")]: every occurrence of the space character is
    dropped; no other character is. *)
Fixpoint replace_spaces (s : string) : string :=
  match s with
  | EmptyString => EmptyString
  | String c r => if Ascii.eqb c " "%char then replace_spaces r else String c (replace_spaces r)
  end.

(** A string holds the UTF-8 encoding of the Python text: a character
    below U+0080 is one byte, any other a sequence of two to four bytes
    above 127, so that equality, concatenation, [replace] and the search
    for a dot or a substring are those of the text. *)
Definition bytes (codes : list nat) : string :=
  fold_right (fun n s => String (ascii_of_nat n) s) EmptyString codes.

(** The ASCII whitespace characters: tab, line feed, vertical tab, form
    feed, carriage return, the four separators 0x1c-0x1f and the space. *)
Definition is_space (c : ascii) : bool :=
  let n := nat_of_ascii c in
  ((9 <=? n)%nat && (n <=? 13)%nat) || ((28 <=? n)%nat && (n <=? 32)%nat).

(** The characters [str.strip()] removes, those for which [str.isspace]
    holds: the ASCII ones and U+0085, U+00A0, U+1680, U+2000 to U+200A,
    U+2028, U+2029, U+202F, U+205F and U+3000. *)
Definition whitespace : list string :=
  bytes <$> [[9]; [10]; [11]; [12]; [13]; [28]; [29]; [30]; [31]; [32];
             [194; 133]; [194; 160]; [225; 154; 128];
             [226; 128; 128]; [226; 128; 129]; [226; 128; 130]; [226; 128; 131];
             [226; 128; 132]; [226; 128; 133]; [226; 128; 134]; [226; 128; 135];
             [226; 128; 136]; [226; 128; 137]; [226; 128; 138];
             [226; 128; 168]; [226; 128; 169]; [226; 128; 175];
             [226; 129; 159]; [227; 128; 128]].

(** What follows [w] in [s], when [s] starts with [w]. *)
Fixpoint after_prefix (w s : string) : option string :=
  match w, s with
  | EmptyString, _ => Some s
  | String a w', String b s' => if Ascii.eqb a b then after_prefix w' s' else None
  | String _ _, EmptyString => None
  end.

(** [s] without its leading characters from [table], at most [n] of them. *)
Fixpoint drop_leading (table : list string) (n : nat) (s : string) : string :=
  match n with
  | O => s
  | S n' =>
      match head (omap (fun w => after_prefix w s) table) with
      | Some r => drop_leading table n' r
      | None => s
      end
  end.

(** [s.lstrip()] *)
Definition lstrip (s : string) : string := drop_leading whitespace (String.length s) s.

(** [s.rstrip()]: the same from the other end, on the reversed bytes. *)
Definition rstrip (s : string) : string :=
  String.rev (drop_leading (String.rev <$> whitespace) (String.length s) (String.rev s)).

(** [s.strip()] *)
Definition strip (s : string) : string := rstrip (lstrip s).

(** [needle in hay] on two strings. *)
Fixpoint str_contains (needle hay : string) : bool :=
  if String.prefix needle hay then true
  else match hay with
       | EmptyString => false
       | String _ r => str_contains needle r
       end.

(* ===================================================================== *)
(** * Dicts *)
(* ===================================================================== *)

Fixpoint dict_get (k : string) (d : dict) : option json :=
  match d with
  | [] => None
  | (k', v) :: r => if decide (k = k') then Some v else dict_get k r
  end.

(** [k in d] *)
Definition dict_mem (k : string) (d : dict) : bool :=
  match dict_get k d with Some _ => true | None => false end.

(** [d[k] = v]: an existing key keeps its position, a new one goes last. *)
Fixpoint dict_set (k : string) (v : json) (d : dict) : dict :=
  match d with
  | [] => [(k, v)]
  | (k', v') :: r => if decide (k = k') then (k, v) :: r else (k', v') :: dict_set k v r
  end.

(** [del d[k]] for a key that is present. *)
Definition dict_del (k : string) (d : dict) : dict :=
  filter (fun kv => kv.1 <> k) d.

(** [list(d.keys())] *)
Definition dict_keys (d : dict) : list string := d.*1.

(* ===================================================================== *)
(** * The dynamic operations of the code on loaded values *)
(* ===================================================================== *)

(** [x == JStr s] for a value [x]: a string equals only a string. *)
Definition is_str (s : string) (x : json) : bool :=
  match x with JStr s' => bool_decide (s = s') | _ => false end.

(** [k in v] for a string [k]. *)
Definition py_in (k : string) (v : json) : result bool :=
  match v with
  | JObj d => Ok (dict_mem k d)
  | JArr l => Ok (existsb (is_str k) l)
  | JStr s => Ok (str_contains k s)
  | _ => Raise TypeError
  end.

(** [v.items()] *)
Definition py_items (v : json) : result dict :=
  match v with
  | JObj d => Ok d
  | _ => Raise AttributeError
  end.

(** [v[k]] for a string [k]. *)
Definition py_getitem (v : json) (k : string) : result json :=
  match v with
  | JObj d => match dict_get k d with Some x => Ok x | None => Raise KeyError end
  | _ => Raise TypeError
  end.

(** [v.get(k, default)] *)
Definition py_get (v : json) (k : string) (dflt : json) : result json :=
  match v with
  | JObj d => Ok (default dflt (dict_get k d))
  | _ => Raise AttributeError
  end.

(** [v.pop(k)] for a string [k]: the value taken out and what is left. *)
Definition py_pop (v : json) (k : string) : result (json * json) :=
  match v with
  | JObj d => match dict_get k d with
              | Some x => Ok (x, JObj (dict_del k d))
              | None => Raise KeyError
              end
  | JArr _ => Raise TypeError
  | _ => Raise AttributeError
  end.

(** [v[k] = x] for a string [k]. *)
Definition py_setitem (v : json) (k : string) (x : json) : result json :=
  match v with
  | JObj d => Ok (JObj (dict_set k x d))
  | _ => Raise TypeError
  end.

(** [isinstance(v, dict) and "assets" in v] *)
Definition is_wrapper (v : json) : bool :=
  match v with JObj o => dict_mem "assets" o | _ => false end.

(* ===================================================================== *)
(** * Schema migration: [load_assets_from_json] *)
(* ===================================================================== *)

(** The asset object a bare string becomes. *)
Definition asset_of_string (a : string) : json :=
  JObj [("display_name", JStr a); ("db_name", JStr (replace_spaces a))].

(** One step of [for i, a in enumerate(asset_list)]. *)
Definition migrate_entry (a : json) : json :=
  match a with JStr s => asset_of_string s | _ => a end.

(** The loop over [enumerate(asset_list)], by the shape of [asset_list].
    A list is rewritten in place.  A dict is iterated by its keys, which
    are strings: the assignment under the integer index adds a key and the
    next step of the iteration raises; an empty dict is left alone.  A
    string yields its characters and refuses the assignment.  Anything
    else is not iterable. *)
Definition migrate_asset_list (asset_list : json) : result json :=
  match asset_list with
  | JArr l => Ok (JArr (migrate_entry <$> l))
  | JObj [] => Ok (JObj [])
  | JObj (_ :: _) => Raise RuntimeError
  | JStr EmptyString => Ok (JStr EmptyString)
  | JStr (String _ _) => Raise TypeError
  | _ => Raise TypeError
  end.

(** The body of [for cat, assets in categories.items()]: the wrapper
    [{"assets": [...]}] stays and its list is migrated inside it. *)
Definition migrate_category (assets : json) : result json :=
  if is_wrapper assets then
    asset_list ← py_getitem assets "assets";
    asset_list' ← migrate_asset_list asset_list;
    py_setitem assets "assets" asset_list'
  else migrate_asset_list assets.

Definition migrate_category_item (item : string * json) : result (string * json) :=
  let '(cat, assets) := item in
  assets' ← migrate_category assets; Ok (cat, assets').

(** The body of [for project, categories in data.items()] for a key that
    is not ["naming_conventions"]. *)
Definition migrate_project (categories : json) : result json :=
  has_meshes ← py_in "Meshes" categories;
  categories1 ← (if has_meshes : bool
                 then '(v, rest) ← py_pop categories "Meshes";
                      py_setitem rest "Static Meshes" v
                 else Ok categories);
  cats ← py_items categories1;
  cats' ← for_result migrate_category_item cats;
  Ok (JObj cats').

(** The body of [for project, categories in data.items()]. *)
Definition migrate_project_item (item : string * json) : result (string * json) :=
  let '(project, categories) := item in
  if decide (project = "naming_conventions")
  then Ok (project, categories)
  else categories' ← migrate_project categories; Ok (project, categories').

(** [if "naming_conventions" in data and "Meshes" in
    data["naming_conventions"]: ...] *)
Definition migrate_conventions (data : dict) : result dict :=
  match dict_get "naming_conventions" data with
  | None => Ok data
  | Some nc =>
      has_meshes ← py_in "Meshes" nc;
      if has_meshes : bool
      then '(v, rest) ← py_pop nc "Meshes";
           nc' ← py_setitem rest "Static Meshes" v;
           Ok (dict_set "naming_conventions" nc' data)
      else Ok data
  end.

(** The [try] block of [load_assets_from_json] on the parsed file. *)
Definition migrate (data : json) : result dict :=
  items ← py_items data;
  items' ← for_result migrate_project_item items;
  migrate_conventions items'.

(** [load_assets_from_json] on the parsed file: the migrated dict, or the
    empty dict after any exception. *)
Definition load_assets_from_json (data : json) : dict :=
  match migrate data with
  | Ok d => d
  | Raise _ => []
  end.

(** A document in its current shape: projects map category names other
    than ["Meshes"] to bare lists without strings, and the conventions, if
    any, are a dict without the key ["Meshes"]. *)
Definition canonical_entry (a : json) : bool :=
  match a with JStr _ => false | _ => true end.

Definition canonical_category (cv : string * json) : bool :=
  match cv.2 with JArr l => forallb canonical_entry l | _ => false end.

Definition canonical_project (categories : json) : bool :=
  match categories with
  | JObj c => negb (dict_mem "Meshes" c) && forallb canonical_category c
  | _ => false
  end.

Definition canonical_item (pv : string * json) : bool :=
  if decide (pv.1 = "naming_conventions")
  then match pv.2 with JObj c => negb (dict_mem "Meshes" c) | _ => false end
  else canonical_project pv.2.

Definition canonical (data : json) : bool :=
  match data with
  | JObj d => forallb canonical_item d
  | _ => false
  end.

(* ===================================================================== *)
(** * The directory tree *)
(* ===================================================================== *)

(** The tree below the root directory [<tempdir>/PMT_Projects], which
    [__init__] creates: a finite map from paths, given as the list of
    their components below the root, to what is there.  A project,
    category or asset name is taken as one path component, which is what
    [os.path.join] makes of a name that is [plain] (defined with the
    passes below); what is said about the place of a folder on disk is
    said for documents whose names are plain.  Names are told apart by
    their exact text, as a case-sensitive file system does. *)
Inductive kind : Type := KFile | KDir.

#[global] Instance kind_eq_dec : EqDecision kind.
Proof. solve_decision. Defined.

Abbreviation path := (list string).
Abbreviation fs := (gmap (list string) kind).

(** [os.path.exists(p)] and [os.path.isdir(p)] *)
Definition path_exists (t : fs) (p : path) : bool := bool_decide (is_Some (t !! p)).
Definition isdir (t : fs) (p : path) : bool := bool_decide (t !! p = Some KDir).

(** The name [n] when [q] is [p] followed by [n]. *)
Fixpoint child_name (p q : path) : option string :=
  match p, q with
  | [], [n] => Some n
  | a :: p', b :: q' => if decide (a = b) then child_name p' q' else None
  | _, _ => None
  end.

(** [os.listdir(p)]: the entries of [p], in the order the map yields. *)
Definition listdir (t : fs) (p : path) : list string :=
  omap (fun e => child_name p e.1) (map_to_list t).

(** What a run of filesystem calls leaves behind: the tree and whether an
    exception came out of it. *)
Inductive outcome : Type := Done | Raised (e : exception).

Definition action : Type := fs -> fs * outcome.

Definition skip : action := fun t => (t, Done).
Definition raise (e : exception) : action := fun t => (t, Raised e).

Definition seq (a b : action) : action := fun t =>
  match a t with
  | (t', Done) => b t'
  | r => r
  end.
Infix ">>" := seq (at level 61, left associativity).

(** A computed value that may raise, used by what follows. *)
Definition lift {A : Type} (r : result A) (k : A -> action) : action :=
  match r with Ok x => k x | Raise e => raise e end.

(** [for x in l: body] *)
Fixpoint for_each {A : Type} (l : list A) (body : A -> action) : action :=
  match l with
  | [] => skip
  | x :: r => body x >> for_each r body
  end.

(** [os.makedirs(p, exist_ok=True)]: every missing directory on the way
    is created; a file on the way, or at [p], makes it raise.  The system
    can refuse a name for reasons of its own (its length, a character it
    forbids), and the call raises then too; that is not modelled, so the
    results say what a pass leaves when it completes, not that it does. *)
Fixpoint makedirs_from (done rest : path) : action := fun t =>
  match rest with
  | [] => (t, Done)
  | n :: rest' =>
      let q := done ++ [n] in
      match t !! q with
      | Some KDir => makedirs_from q rest' t
      | Some KFile => (t, Raised OSError)
      | None => makedirs_from q rest' (<[q := KDir]> t)
      end
  end.

Definition makedirs (p : path) : action := makedirs_from [] p.

(** [shutil.rmtree(p)] on a directory: [p] and all below it go. *)
Definition rmtree (p : path) : action := fun t =>
  (filter (fun e => ~ p `prefix_of` e.1) t, Done).

(** [os.remove(p)]: removes a file, raises on a directory or on nothing. *)
Definition os_remove (p : path) : action := fun t =>
  match t !! p with
  | Some KFile => (delete p t, Done)
  | _ => (t, Raised OSError)
  end.

(** Where [q] ends up when [old] becomes [new]. *)
Fixpoint rebase (old new q : path) : path :=
  match old, q with
  | [], _ => new ++ q
  | a :: old', b :: q' => if decide (a = b) then rebase old' new q' else q
  | _ :: _, [] => q
  end.

Definition moved (old new : path) (q : path) : path :=
  if decide (old `prefix_of` q) then rebase old new q else q.

(** [os.rename(old, new)].  The call raises when the system refuses it
    ([permitted] is false: a file in use, missing rights), when [old] is
    not there, or when [new] is taken; renaming to the same path does
    nothing; otherwise [old] and all below it move to [new]. *)
Definition os_rename (permitted : bool) (old new : path) : action := fun t =>
  if negb permitted then (t, Raised OSError)
  else if negb (path_exists t old) then (t, Raised OSError)
  else if decide (old = new) then (t, Done)
  else if path_exists t new then (t, Raised OSError)
  else (kmap (moved old new) t, Done).

(** [os.path.splitext] on a file name: the extension starts at the last
    dot, unless only dots come before it. *)
Fixpoint split_last_dot (s : string) : option (string * string) :=
  match s with
  | EmptyString => None
  | String c r =>
      match split_last_dot r with
      | Some (b, e) => Some (String c b, e)
      | None => if Ascii.eqb c "."%char then Some (EmptyString, s) else None
      end
  end.

Fixpoint all_dots (s : string) : bool :=
  match s with
  | EmptyString => true
  | String c r => Ascii.eqb c "."%char && all_dots r
  end.

Definition splitext (name : string) : string * string :=
  match split_last_dot name with
  | Some (b, e) => if all_dots b then (name, EmptyString) else (b, e)
  | None => (name, EmptyString)
  end.

(* ===================================================================== *)
(** * Reconciliation: [sync_filesystem_with_json] and its passes *)
(* ===================================================================== *)

(** The characters of a text: a byte from 128 to 191 continues the
    character begun before it. *)
Definition continues (s : string) : bool :=
  match s with
  | EmptyString => false
  | String c _ => (128 <=? nat_of_ascii c)%nat && (nat_of_ascii c <=? 191)%nat
  end.

Fixpoint characters (s : string) : list string :=
  match s with
  | EmptyString => []
  | String c r =>
      match characters r with
      | w :: ws => if continues r then String c w :: ws else String c EmptyString :: w :: ws
      | [] => [String c EmptyString]
      end
  end.

(** [for x in v] *)
Definition chars (s : string) : list json := JStr <$> characters s.

Definition py_iter (v : json) : result (list json) :=
  match v with
  | JArr l => Ok l
  | JObj d => Ok (JStr <$> dict_keys d)
  | JStr s => Ok (chars s)
  | _ => Raise TypeError
  end.

(** A value used as a path component by [os.path.join]. *)
Definition as_component (v : json) : result string :=
  match v with JStr s => Ok s | _ => Raise TypeError end.

(** [cat_val["assets"] if isinstance(cat_val, dict) and "assets" in
    cat_val else cat_val] *)
Definition asset_list_of (cat_val : json) : json :=
  match cat_val with
  | JObj o => default cat_val (dict_get "assets" o)
  | _ => cat_val
  end.

(** [set(a["db_name"] for a in asset_list)]; a list or a dict cannot be
    put in a set. *)
Definition db_name_of (a : json) : result json :=
  v ← py_getitem a "db_name";
  match v with
  | JArr _ | JObj _ => Raise TypeError
  | _ => Ok v
  end.

Definition db_name_set (asset_list : json) : result (list json) :=
  l ← py_iter asset_list; for_result db_name_of l.

(** One round of the first loop: [os.path.join(root_dir, project)] and
    [os.path.join(project_path, category)] are made, each name being one
    component of the path (which supposes it [plain]). *)
Definition ensure_project (item : string * json) : action :=
  let '(project, categories) := item in
  makedirs [project] >>
  lift (py_items categories) (fun cats =>
    for_each cats (fun '(category, _) => makedirs [project; category])).

(** The loop over [os.listdir(category_path)]. *)
Definition cleanup_category (db_names : list json) (project_folder category_folder : string)
  : action := fun t =>
  for_each (listdir t [project_folder; category_folder]) (fun asset_file =>
    let '(asset_name, ext) := splitext asset_file in
    if bool_decide (ext = ".txt") && negb (existsb (is_str asset_name) db_names)
    then os_remove [project_folder; category_folder; asset_file]
    else skip) t.

(** The loop over [os.listdir(project_path)]. *)
Definition cleanup_project (project_folder : string) (categories : json) : action := fun t =>
  for_each (listdir t [project_folder]) (fun category_folder t' =>
    if negb (isdir t' [project_folder; category_folder]) then skip t'
    else lift (py_in category_folder categories) (fun known =>
           if negb known then rmtree [project_folder; category_folder]
           else lift (py_getitem categories category_folder) (fun cat_val =>
                  lift (db_name_set (asset_list_of cat_val)) (fun db_names =>
                    cleanup_category db_names project_folder category_folder))) t') t.

Definition cleanup_filesystem (assets_hierarchy : dict) : action := fun t =>
  for_each (listdir t []) (fun project_folder t' =>
    if negb (isdir t' [project_folder]) then skip t'
    else match dict_get project_folder assets_hierarchy with
         | None => rmtree [project_folder] t'
         | Some categories => cleanup_project project_folder categories t'
         end) t.

Definition hidden_folders : list string := ["__temp"; "__tools"; "__config"].

(** The hidden folders below one directory. *)
Definition make_hidden (p : path) : action :=
  for_each hidden_folders (fun folder => makedirs (p ++ [folder])).

(** The rounds of the loops of [create_hidden_folders], from the inside
    out; here too a name is one component of the path. *)
Definition hidden_asset (project category : string) (asset : json) : action :=
  lift (py_getitem asset "db_name") (fun v =>
  lift (as_component v) (fun db_name =>
    makedirs [project; category; db_name] >>
    make_hidden [project; category; db_name])).

Definition hidden_category (project : string) (categories : json) (c : json) : action :=
  lift (as_component c) (fun category =>
    make_hidden [project; category] >>
    lift (py_getitem categories category) (fun cat_val =>
    lift (py_iter (asset_list_of cat_val)) (fun assets =>
      for_each assets (hidden_asset project category)))).

Definition hidden_project (assets_hierarchy : dict) (project : string) : action :=
  make_hidden [project] >>
  lift (py_getitem (JObj assets_hierarchy) project) (fun categories =>
  lift (py_iter categories) (fun cs =>
    for_each cs (hidden_category project categories))).

Definition create_hidden_folders (assets_hierarchy : dict) : action :=
  for_each (dict_keys assets_hierarchy) (hidden_project assets_hierarchy).

(** The first loop of [sync_filesystem_with_json]. *)
Definition ensure_present (assets_hierarchy : dict) : action :=
  makedirs [] >> for_each assets_hierarchy ensure_project.

Definition sync_filesystem_with_json (assets_hierarchy : dict) : action :=
  ensure_present assets_hierarchy >>
  cleanup_filesystem assets_hierarchy >>
  create_hidden_folders assets_hierarchy.

(** A name that is one path component for [os.path.join] and for the
    system, on POSIX and on Windows alike: it is not empty, holds none of
    [/], [\] and [:], and does not end in a dot or a space, so that it is
    neither [.] nor [..]. *)
Definition separator (c : ascii) : bool :=
  Ascii.eqb c "/"%char || Ascii.eqb c (ascii_of_nat 92) || Ascii.eqb c ":"%char.

Fixpoint no_separator (s : string) : bool :=
  match s with
  | EmptyString => true
  | String c r => negb (separator c) && no_separator r
  end.

Definition plain (name : string) : bool :=
  no_separator name &&
  match String.rev name with
  | EmptyString => false
  | String c _ => negb (Ascii.eqb c "."%char) && negb (Ascii.eqb c " "%char)
  end.

(** Every name of the document that the passes join to a path is plain:
    the projects, the categories, and the identifiers that are strings. *)
Definition plain_asset (a : json) : bool :=
  match py_getitem a "db_name" with
  | Ok (JStr db_name) => plain db_name
  | _ => true
  end.

Definition plain_category (cat_val : json) : bool :=
  match py_iter (asset_list_of cat_val) with
  | Ok assets => forallb plain_asset assets
  | Raise _ => true
  end.

Definition plain_project (categories : json) : bool :=
  match categories with
  | JObj cats => forallb (fun cv => plain cv.1 && plain_category cv.2) cats
  | _ => true
  end.

Definition plain_names (assets_hierarchy : dict) : bool :=
  forallb (fun pv => plain pv.1 && plain_project pv.2) assets_hierarchy.

(* ===================================================================== *)
(** * The store: [ProjectManagerUI] *)
(* ===================================================================== *)

(** The fields of [ProjectManagerUI] that the operations read and write,
    with the two things outside the process they act on: [saved], the
    content of [PMT.json], and [tree], the directory tree.  The windows
    and the launcher ([HoudiniConnection]) are not modelled; the answers
    of the dialogs are arguments of the operations. *)
Record state : Type := State {
  assets_hierarchy : dict;
  naming_conventions : json;
  projects : list string;
  saved : json;
  tree : fs
}.

(** What the user is shown: message boxes, and an exception that leaves
    a handler. *)
Inductive event : Type :=
| Warning (title text : string)
| Information (title text : string)
| Uncaught (e : exception).

Definition with_hierarchy (h : dict) (s : state) : state :=
  State h (naming_conventions s) (projects s) (saved s) (tree s).
Definition with_projects (l : list string) (s : state) : state :=
  State (assets_hierarchy s) (naming_conventions s) l (saved s) (tree s).
Definition with_tree (t : fs) (s : state) : state :=
  State (assets_hierarchy s) (naming_conventions s) (projects s) (saved s) t.
Definition with_saved (v : json) (s : state) : state :=
  State (assets_hierarchy s) (naming_conventions s) (projects s) v (tree s).

Definition master_assets : string := "Master Assets".

Definition master_categories : json :=
  JObj [("Company Logo", JArr []); ("Marketing Materials", JArr []);
        ("Master Materials", JArr []); ("Master Textures", JArr []);
        ("Master Assets", JArr [])].

Definition default_categories : json :=
  JObj [("Static Meshes", JArr []); ("Textures", JArr []);
        ("Simulations", JArr []); ("Flipbooks", JArr [])].

(** [l.remove(x)]: the first occurrence goes. *)
Fixpoint list_remove (x : string) (l : list string) : list string :=
  match l with
  | [] => []
  | y :: r => if decide (x = y) then r else y :: list_remove x r
  end.

(** [l.index(x)] *)
Fixpoint list_index (x : string) (l : list string) : option nat :=
  match l with
  | [] => None
  | y :: r => if decide (x = y) then Some 0 else S <$> list_index x r
  end.

(** [__init__], from the parsed content of [PMT.json] onwards. *)
Definition init (raw : json) (t : fs) : state :=
  let data := load_assets_from_json raw in
  let conventions := default (JObj []) (dict_get "naming_conventions" data) in
  let hierarchy := dict_del "naming_conventions" data in
  let hierarchy :=
    if dict_mem master_assets hierarchy then hierarchy
    else dict_set master_assets master_categories hierarchy in
  let names := dict_keys hierarchy in
  let names :=
    if bool_decide (master_assets ∈ names)
    then master_assets :: list_remove master_assets names
    else names in
  State hierarchy conventions names raw t.

(** [save_assets_to_json]: the file is written, then the tree is
    synchronised; an exception from either is caught and reported. *)
Definition save_assets_to_json (s : state) : state * list event :=
  let data := dict_set "naming_conventions" (naming_conventions s) (assets_hierarchy s) in
  let s1 := with_saved (JObj data) s in
  let '(t, o) := sync_filesystem_with_json (assets_hierarchy s) (tree s1) in
  (with_tree t s1,
   match o with
   | Done => []
   | Raised _ => [Warning "Error" "Could not save hierarchy"]
   end).

Definition add_project (text : string) (s : state) : state * list event :=
  let project_name := strip text in
  if bool_decide (project_name = "") then
    (s, [Warning "Warning" "Please enter a project name."])
  else if bool_decide (project_name = master_assets) then
    (s, [Warning "Warning" "Cannot use reserved name 'Company Assets'."])
  else if bool_decide (project_name ∈ projects s) then
    (s, [Warning "Warning" "Project already exists."])
  else
    let s1 := with_projects (projects s ++ [project_name]) s in
    if dict_mem project_name (assets_hierarchy s1) then (s1, [])
    else save_assets_to_json
           (with_hierarchy (dict_set project_name default_categories (assets_hierarchy s1)) s1).

(** The guarded [os.rename] of the two rename handlers: attempted when
    [old] exists, and a failure is reported, not propagated. *)
Definition try_rename (permitted : bool) (old new : path) (what : string) (t : fs)
  : fs * list event :=
  if path_exists t old then
    match os_rename permitted old new t with
    | (t', Done) => (t', [])
    | (t', Raised _) => (t', [Warning "Error" ("Failed to rename " +:+ what)])
    end
  else (t, []).

(** The two renames of [edit_asset_clicked]: the data file inside the old
    folder first, then the folder. *)
Definition rename_on_disk (file_permitted folder_permitted : bool)
    (project category old_db_name new_db_name : string) (t : fs) : fs * list event :=
  let folder := [project; category; old_db_name] in
  let '(t1, warned1) :=
    try_rename file_permitted
      (folder ++ [old_db_name +:+ ".hipnc"])
      (folder ++ [new_db_name +:+ ".hipnc"]) "Houdini file" t in
  let '(t2, warned2) :=
    try_rename folder_permitted folder [project; category; new_db_name] "asset folder" t1 in
  (t2, warned1 ++ warned2).

(** [rename_project]: [selected_items] are the texts of the selected rows
    of the project list, [new_name] and [ok] the answer of the input
    dialog, [permitted] whether the system lets the folder be renamed. *)
Definition rename_project (selected_items : list string) (new_name : string) (ok : bool)
    (permitted : bool) (s : state) : state * list event :=
  match selected_items with
  | [] => (s, [Warning "Warning" "Please select a project to rename."])
  | old_name :: _ =>
      if bool_decide (old_name = master_assets) then
        (s, [Warning "Warning" "Cannot rename Company Assets."])
      else if negb (ok && negb (bool_decide (new_name = ""))) then (s, [])
      else
        let new_name := strip new_name in
        if bool_decide (new_name = "") then
          (s, [Warning "Warning" "Project name cannot be empty."])
        else if bool_decide (new_name ∈ projects s) || bool_decide (new_name = master_assets) then
          (s, [Warning "Warning" "Project name already exists or is reserved."])
        else
          match list_index old_name (projects s) with
          | None => (s, [Uncaught ValueError])
          | Some idx =>
              let s1 := with_projects (<[idx := new_name]> (projects s)) s in
              match dict_get old_name (assets_hierarchy s1) with
              | None => (s1, [Uncaught KeyError])
              | Some categories =>
                  let s2 := with_hierarchy
                              (dict_set new_name categories
                                 (dict_del old_name (assets_hierarchy s1))) s1 in
                  let '(t, warned) :=
                    try_rename permitted [old_name] [new_name] "project folder" (tree s2) in
                  let '(s3, failed) := save_assets_to_json (with_tree t s2) in
                  (s3, warned ++ failed ++
                       [Information "Project Renamed"
                          ("Project renamed to '" +:+ new_name +:+ "'.")])
              end
          end
  end.

(** [delete_project]: [confirm] is the answer of the question box. *)
Definition delete_project (selected_items : list string) (confirm : bool) (s : state)
  : state * list event :=
  match selected_items with
  | [] => (s, [Warning "Warning" "Please select a project to delete."])
  | project_name :: _ =>
      if bool_decide (project_name = master_assets) then
        (s, [Warning "Warning" "Cannot delete Company Assets."])
      else if negb confirm then (s, [])
      else
        match list_index project_name (projects s) with
        | None => (s, [Uncaught ValueError])
        | Some _ =>
            if negb (dict_mem project_name (assets_hierarchy s)) then (s, [Uncaught KeyError])
            else
              let s1 := with_hierarchy (dict_del project_name (assets_hierarchy s)) s in
              let s2 := with_projects (list_remove project_name (projects s1)) s1 in
              let '(s3, failed) := save_assets_to_json s2 in
              (s3, failed ++ [Information "Project Deleted"
                                ("Project '" +:+ project_name +:+ "' deleted.")])
        end
  end.

(** [get_assets]: the list a category holds, bare or inside its wrapper. *)
Definition get_assets (h : dict) (project category : string) : result json :=
  match dict_get project h with
  | None => Raise KeyError
  | Some categories => cat_val ← py_getitem categories category; Ok (asset_list_of cat_val)
  end.

(** The list object of a category replaced by [l], where it is held. *)
Definition set_asset_list (cat_val : json) (l : list json) : json :=
  if is_wrapper cat_val
  then match cat_val with JObj o => JObj (dict_set "assets" (JArr l) o) | _ => cat_val end
  else JArr l.

(** The hierarchy after an in-place change of the list [get_assets]
    returned for [project] and [category]. *)
Definition put_assets (h : dict) (project category : string) (l : list json) : dict :=
  match dict_get project h with
  | Some (JObj cats) =>
      match dict_get category cats with
      | Some cat_val =>
          dict_set project (JObj (dict_set category (set_asset_list cat_val l) cats)) h
      | None => h
      end
  | _ => h
  end.

(** [a == b] on loaded values: numbers compare by value across [bool]
    and [int], lists position by position, dicts key by key. *)
Fixpoint py_eq (a b : json) : bool :=
  match a, b with
  | JNull, JNull => true
  | JBool x, JBool y => bool_decide (x = y)
  | JBool x, JInt n | JInt n, JBool x => bool_decide (n = if x then 1%Z else 0%Z)
  | JInt n, JInt m => bool_decide (n = m)
  | JStr s, JStr s' => bool_decide (s = s')
  | JArr l, JArr l' =>
      (fix go (l l' : list json) : bool :=
         match l, l' with
         | [], [] => true
         | x :: r, y :: r' => py_eq x y && go r r'
         | _, _ => false
         end) l l'
  | JObj d, JObj d' =>
      bool_decide (length d = length d') &&
      (fix go (d : list (string * json)) : bool :=
         match d with
         | [] => true
         | (k, v) :: r =>
             match dict_get k d' with
             | Some v' => py_eq v v'
             | None => false
             end && go r
         end) d
  | _, _ => false
  end.

(** [any(a["db_name"] == db_name for a in assets)] *)
Fixpoint any_db_name (db_name : string) (assets : list json) : result bool :=
  match assets with
  | [] => Ok false
  | a :: r =>
      v ← py_getitem a "db_name";
      if is_str db_name v then Ok true else any_db_name db_name r
  end.

(** [any(a["db_name"] == db_name for a in assets if a != asset)] *)
Fixpoint any_other_db_name (asset : json) (db_name : string) (assets : list json)
  : result bool :=
  match assets with
  | [] => Ok false
  | a :: r =>
      if py_eq a asset then any_other_db_name asset db_name r
      else v ← py_getitem a "db_name";
           if is_str db_name v then Ok true else any_other_db_name asset db_name r
  end.

(** [find_asset_by_display_name], with the position of what it returns. *)
Fixpoint find_asset_by_display_name (assets : list json) (display_name : string)
  : result (option (nat * json)) :=
  match assets with
  | [] => Ok None
  | a :: r =>
      v ← py_getitem a "display_name";
      if is_str display_name v then Ok (Some (0, a))
      else found ← find_asset_by_display_name r display_name;
           Ok (match found with Some (i, x) => Some (S i, x) | None => None end)
  end.

(** [assets.remove(asset)]: the first element equal to [asset] goes. *)
Fixpoint remove_asset (asset : json) (assets : list json) : list json :=
  match assets with
  | [] => []
  | a :: r => if py_eq a asset then r else a :: remove_asset asset r
  end.

Definition new_asset (display_name db_name : string) : json :=
  JObj [("display_name", JStr display_name); ("db_name", JStr db_name)].

(** [asset["display_name"] = ...; asset["db_name"] = ...] *)
Definition renamed_asset (asset : json) (display_name db_name : string) : json :=
  match asset with
  | JObj o => JObj (dict_set "db_name" (JStr db_name)
                      (dict_set "display_name" (JStr display_name) o))
  | _ => asset
  end.

Section Naming.

(** What an f-string puts for a value that is not a string: Python's
    [str()] of it, which this embedding leaves open. *)
Variable py_repr : json -> string.

Definition format_value (v : json) : string :=
  match v with JStr s => s | _ => py_repr v end.

(** The naming lines of [create_asset_clicked] and [edit_asset_clicked]:
    the identifier for [display_name] in [category].  [variant] is the
    answer of the texture-type dialog, [None] when it is dismissed; the
    result is [None] when the handler returns there. *)
Definition resolve_db_name (conventions : json) (category display_name : string)
    (variant : option string) : result (option string) :=
  convention ← py_get conventions category (JObj []);
  prefix ← py_get convention "prefix" (JStr "");
  suffix ← py_get convention "suffix" (JStr "");
  has_variants ← (if decide (category = "Textures")
                  then py_in "suffixes" convention else Ok false);
  if has_variants : bool then
    suffixes ← py_getitem convention "suffixes";
    _ ← py_items suffixes;
    match variant with
    | None => Ok None
    | Some suffix_type =>
        suffix ← py_getitem suffixes suffix_type;
        Ok (Some (format_value prefix +:+ replace_spaces display_name
                  +:+ format_value suffix))
    end
  else Ok (Some (format_value prefix +:+ replace_spaces display_name
                 +:+ format_value suffix)).

(** [create_asset_clicked] for the selected [project] and [category];
    [display_name] and [ok] are the answer of the input dialog. *)
Definition create_asset_clicked (project category : string) (display_name : string)
    (ok : bool) (variant : option string) (s : state) : state * list event :=
  if negb (ok && negb (bool_decide (display_name = ""))) then (s, [])
  else
    match resolve_db_name (naming_conventions s) category display_name variant with
    | Raise e => (s, [Uncaught e])
    | Ok None => (s, [])
    | Ok (Some db_name) =>
        match assets ← get_assets (assets_hierarchy s) project category;
              l ← py_iter assets;
              dup ← any_db_name db_name l;
              Ok (assets, dup) with
        | Raise e => (s, [Uncaught e])
        | Ok (_, true) => (s, [Warning "Duplicate" "Asset name already exists."])
        | Ok (JArr l, false) =>
            let h := put_assets (assets_hierarchy s) project category
                       (l ++ [new_asset display_name db_name]) in
            let '(s1, failed) := save_assets_to_json (with_hierarchy h s) in
            (s1, failed ++ [Information "Asset Created"
                              ("Asset '" +:+ display_name +:+ "' created.")])
        | Ok (_, false) => (s, [Uncaught AttributeError])
        end
    end.

(** [edit_asset_clicked] for the asset row [display_name];
    [file_permitted] and [folder_permitted] say whether the system lets
    the data file and the asset folder be renamed. *)
Definition edit_asset_clicked (project category : string) (display_name : string)
    (new_display_name : string) (ok : bool) (variant : option string)
    (file_permitted folder_permitted : bool) (s : state) : state * list event :=
  match assets ← get_assets (assets_hierarchy s) project category;
        l ← py_iter assets;
        found ← find_asset_by_display_name l display_name;
        Ok (assets, l, found) with
  | Raise e => (s, [Uncaught e])
  | Ok (_, _, None) =>
      (s, [Warning "Error" ("Asset '" +:+ display_name +:+ "' not found.")])
  | Ok (assets, l, Some (i, asset)) =>
      if negb (ok && negb (bool_decide (new_display_name = ""))) then (s, [])
      else
        match resolve_db_name (naming_conventions s) category new_display_name variant with
        | Raise e => (s, [Uncaught e])
        | Ok None => (s, [])
        | Ok (Some new_db_name) =>
            match any_other_db_name asset new_db_name l with
            | Raise e => (s, [Uncaught e])
            | Ok true => (s, [Warning "Duplicate" "Asset name already exists."])
            | Ok false =>
                match old ← py_getitem asset "db_name"; as_component old with
                | Raise e => (s, [Uncaught e])
                | Ok old_db_name =>
                    let '(t, warned) :=
                      rename_on_disk file_permitted folder_permitted
                        project category old_db_name new_db_name (tree s) in
                    let h := put_assets (assets_hierarchy s) project category
                               (<[i := renamed_asset asset new_display_name new_db_name]> l) in
                    let '(s1, failed) :=
                      save_assets_to_json (with_tree t (with_hierarchy h s)) in
                    (s1, warned ++ failed ++
                         [Information "Asset Renamed"
                            ("Asset renamed to '" +:+ new_display_name +:+ "'.")])
                end
            end
        end
  end.

End Naming.

(** [delete_asset_clicked] for the asset row [display_name]. *)
Definition delete_asset_clicked (project category : string) (display_name : string)
    (confirm : bool) (s : state) : state * list event :=
  match assets ← get_assets (assets_hierarchy s) project category;
        l ← py_iter assets;
        found ← find_asset_by_display_name l display_name;
        Ok (l, found) with
  | Raise e => (s, [Uncaught e])
  | Ok (_, None) =>
      (s, [Warning "Error" ("Asset '" +:+ display_name +:+ "' not found in list.")])
  | Ok (l, Some (_, asset)) =>
      if negb confirm then (s, [])
      else
        let h := put_assets (assets_hierarchy s) project category (remove_asset asset l) in
        let '(s1, failed) := save_assets_to_json (with_hierarchy h s) in
        (s1, failed ++ [Information "Asset Deleted"
                          ("Asset '" +:+ display_name +:+ "' deleted.")])
  end.

(** The public operations, with the answers of their dialogs. *)
Inductive operation : Type :=
| AddProject (text : string)
| RenameProject (selected_items : list string) (new_name : string) (ok permitted : bool)
| DeleteProject (selected_items : list string) (confirm : bool)
| CreateAsset (project category display_name : string) (ok : bool) (variant : option string)
| EditAsset (project category display_name new_display_name : string) (ok : bool)
    (variant : option string) (file_permitted folder_permitted : bool)
| DeleteAsset (project category display_name : string) (confirm : bool).

Definition step (py_repr : json -> string) (op : operation) (s : state)
  : state * list event :=
  match op with
  | AddProject text => add_project text s
  | RenameProject sel new_name ok permitted => rename_project sel new_name ok permitted s
  | DeleteProject sel confirm => delete_project sel confirm s
  | CreateAsset p c d ok v => create_asset_clicked py_repr p c d ok v s
  | EditAsset p c d n ok v fp dp => edit_asset_clicked py_repr p c d n ok v fp dp s
  | DeleteAsset p c d confirm => delete_asset_clicked p c d confirm s
  end.

(** The state after a sequence of operations. *)
Definition run (py_repr : json -> string) (ops : list operation) (s : state) : state :=
  foldl (fun s op => (step py_repr op s).1) s ops.

(** How often [x] occurs in [l]. *)
Definition occurrences (x : string) (l : list string) : nat :=
  length (filter (fun y => y = x) l).

(** The keys of the parsed file when it is a dict. *)
Definition top_keys (raw : json) : list string :=
  match raw with JObj d => dict_keys d | _ => [] end.

(** The project list mirrors the keys of the hierarchy, without
    repetition, and the reserved project is among them. *)
Definition store_ok (s : state) : Prop :=
  NoDup (dict_keys (assets_hierarchy s)) /\
  NoDup (projects s) /\
  (forall x, x ∈ projects s <-> x ∈ dict_keys (assets_hierarchy s)) /\
  master_assets ∈ dict_keys (assets_hierarchy s).

(** An asset operation changes neither the project list, nor the
    conventions, nor the keys of the hierarchy. *)
Definition same_frame (s s' : state) : Prop :=
  projects s' = projects s /\
  naming_conventions s' = naming_conventions s /\
  dict_keys (assets_hierarchy s') = dict_keys (assets_hierarchy s).

(** The conventions are as before, and the saved file is either as before
    or the hierarchy of [s'] with the conventions put back under their
    key. *)
Definition conventions_kept (s s' : state) : Prop :=
  naming_conventions s' = naming_conventions s /\
  (saved s' = saved s \/
   saved s' = JObj (dict_set "naming_conventions" (naming_conventions s)
                      (assets_hierarchy s'))).

(** An entry of an asset list that carries an identifier, and one that
    carries the identifier [db_name]. *)
Definition has_db_name (a : json) : Prop := exists v, py_getitem a "db_name" = Ok v.
Definition named (db_name : string) (a : json) : Prop :=
  py_getitem a "db_name" = Ok (JStr db_name).

(** The specification's [removeWhitespace], by its words: the name with
    every whitespace character taken out.  It is compared below with
    [replace_spaces], which is what the code applies. *)
Fixpoint removeWhitespace (s : string) : string :=
  match s with
  | EmptyString => EmptyString
  | String c r => if is_space c then removeWhitespace r else String c (removeWhitespace r)
  end.

(** A name whose only whitespace characters are spaces. *)
Fixpoint only_spaces (s : string) : bool :=
  match s with
  | EmptyString => true
  | String c r => (negb (is_space c) || Ascii.eqb c " "%char) && only_spaces r
  end.

(** An entry of a convention as the f-string renders it, [""] when the
    convention has no such entry. *)
Definition convention_part (py_repr : json -> string) (convention : dict) (key : string)
  : string :=
  format_value py_repr (default (JStr "") (dict_get key convention)).

Definition tab : ascii := ascii_of_nat 9.
Definition hero_tab_sword : string := "Hero" +:+ String tab "Sword".

Definition mesh_conventions : json :=
  JObj [("Static Meshes", JObj [("prefix", JStr "SM_"); ("suffix", JStr "")])].

Definition flipbook_conventions : json :=
  JObj [("Flipbooks", JObj [("prefix", JStr "FB_");
                            ("suffixes", JObj [("Loop", JStr "_L")])])].

Definition texture_conventions : json :=
  JObj [("Textures", JObj [("suffixes", JObj [("Diffuse", JStr "_D")])])].

Definition no_repr : json -> string := fun _ => "".

Definition one_project (project category : string) (assets : list json) : dict :=
  [(master_assets, master_categories); (project, JObj [(category, JArr assets)])].

Definition flipbook_state : state :=
  State (one_project "Show" "Flipbooks" []) flipbook_conventions
        [master_assets; "Show"] (JObj []) ∅.

(** [doc[project][category]] in a saved document. *)
Definition saved_category (doc : json) (project category : string) : result json :=
  categories ← py_getitem doc project; py_getitem categories category.

Definition wrapped_raw : json :=
  JObj [("Show", JObj [("Rocks", JObj [("assets", JArr [JStr "Mossy Rock"])])])].

Definition hero_sword : json := new_asset "Hero Sword" "SM_HeroSword".

Definition mesh_state : state :=
  State (one_project "Show" "Static Meshes" [hero_sword]) mesh_conventions
        [master_assets; "Show"] (JObj []) ∅.

Definition canonical_doc : dict :=
  [("Show", JObj [("Static Meshes", JArr [hero_sword])]);
   ("naming_conventions", mesh_conventions)].

(* ===================================================================== *)
(** * What the passes do to the tree, path by path *)
(* ===================================================================== *)

(** Every entry below the top level lies in a directory. *)
Definition parent_closed (t : fs) : Prop :=
  forall q x, q <> [] -> is_Some (t !! (q ++ [x])) -> t !! q = Some KDir.

(** [q] is on the way to one of the paths [ps]. *)
Definition covered (ps : list path) (q : path) : Prop :=
  q <> [] /\ Exists (fun p => q `prefix_of` p) ps.

(** [asset_file] is swept from a category whose identifiers are
    [db_names]: its extension is [".txt"] and its base name is none of
    them. *)
Definition unmatched (db_names : list json) (asset_file : string) : bool :=
  bool_decide ((splitext asset_file).2 = ".txt")
  && negb (existsb (is_str (splitext asset_file).1) db_names).

(** The entry at [q] after the loop over [os.listdir(category_path)]. *)
Definition after_category (db_names : list json) (project category : string)
    (t : fs) (q : path) : option kind :=
  match q with
  | [n; c; x] =>
      if decide (n = project /\ c = category) then
        if unmatched db_names x then None else t !! q
      else t !! q
  | _ => t !! q
  end.

(** The identifiers of a category as [cleanup_filesystem] collects them. *)
Definition category_db_names (categories : json) (category : string) : result (list json) :=
  cat_val ← py_getitem categories category; db_name_set (asset_list_of cat_val).

(** The entry at [q] after the loop over [os.listdir(project_path)]. *)
Definition after_project (project : string) (categories : json) (t : fs) (q : path)
  : option kind :=
  match q with
  | n :: c :: _ =>
      if decide (n = project) then
        if isdir t [project; c] then
          match py_in c categories with
          | Ok false => None
          | Ok true =>
              match category_db_names categories c with
              | Ok db_names => after_category db_names project c t q
              | Raise _ => t !! q
              end
          | Raise _ => t !! q
          end
        else t !! q
      else t !! q
  | _ => t !! q
  end.

(** The entry at [q] after [cleanup_filesystem]. *)
Definition after_cleanup (assets_hierarchy : dict) (t : fs) (q : path) : option kind :=
  match q with
  | n :: _ =>
      if isdir t [n] then
        match dict_get n assets_hierarchy with
        | None => None
        | Some categories => after_project n categories t q
        end
      else t !! q
  | [] => t !! q
  end.

#[global] Instance covered_dec ps q : Decision (covered ps q).
Proof. unfold covered. apply _. Defined.

(** The part of a path that selects the iteration of a loop over a
    listing: the project folder, the category folder of [project], the
    entry of [category]. *)
Definition top_folder (q : path) : option string := head q.

Definition category_folder_of (project : string) (q : path) : option string :=
  match q with
  | n :: c :: _ => if decide (n = project) then Some c else None
  | _ => None
  end.

Definition entry_of (project category : string) (q : path) : option string :=
  match q with
  | [n; c; x] => if decide (n = project /\ c = category) then Some x else None
  | _ => None
  end.

(** The document as the passes see it when every part has the expected
    shape: the identifiers of each category of each project. *)
Definition view_asset (a : json) : option string :=
  match py_getitem a "db_name" with
  | Ok (JStr d) => Some d
  | _ => None
  end.

Definition view_assets (cat_val : json) : option (list string) :=
  match py_iter (asset_list_of cat_val) with
  | Ok l => mapM view_asset l
  | Raise _ => None
  end.

Definition view_categories (categories : json) : option (list (string * list string)) :=
  match categories with
  | JObj cats =>
      mapM (fun c => cat_val ← dict_get c cats; ds ← view_assets cat_val; Some (c, ds))
           (dict_keys cats)
  | _ => None
  end.

Definition view (h : dict) : option (list (string * list (string * list string))) :=
  mapM (fun p => categories ← dict_get p h; cs ← view_categories categories; Some (p, cs))
       (dict_keys h).

(** The directories the first loop of the synchronisation asks for. *)
Definition ensure_paths (D : list (string * list (string * list string))) : list path :=
  D ≫= (fun '(p, cs) => [p] :: ((fun cd => [p; cd.1]) <$> cs)).

Definition hidden_of (p : path) : list path := (fun f => p ++ [f]) <$> hidden_folders.

Definition asset_paths (p c : string) (d : string) : list path :=
  [p; c; d] :: hidden_of [p; c; d].

Definition category_paths (p : string) (cd : string * list string) : list path :=
  hidden_of [p; cd.1] ++ (cd.2 ≫= asset_paths p cd.1).

Definition project_paths (pc : string * list (string * list string)) : list path :=
  hidden_of [pc.1] ++ (pc.2 ≫= category_paths pc.1).

(** The directories [create_hidden_folders] asks for. *)
Definition hidden_paths (D : list (string * list (string * list string))) : list path :=
  D ≫= project_paths.

(** No identifier is itself swept from its category: one that ends in
    [".txt"] has its base name among the identifiers. *)
Definition txt_safe (D : list (string * list (string * list string))) : bool :=
  forallb (fun pc =>
    forallb (fun cd =>
      forallb (fun d => negb (unmatched (JStr <$> cd.2) d)) cd.2) pc.2) D.

(** Nothing in a known category is to be swept. *)
Definition swept_clean (h : dict) (t : fs) : Prop :=
  forall p categories c db_names x,
    dict_get p h = Some categories ->
    py_in c categories = Ok true ->
    category_db_names categories c = Ok db_names ->
    unmatched db_names x = true ->
    t !! [p; c; x] = None.

(** The lookups of [cleanup_filesystem] in the document do not raise. *)
Definition cleanup_safe (h : dict) : Prop :=
  forall p categories c,
    dict_get p h = Some categories ->
    exists known, py_in c categories = Ok known /\
      (known = true -> exists db_names, category_db_names categories c = Ok db_names).

(** A tree made of directories only. *)
Definition dirs (ps : list path) : fs := list_to_map ((fun p => (p, KDir)) <$> ps).

Definition show_document : dict := one_project "Show" "Textures" [].

(** The tree a first synchronisation of [show_document] makes from
    nothing. *)
Definition show_tree : fs := (sync_filesystem_with_json show_document ∅).1.

(** Two projects with one empty category each, and a tree in which each
    project folder holds a stale asset folder named [old.txt] in its
    category and a folder [X] that is no category. *)
Definition two_projects : dict :=
  [("A", JObj [("C", JArr [])]); ("B", JObj [("C", JArr [])])].

Definition stale_tree : fs :=
  dirs [["A"]; ["A"; "C"]; ["A"; "C"; "old.txt"]; ["A"; "X"];
        ["B"]; ["B"; "C"]; ["B"; "C"; "old.txt"]; ["B"; "X"]].

(* ===================================================================== *)
(** * Reading the rows of a category *)
(* ===================================================================== *)

(** [get_display_names]: [[a["display_name"] for a in assets]], the rows
    [show_asset_buttons] puts in the asset window. *)
Definition get_display_names (assets : json) : result (list json) :=
  l ← py_iter assets; for_result (fun a => py_getitem a "display_name") l.

(** A value as [json.load] yields it: no dict in it has a key twice. *)
Fixpoint wf_json (v : json) : bool :=
  match v with
  | JArr l => forallb wf_json l
  | JObj d =>
      bool_decide (NoDup (dict_keys d)) &&
      (fix go (d : list (string * json)) : bool :=
         match d with
         | [] => true
         | (_, x) :: r => wf_json x && go r
         end) d
  | _ => true
  end.

(** The identifiers of a category, when it holds a list of objects with
    string identifiers. *)
Definition identifiers (h : dict) (project category : string) : option (list string) :=
  match get_assets h project category with
  | Ok (JArr l) => mapM view_asset l
  | _ => None
  end.

(** The operations on the assets of a category. *)
Definition asset_operation (op : operation) : bool :=
  match op with
  | CreateAsset _ _ _ _ _ | EditAsset _ _ _ _ _ _ _ _ | DeleteAsset _ _ _ _ => true
  | _ => false
  end.

(* ===================================================================== *)
(** * What a pass may do to the tree *)
(* ===================================================================== *)

(** [a] takes every tree to one that is [R]-related to it, whether it ends
    normally or in an exception. *)
Definition respects (R : fs -> fs -> Prop) (a : action) : Prop :=
  forall t, R t (a t).1.

(** [t'] is [t] without some of its entries. *)
Definition shrunk (t t' : fs) : Prop :=
  forall q k, t' !! q = Some k -> t !! q = Some k.

(** [t'] is [t] with directories added where nothing was. *)
Definition grown (t t' : fs) : Prop :=
  forall q, t' !! q = t !! q \/ (t !! q = None /\ t' !! q = Some KDir).

(** Every file of [t'] is a file of [t]. *)
Definition no_new_file (t t' : fs) : Prop :=
  forall q, t' !! q = Some KFile -> t !! q = Some KFile.

(** Nothing at or below the top-level entry [n] differs between [t] and
    [t']. *)
Definition same_below (n : string) (t t' : fs) : Prop :=
  forall r, t' !! (n :: r) = t !! (n :: r).

(** A tree in which the category "Textures" of the project "Show" holds
    the folder of an asset [T_Old], with its data file, that the document
    [show_document] does not know. *)
Definition stale_asset_tree : fs :=
  <[ ["Show"; "Textures"; "T_Old"; "T_Old.hipnc"] := KFile ]>
    (dirs [["Show"]; ["Show"; "Textures"]; ["Show"; "Textures"; "T_Old"]]).

(** The state [mesh_state] with the folder of its asset on disk, the data
    file [SM_HeroSword.hipnc] and a texture in it. *)
Definition mesh_disk : fs :=
  <[ ["Show"; "Static Meshes"; "SM_HeroSword"; "SM_HeroSword.hipnc"] := KFile ]>
    (<[ ["Show"; "Static Meshes"; "SM_HeroSword"; "notes.md"] := KFile ]>
       (dirs [["Show"]; ["Show"; "Static Meshes"];
              ["Show"; "Static Meshes"; "SM_HeroSword"]])).

Definition mesh_state_on_disk : state := with_tree mesh_disk mesh_state.

(* ===================================================================== *)
(** * Results *)
(* ===================================================================== *)

(** ** Dicts and loops *)

Ltac unfold_bind := unfold mbind, mret, result_bind, result_ret in *.

Lemma dict_get_set_eq k v d : dict_get k (dict_set k v d) = Some v.
Proof.
  induction d as [|[k' v'] d IH]; simpl.
  - by rewrite decide_True.
  - destruct (decide (k = k')) as [->|Hne]; simpl.
    + by rewrite decide_True.
    + by rewrite decide_False.
Qed.

Lemma dict_get_set_ne k k' v d : k <> k' -> dict_get k (dict_set k' v d) = dict_get k d.
Proof.
  intros Hne. induction d as [|[k2 v2] d IH]; simpl.
  - by rewrite decide_False.
  - destruct (decide (k' = k2)) as [->|Hne2]; simpl.
    + by rewrite !decide_False.
    + destruct (decide (k = k2)); done.
Qed.

Lemma dict_set_set k v d : dict_set k v (dict_set k v d) = dict_set k v d.
Proof.
  induction d as [|[k' v'] d IH]; simpl.
  - by rewrite decide_True.
  - destruct (decide (k = k')) as [->|Hne]; simpl.
    + by rewrite decide_True.
    + rewrite decide_False by done. by rewrite IH.
Qed.

Lemma dict_get_del_eq k d : dict_get k (dict_del k d) = None.
Proof.
  unfold dict_del. induction d as [|[k' v'] d IH]; [done|].
  rewrite filter_cons. simpl. destruct (decide (k' <> k)) as [Hne|Heq]; simpl.
  - by rewrite decide_False.
  - done.
Qed.

Lemma dict_get_del_ne k k' d : k <> k' -> dict_get k (dict_del k' d) = dict_get k d.
Proof.
  intros Hne. unfold dict_del. induction d as [|[k2 v2] d IH]; [done|].
  rewrite filter_cons. simpl. destruct (decide (k2 <> k')) as [Hne2|Heq]; simpl.
  - by rewrite IH.
  - apply dec_stable in Heq. subst k2. by rewrite decide_False.
Qed.

Lemma dict_get_elem k v d : dict_get k d = Some v -> (k, v) ∈ d.
Proof.
  induction d as [|[k' v'] d IH]; simpl; [done|].
  destruct (decide (k = k')) as [->|Hne].
  - intros [= ->]. left.
  - intros H. right. by apply IH.
Qed.

Lemma dict_mem_keys k d : dict_mem k d = bool_decide (k ∈ dict_keys d).
Proof.
  unfold dict_mem, dict_keys. induction d as [|[k' v'] d IH]; simpl; [done|].
  destruct (decide (k = k')) as [->|Hne].
  - symmetry. apply bool_decide_eq_true. left.
  - rewrite IH. apply bool_decide_ext. rewrite elem_of_cons. tauto.
Qed.

Lemma for_result_fix {A} (f : A -> result A) l :
  Forall (fun x => f x = Ok x) l -> for_result f l = Ok l.
Proof.
  induction 1 as [|x l Hx _ IH]; simpl; [done|].
  unfold_bind. by rewrite Hx, IH.
Qed.

Lemma for_result_Forall2 {A B} (f : A -> result B) l l' :
  for_result f l = Ok l' -> Forall2 (fun x y => f x = Ok y) l l'.
Proof.
  revert l'. induction l as [|x l IH]; simpl; intros l'.
  - intros [= <-]. constructor.
  - unfold_bind. destruct (f x) as [y|] eqn:Hx; [|done].
    destruct (for_result f l) as [ys|] eqn:Hl; [|done].
    intros [= <-]. constructor; auto.
Qed.

Lemma for_result_idem {A} (f : A -> result A) l l' :
  (forall x y, f x = Ok y -> f y = Ok y) ->
  for_result f l = Ok l' -> for_result f l' = Ok l'.
Proof.
  intros Hf H. apply for_result_Forall2 in H. apply for_result_fix.
  induction H; constructor; eauto.
Qed.

(** A loop that rewrites the values of a dict leaves its keys alone. *)
Lemma for_result_keys (g : json -> result json) (d d' : dict) :
  for_result (fun '(k, v) => v' ← g v; Ok (k, v')) d = Ok d' ->
  dict_keys d' = dict_keys d.
Proof.
  unfold dict_keys. revert d'. induction d as [|[k v] d IH]; intros d'; simpl.
  - by intros [= <-].
  - unfold_bind. destruct (g v) as [w|]; [|done].
    destruct (for_result _ d) as [ys|] eqn:Hl; [|done].
    intros [= <-]. simpl. f_equal. by apply IH.
Qed.

(** ** Migration *)

Lemma migrate_entry_idem a : migrate_entry (migrate_entry a) = migrate_entry a.
Proof. by destruct a. Qed.

Lemma migrate_asset_list_idem a a' :
  migrate_asset_list a = Ok a' -> migrate_asset_list a' = Ok a'.
Proof.
  destruct a as [| | |s|l|d]; simpl; try done.
  - destruct s; [|done]. by intros [= <-].
  - intros [= <-]. simpl. f_equal. f_equal.
    rewrite <- list_fmap_compose. apply list_fmap_ext. intros _ x _. simpl.
    apply migrate_entry_idem.
  - destruct d; [|done]. by intros [= <-].
Qed.

Lemma migrate_asset_list_not_wrapper a a' :
  is_wrapper a = false -> migrate_asset_list a = Ok a' -> is_wrapper a' = false.
Proof.
  destruct a as [| | |s|l|d]; simpl; try done.
  - destruct s; [|done]. by intros _ [= <-].
  - by intros _ [= <-].
  - destruct d; [|done]. by intros _ [= <-].
Qed.

Lemma migrate_category_idem v v' :
  migrate_category v = Ok v' -> migrate_category v' = Ok v'.
Proof.
  unfold migrate_category. destruct (is_wrapper v) eqn:Hw.
  - destruct v as [| | | | |o]; try done. simpl in *. unfold_bind.
    unfold dict_mem in Hw. destruct (dict_get "assets" o) as [inner|] eqn:Hg; [|done].
    destruct (migrate_asset_list inner) as [inner'|] eqn:Hm; [|done].
    simpl. intros [= <-]. simpl. unfold dict_mem.
    rewrite dict_get_set_eq. simpl.
    rewrite (migrate_asset_list_idem _ _ Hm). by rewrite dict_set_set.
  - intros Hm. rewrite (migrate_asset_list_not_wrapper _ _ Hw Hm).
    by eapply migrate_asset_list_idem.
Qed.

Lemma migrate_category_item_idem x y :
  migrate_category_item x = Ok y -> migrate_category_item y = Ok y.
Proof.
  destruct x as [k v], y as [k2 v2]. unfold migrate_category_item. unfold_bind.
  destruct (migrate_category v) as [w|] eqn:Hv; [|done].
  intros [= <- <-]. by rewrite (migrate_category_idem _ _ Hv).
Qed.

Lemma migrate_category_item_keys d d' :
  for_result migrate_category_item d = Ok d' -> dict_keys d' = dict_keys d.
Proof. apply (for_result_keys migrate_category). Qed.

Lemma migrate_project_fix d1 d2 :
  dict_mem "Meshes" d1 = false ->
  for_result migrate_category_item d1 = Ok d2 ->
  migrate_project (JObj d2) = Ok (JObj d2).
Proof.
  intros Hm Hf. unfold migrate_project. simpl.
  rewrite dict_mem_keys, (migrate_category_item_keys _ _ Hf), <- dict_mem_keys, Hm.
  unfold_bind. simpl.
  by rewrite (for_result_idem _ _ _ migrate_category_item_idem Hf).
Qed.

Lemma migrate_project_idem c c' :
  migrate_project c = Ok c' -> migrate_project c' = Ok c'.
Proof.
  unfold migrate_project. destruct c as [| | |s|l|d]; simpl; try done.
  - unfold_bind. by destruct (str_contains "Meshes" s).
  - unfold_bind. by destruct (existsb (is_str "Meshes") l).
  - unfold_bind. fold (migrate_project c').
    destruct (dict_mem "Meshes" d) eqn:Hmem.
    + unfold dict_mem in Hmem. destruct (dict_get "Meshes" d) as [v|] eqn:Hg; [|done].
      simpl.
      destruct (for_result _ (dict_set "Static Meshes" v (dict_del "Meshes" d)))
        as [d2|] eqn:Hf; [|done].
      intros [= <-]. eapply migrate_project_fix; [|exact Hf].
      unfold dict_mem. rewrite dict_get_set_ne by done. by rewrite dict_get_del_eq.
    + simpl. destruct (for_result _ d) as [d2|] eqn:Hf; [|done].
      intros [= <-]. by eapply migrate_project_fix.
Qed.

Lemma migrate_project_item_idem x y :
  migrate_project_item x = Ok y -> migrate_project_item y = Ok y.
Proof.
  destruct x as [k v], y as [k2 v2]. unfold migrate_project_item.
  destruct (decide (k = "naming_conventions")) as [->|Hne].
  - intros [= <- <-]. by rewrite decide_True.
  - unfold_bind. destruct (migrate_project v) as [w|] eqn:Hv; [|done].
    intros [= <- <-]. rewrite decide_False by done.
    by rewrite (migrate_project_idem _ _ Hv).
Qed.

(** Replacing the conventions leaves the project loop where it was. *)
Lemma for_result_set_conventions nc d :
  for_result migrate_project_item d = Ok d ->
  for_result migrate_project_item (dict_set "naming_conventions" nc d)
  = Ok (dict_set "naming_conventions" nc d).
Proof.
  induction d as [|[k v] d IH]; cbn [for_result dict_set].
  - done.
  - unfold_bind.
    destruct (migrate_project_item (k, v)) as [[k2 v2]|] eqn:Hx; [|done].
    destruct (for_result migrate_project_item d) as [ys|] eqn:Hl; [|done].
    intros [= -> -> ->].
    destruct (decide ("naming_conventions" = k)) as [<-|Hne];
      cbn [for_result]; unfold_bind.
    + by rewrite Hl.
    + rewrite Hx. by rewrite IH.
Qed.

Lemma migrate_conventions_idem d d' :
  migrate_conventions d = Ok d' -> migrate_conventions d' = Ok d'.
Proof.
  unfold migrate_conventions.
  destruct (dict_get "naming_conventions" d) as [nc|] eqn:Hg.
  - unfold_bind. destruct (py_in "Meshes" nc) as [[]|] eqn:Hin; [| |done].
    + destruct nc as [| | |s|l|c]; try done. simpl in *.
      destruct (dict_get "Meshes" c) as [v|] eqn:Hm; [|done].
      intros [= <-]. rewrite dict_get_set_eq. simpl.
      unfold dict_mem. rewrite dict_get_set_ne by done.
      by rewrite dict_get_del_eq.
    + intros [= <-]. by rewrite Hg, Hin.
  - intros [= <-]. by rewrite Hg.
Qed.

Lemma migrate_conventions_loop d d' :
  for_result migrate_project_item d = Ok d ->
  migrate_conventions d = Ok d' ->
  for_result migrate_project_item d' = Ok d'.
Proof.
  intros Hd. unfold migrate_conventions.
  destruct (dict_get "naming_conventions" d) as [nc|]; [|by intros [= <-]].
  unfold_bind. destruct (py_in "Meshes" nc) as [[]|]; [| by intros [= <-] |done].
  destruct (py_pop nc "Meshes") as [[v rest]|]; [|done].
  destruct (py_setitem rest "Static Meshes" v) as [nc'|]; [|done].
  intros [= <-]. by apply for_result_set_conventions.
Qed.

Lemma migrate_idem x y : migrate x = Ok y -> migrate (JObj y) = Ok y.
Proof.
  unfold migrate. destruct x as [| | | | |d]; try done. simpl. unfold_bind.
  destruct (for_result migrate_project_item d) as [d1|] eqn:H1; [|done].
  intros H2.
  pose proof (for_result_idem _ _ _ migrate_project_item_idem H1) as H1'.
  rewrite (migrate_conventions_loop _ _ H1' H2).
  by rewrite (migrate_conventions_idem _ _ H2).
Qed.

Lemma forallb_true_Forall {A} (f : A -> bool) l :
  forallb f l = true -> Forall (fun x => f x = true) l.
Proof.
  induction l as [|x l IH]; simpl; [constructor|].
  intros [Hx Hl]%andb_prop. constructor; auto.
Qed.

Lemma migrate_entry_canonical a : canonical_entry a = true -> migrate_entry a = a.
Proof. by destruct a. Qed.

Lemma migrate_category_canonical cv :
  canonical_category cv = true -> migrate_category_item cv = Ok cv.
Proof.
  destruct cv as [k v]. unfold canonical_category, migrate_category_item. simpl.
  destruct v as [| | | |l|]; try done. intros Hl. unfold migrate_category. simpl.
  unfold_bind. do 3 f_equal. apply forallb_true_Forall in Hl.
  induction Hl as [|a l Ha _ IH]; [done|].
  rewrite fmap_cons, IH. f_equal. by apply migrate_entry_canonical.
Qed.

Lemma migrate_project_canonical c :
  canonical_project c = true -> migrate_project c = Ok c.
Proof.
  destruct c as [| | | | |d]; try done. simpl. intros [Hm Hc]%andb_prop.
  unfold migrate_project. simpl. apply negb_true_iff in Hm. rewrite Hm.
  unfold_bind. simpl. rewrite for_result_fix; [done|].
  apply forallb_true_Forall in Hc. eapply Forall_impl; [exact Hc|].
  intros cv Hcv. by apply migrate_category_canonical.
Qed.

Lemma migrate_canonical d : canonical (JObj d) = true -> migrate (JObj d) = Ok d.
Proof.
  simpl. intros Hd.
  apply forallb_true_Forall in Hd. unfold migrate. simpl. unfold_bind.
  rewrite for_result_fix.
  - unfold migrate_conventions.
    destruct (dict_get "naming_conventions" d) as [nc|] eqn:Hg; [|done].
    apply dict_get_elem in Hg. rewrite Forall_forall in Hd.
    specialize (Hd _ Hg). unfold canonical_item in Hd. simpl in Hd.
    destruct nc as [| | | | |c]; try done. simpl.
    apply negb_true_iff in Hd. by rewrite Hd.
  - eapply Forall_impl; [exact Hd|]. intros [k v] Hkv.
    unfold canonical_item in Hkv. unfold migrate_project_item. simpl in *.
    destruct (decide (k = "naming_conventions")); [done|].
    unfold_bind. by rewrite migrate_project_canonical.
Qed.

(** ** C6: schema migration is idempotent *)

(** C6.  [load_assets_from_json] applied to its own result gives that
    result again, for every parsed input, and a document already in the
    current shape (no ["Meshes"] category, no bare-string asset, no wrapped
    category) is returned as it is. *)
Theorem C6_normalize_idempotent :
  (forall x, load_assets_from_json (JObj (load_assets_from_json x))
             = load_assets_from_json x)
  /\ (forall d, canonical (JObj d) = true -> load_assets_from_json (JObj d) = d).
Proof.
  split.
  - intros x. unfold load_assets_from_json at 2 3.
    destruct (migrate x) as [y|e] eqn:Hx.
    + unfold load_assets_from_json. by rewrite (migrate_idem _ _ Hx).
    + reflexivity.
  - intros d Hd. unfold load_assets_from_json. by rewrite migrate_canonical.
Qed.

(** ** Keys of a dict under its updates *)

Lemma dict_keys_set_present k v d :
  k ∈ dict_keys d -> dict_keys (dict_set k v d) = dict_keys d.
Proof.
  unfold dict_keys. induction d as [|[k' v'] d IH]; simpl.
  - by intros ?%elem_of_nil.
  - intros Hk. destruct (decide (k = k')) as [->|Hne]; simpl; [done|].
    f_equal. apply IH. apply elem_of_cons in Hk as [?|?]; done.
Qed.

Lemma dict_keys_set_absent k v d :
  k ∉ dict_keys d -> dict_keys (dict_set k v d) = dict_keys d ++ [k].
Proof.
  unfold dict_keys. induction d as [|[k' v'] d IH]; simpl; [done|].
  intros Hk. apply not_elem_of_cons in Hk as [Hne Hk].
  rewrite decide_False by done. simpl. f_equal. by apply IH.
Qed.

Lemma dict_keys_del k d :
  dict_keys (dict_del k d) = filter (fun x => x <> k) (dict_keys d).
Proof.
  unfold dict_keys, dict_del. induction d as [|[k' v'] d IH]; [done|].
  rewrite fmap_cons, !filter_cons. cbn [fst].
  destruct (decide (k' <> k)); [rewrite fmap_cons; cbn [fst]|]; by rewrite IH.
Qed.

Lemma dict_mem_true k d : dict_mem k d = true <-> k ∈ dict_keys d.
Proof. rewrite dict_mem_keys. apply bool_decide_eq_true. Qed.

Lemma dict_mem_false k d : dict_mem k d = false <-> k ∉ dict_keys d.
Proof. rewrite dict_mem_keys. apply bool_decide_eq_false. Qed.

Lemma dict_get_Some_keys k v d : dict_get k d = Some v -> k ∈ dict_keys d.
Proof.
  intros H. apply dict_mem_true. unfold dict_mem. by rewrite H.
Qed.

Lemma dict_get_None_keys k d : dict_get k d = None <-> k ∉ dict_keys d.
Proof.
  rewrite <- dict_mem_false. unfold dict_mem. by destruct (dict_get k d).
Qed.

Lemma elem_of_dict_keys_set x k v d :
  x ∈ dict_keys (dict_set k v d) <-> x = k \/ x ∈ dict_keys d.
Proof.
  destruct (decide (k ∈ dict_keys d)) as [Hin|Hout].
  - rewrite dict_keys_set_present by done. split; [tauto|]. by intros [->|?].
  - rewrite dict_keys_set_absent by done. rewrite elem_of_app, list_elem_of_singleton.
    tauto.
Qed.

Lemma NoDup_dict_keys_set k v d :
  NoDup (dict_keys d) -> NoDup (dict_keys (dict_set k v d)).
Proof.
  intros Hd. destruct (decide (k ∈ dict_keys d)) as [Hin|Hout].
  - by rewrite dict_keys_set_present.
  - rewrite dict_keys_set_absent by done. apply NoDup_app. split_and!; [done| |].
    + intros x Hx ->%list_elem_of_singleton. done.
    + apply NoDup_singleton.
Qed.

Lemma elem_of_dict_keys_del x k d :
  x ∈ dict_keys (dict_del k d) <-> x ∈ dict_keys d /\ x <> k.
Proof. rewrite dict_keys_del, list_elem_of_filter. tauto. Qed.

Lemma NoDup_dict_keys_del k d :
  NoDup (dict_keys d) -> NoDup (dict_keys (dict_del k d)).
Proof. rewrite dict_keys_del. apply NoDup_filter. Qed.

Lemma put_assets_keys h p c l : dict_keys (put_assets h p c l) = dict_keys h.
Proof.
  unfold put_assets. destruct (dict_get p h) as [v|] eqn:Hp; [|done].
  destruct v as [| | | | |cats]; try done.
  destruct (dict_get c cats); [|done].
  apply dict_keys_set_present. by eapply dict_get_Some_keys.
Qed.

(** ** Lists of names *)

Lemma occurrences_absent x l : x ∉ l -> occurrences x l = 0.
Proof.
  unfold occurrences. induction l as [|y l IH]; [done|].
  intros [Hne Hx]%not_elem_of_cons. rewrite filter_cons_False by done. by apply IH.
Qed.

Lemma occurrences_once x l : x ∈ l -> NoDup l -> occurrences x l = 1.
Proof.
  induction l as [|y l IH]; intros Hx Hl.
  - by apply elem_of_nil in Hx.
  - apply NoDup_cons in Hl as [Hy Hl]. unfold occurrences. rewrite filter_cons.
    destruct (decide (y = x)) as [->|Hne]; simpl.
    + f_equal. by apply occurrences_absent.
    + apply IH; [|done]. apply elem_of_cons in Hx as [?|?]; done.
Qed.

Lemma elem_of_list_remove x y l :
  NoDup l -> x ∈ list_remove y l <-> x ∈ l /\ x <> y.
Proof.
  induction l as [|z l IH]; simpl; intros Hl.
  - rewrite elem_of_nil. tauto.
  - apply NoDup_cons in Hl as [Hz Hl]. destruct (decide (y = z)) as [->|Hne].
    + rewrite elem_of_cons. split; [|intuition congruence].
      intros Hx. split; [by right|]. by intros ->.
    + rewrite !elem_of_cons, IH by done. intuition congruence.
Qed.

Lemma NoDup_list_remove y l : NoDup l -> NoDup (list_remove y l).
Proof.
  induction l as [|z l IH]; simpl; intros Hl; [done|].
  apply NoDup_cons in Hl as [Hz Hl]. destruct (decide (y = z)); [done|].
  apply NoDup_cons. split; [|by apply IH].
  rewrite elem_of_list_remove by done. tauto.
Qed.

Lemma elem_of_insert_index x old new l i :
  NoDup l -> list_index old l = Some i ->
  x ∈ <[i := new]> l <-> x = new \/ (x ∈ l /\ x <> old).
Proof.
  revert i. induction l as [|z l IH]; simpl; intros i Hl; [done|].
  apply NoDup_cons in Hl as [Hz Hl]. destruct (decide (old = z)) as [->|Hne].
  - intros [= <-]. simpl. rewrite !elem_of_cons. split; [|intuition congruence].
    intros [?|Hx]; [by left|]. right. split; [by right|]. by intros ->.
  - destruct (list_index old l) as [j|] eqn:Hj; [|done]. simpl. intros [= <-].
    simpl. rewrite !elem_of_cons, (IH j) by done. intuition congruence.
Qed.

Lemma NoDup_insert_index old new l i :
  NoDup l -> new ∉ l -> list_index old l = Some i -> NoDup (<[i := new]> l).
Proof.
  revert i. induction l as [|z l IH]; simpl; intros i Hl Hnew; [done|].
  apply NoDup_cons in Hl as [Hz Hl]. apply not_elem_of_cons in Hnew as [Hnz Hnew].
  destruct (decide (old = z)) as [->|Hne].
  - intros [= <-]. simpl. by apply NoDup_cons.
  - destruct (list_index old l) as [j|] eqn:Hj; [|done]. simpl. intros [= <-].
    simpl. apply NoDup_cons. split; [|by eapply IH].
    rewrite (elem_of_insert_index _ old new l j) by done. intuition congruence.
Qed.

Lemma list_index_elem x l i : list_index x l = Some i -> x ∈ l.
Proof.
  revert i. induction l as [|z l IH]; simpl; intros i; [done|].
  destruct (decide (x = z)) as [->|Hne]; [left|].
  destruct (list_index x l); [|done]. intros _. right. by eapply IH.
Qed.

(** ** What saving and the operations leave alone *)

Lemma save_fields s :
  assets_hierarchy (save_assets_to_json s).1 = assets_hierarchy s /\
  projects (save_assets_to_json s).1 = projects s /\
  naming_conventions (save_assets_to_json s).1 = naming_conventions s /\
  saved (save_assets_to_json s).1
  = JObj (dict_set "naming_conventions" (naming_conventions s) (assets_hierarchy s)).
Proof.
  unfold save_assets_to_json.
  by destruct (sync_filesystem_with_json _ _) as [t o].
Qed.

Lemma store_ok_same s s' :
  assets_hierarchy s' = assets_hierarchy s -> projects s' = projects s ->
  store_ok s -> store_ok s'.
Proof. unfold store_ok. by intros -> ->. Qed.

Lemma store_ok_save s : store_ok s -> store_ok (save_assets_to_json s).1.
Proof.
  destruct (save_fields s) as (Hh & Hp & _). by apply store_ok_same.
Qed.

(** ** The keys after loading *)

Lemma migrate_project_item_keys d d' :
  for_result migrate_project_item d = Ok d' -> dict_keys d' = dict_keys d.
Proof.
  unfold dict_keys. revert d'. induction d as [|[k v] d IH]; intros d'; cbn [for_result].
  - by intros [= <-].
  - unfold_bind. destruct (migrate_project_item (k, v)) as [[k2 v2]|] eqn:Hx; [|done].
    destruct (for_result _ d) as [ys|] eqn:Hl; [|done].
    intros [= <-]. rewrite !fmap_cons. cbn [fst]. f_equal; [|by apply IH].
    unfold migrate_project_item in Hx. destruct (decide (k = _)); [congruence|].
    unfold_bind. destruct (migrate_project v); congruence.
Qed.

Lemma migrate_conventions_keys d d' :
  migrate_conventions d = Ok d' -> dict_keys d' = dict_keys d.
Proof.
  unfold migrate_conventions.
  destruct (dict_get "naming_conventions" d) as [nc|] eqn:Hg; [|by intros [= <-]].
  unfold_bind. destruct (py_in "Meshes" nc) as [[]|]; [| by intros [= <-] |done].
  destruct (py_pop nc "Meshes") as [[v rest]|]; [|done].
  destruct (py_setitem rest "Static Meshes" v) as [nc'|]; [|done].
  intros [= <-]. apply dict_keys_set_present. by eapply dict_get_Some_keys.
Qed.

Lemma NoDup_load_keys raw :
  NoDup (top_keys raw) -> NoDup (dict_keys (load_assets_from_json raw)).
Proof.
  intros Hraw. unfold load_assets_from_json, migrate.
  destruct raw as [| | | | |d]; simpl; try apply NoDup_nil_2.
  unfold_bind. destruct (for_result _ d) as [d1|] eqn:H1; [|apply NoDup_nil_2].
  destruct (migrate_conventions d1) as [d2|] eqn:H2; [|apply NoDup_nil_2].
  by rewrite (migrate_conventions_keys _ _ H2), (migrate_project_item_keys _ _ H1).
Qed.

(** ** The reserved project *)

Lemma store_ok_init raw t : NoDup (top_keys raw) -> store_ok (init raw t).
Proof.
  intros Hraw%NoDup_load_keys. unfold init.
  set (h0 := dict_del "naming_conventions" (load_assets_from_json raw)).
  assert (NoDup (dict_keys h0)) as H0 by by apply NoDup_dict_keys_del.
  set (h := if dict_mem master_assets h0 then h0 else _).
  assert (NoDup (dict_keys h)) as Hh.
  { unfold h. destruct (dict_mem master_assets h0); [done|].
    by apply NoDup_dict_keys_set. }
  assert (master_assets ∈ dict_keys h) as Hm.
  { unfold h. destruct (dict_mem master_assets h0) eqn:E.
    - by apply dict_mem_true.
    - apply elem_of_dict_keys_set. by left. }
  unfold store_ok. simpl. rewrite bool_decide_eq_true_2 by done.
  split_and!; [done| | |done].
  - apply NoDup_cons. split; [|by apply NoDup_list_remove].
    rewrite elem_of_list_remove by done. tauto.
  - intros x. rewrite elem_of_cons, elem_of_list_remove by done.
    destruct (decide (x = master_assets)) as [->|]; tauto.
Qed.

Lemma store_ok_add_project text s : store_ok s -> store_ok (add_project text s).1.
Proof.
  intros Hs. unfold add_project. repeat case_bool_decide; try done.
  set (name := strip text) in *.
  destruct Hs as (Hk & Hp & Hpk & Hm).
  assert (name ∉ dict_keys (assets_hierarchy s)) as Hn by by rewrite <- Hpk.
  simpl. apply dict_mem_false in Hn as Hn'. rewrite Hn'.
  apply store_ok_save. unfold store_ok. simpl. split_and!.
  - by apply NoDup_dict_keys_set.
  - apply NoDup_app. split_and!; [done| |apply NoDup_singleton].
    intros x Hx ->%list_elem_of_singleton. done.
  - intros x. rewrite elem_of_app, list_elem_of_singleton, elem_of_dict_keys_set, Hpk. tauto.
  - apply elem_of_dict_keys_set. by right.
Qed.

Lemma store_ok_rename_project sel new_name ok permitted s :
  store_ok s -> store_ok (rename_project sel new_name ok permitted s).1.
Proof.
  intros Hs. unfold rename_project. destruct sel as [|old_name _]; [done|].
  case_bool_decide as Hold; [done|].
  destruct (negb _); [done|].
  set (new := strip new_name).
  case_bool_decide as Hnew; [done|].
  destruct (bool_decide (new ∈ projects s) || bool_decide (new = master_assets)) eqn:Hclash;
    [done|].
  apply orb_false_elim in Hclash as [Hnp Hnm].
  apply bool_decide_eq_false in Hnp, Hnm.
  destruct (list_index old_name (projects s)) as [idx|] eqn:Hidx; [|done].
  destruct Hs as (Hk & Hp & Hpk & Hm). simpl.
  destruct (dict_get old_name (assets_hierarchy s)) as [categories|] eqn:Hget.
  2:{ apply dict_get_None_keys in Hget. apply list_index_elem in Hidx.
      by apply Hpk in Hidx. }
  destruct (try_rename _ _ _ _ _) as [t warned].
  destruct (save_assets_to_json _) as [s3 failed] eqn:Hsave. simpl.
  replace s3 with (save_assets_to_json
    (with_tree t (with_hierarchy (dict_set new categories
       (dict_del old_name (assets_hierarchy s)))
       (with_projects (<[idx := new]> (projects s)) s)))).1 by by rewrite Hsave.
  apply store_ok_save. unfold store_ok. simpl. split_and!.
  - by apply NoDup_dict_keys_set, NoDup_dict_keys_del.
  - by eapply NoDup_insert_index.
  - intros x. rewrite (elem_of_insert_index x old_name new _ idx) by done.
    rewrite elem_of_dict_keys_set, elem_of_dict_keys_del, Hpk. tauto.
  - apply elem_of_dict_keys_set. right. apply elem_of_dict_keys_del.
    split; [done|]. by intros <-.
Qed.

Lemma store_ok_delete_project sel confirm s :
  store_ok s -> store_ok (delete_project sel confirm s).1.
Proof.
  intros Hs. unfold delete_project. destruct sel as [|name _]; [done|].
  case_bool_decide as Hname; [done|].
  destruct confirm; [|done]. simpl.
  destruct (list_index name (projects s)) as [idx|] eqn:Hidx; [|done].
  destruct (dict_mem name (assets_hierarchy s)) eqn:Hmem; [|done]. simpl.
  destruct (save_assets_to_json _) as [s3 failed] eqn:Hsave. simpl.
  replace s3 with (save_assets_to_json
    (with_projects (list_remove name (projects s))
       (with_hierarchy (dict_del name (assets_hierarchy s)) s))).1 by by rewrite Hsave.
  destruct Hs as (Hk & Hp & Hpk & Hm).
  apply store_ok_save. unfold store_ok. simpl. split_and!.
  - by apply NoDup_dict_keys_del.
  - by apply NoDup_list_remove.
  - intros x. rewrite elem_of_list_remove, elem_of_dict_keys_del, Hpk by done. tauto.
  - apply elem_of_dict_keys_del. split; [done|]. by intros <-.
Qed.

Lemma same_frame_refl s : same_frame s s.
Proof. by unfold same_frame. Qed.

Lemma same_frame_save s s2 :
  projects s2 = projects s ->
  naming_conventions s2 = naming_conventions s ->
  dict_keys (assets_hierarchy s2) = dict_keys (assets_hierarchy s) ->
  same_frame s (save_assets_to_json s2).1.
Proof.
  intros Hp Hn Hk. destruct (save_fields s2) as (Hh' & Hp' & Hn' & _).
  unfold same_frame. by rewrite Hh', Hp', Hn'.
Qed.

Ltac frame_branches :=
  repeat match goal with
    | |- same_frame ?s ?s => apply same_frame_refl
    | |- same_frame ?s (?s, _).1 => apply same_frame_refl
    | |- same_frame _ (let '(_, _) := save_assets_to_json ?x in _).1 =>
        let Hs := fresh "Hs" in
        destruct (save_assets_to_json x) as [? ?] eqn:Hs;
        apply (f_equal fst) in Hs; simpl in Hs; subst; simpl;
        apply same_frame_save; simpl; rewrite ?put_assets_keys; reflexivity
    | |- same_frame _ (let '(_, _) := ?x in _).1 => destruct x as [? ?]
    | |- same_frame _ (match ?x with _ => _ end).1 => destruct x
    | |- same_frame _ (if ?x then _ else _).1 => destruct x
    end.

Lemma same_frame_create py_repr p c d ok v s :
  same_frame s (create_asset_clicked py_repr p c d ok v s).1.
Proof. unfold create_asset_clicked. frame_branches. Qed.

Lemma same_frame_edit py_repr p c d n ok v fp dp s :
  same_frame s (edit_asset_clicked py_repr p c d n ok v fp dp s).1.
Proof. unfold edit_asset_clicked. frame_branches. Qed.

Lemma same_frame_delete p c d confirm s :
  same_frame s (delete_asset_clicked p c d confirm s).1.
Proof. unfold delete_asset_clicked. frame_branches. Qed.

Lemma store_ok_frame s s' : same_frame s s' -> store_ok s -> store_ok s'.
Proof.
  unfold same_frame, store_ok. intros (-> & _ & ->). done.
Qed.

Lemma store_ok_step py_repr op s : store_ok s -> store_ok (step py_repr op s).1.
Proof.
  destruct op; simpl.
  - apply store_ok_add_project.
  - apply store_ok_rename_project.
  - apply store_ok_delete_project.
  - apply store_ok_frame, same_frame_create.
  - apply store_ok_frame, same_frame_edit.
  - apply store_ok_frame, same_frame_delete.
Qed.

Lemma store_ok_run py_repr ops s : store_ok s -> store_ok (run py_repr ops s).
Proof.
  unfold run. revert s. induction ops as [|op ops IH]; intros s Hs; [done|].
  simpl. apply IH. by apply store_ok_step.
Qed.

(** ** C1: the reserved project *)

(** C1.  After [__init__] the project "Master Assets" is in the document,
    and in every state a sequence of operations leads to it occurs exactly
    once among the keys of the hierarchy and in the project list; there,
    [add_project] with that name, [rename_project] of it, [rename_project]
    of a project to it and [delete_project] of it each end in a warning
    and leave the whole state, document, saved file and tree, as it was. *)
Theorem C1_master_assets_reserved (py_repr : json -> string) (raw : json) (t : fs)
    (ops : list operation) :
  NoDup (top_keys raw) ->
  let s := run py_repr ops (init raw t) in
  master_assets ∈ dict_keys (assets_hierarchy (init raw t)) /\
  occurrences master_assets (dict_keys (assets_hierarchy s)) = 1 /\
  occurrences master_assets (projects s) = 1 /\
  add_project master_assets s
    = (s, [Warning "Warning" "Cannot use reserved name 'Company Assets'."]) /\
  (forall new_name ok permitted,
     rename_project [master_assets] new_name ok permitted s
     = (s, [Warning "Warning" "Cannot rename Company Assets."])) /\
  (forall old_name permitted, old_name <> master_assets ->
     rename_project [old_name] master_assets true permitted s
     = (s, [Warning "Warning" "Project name already exists or is reserved."])) /\
  (forall confirm,
     delete_project [master_assets] confirm s
     = (s, [Warning "Warning" "Cannot delete Company Assets."])).
Proof.
  intros Hraw s.
  pose proof (store_ok_init raw t Hraw) as H0.
  pose proof (store_ok_run py_repr ops _ H0) as Hs. fold s in Hs.
  destruct H0 as (_ & _ & _ & Hm0). destruct Hs as (Hk & Hp & Hpk & Hm).
  split_and!.
  - done.
  - by apply occurrences_once.
  - apply occurrences_once; [|done]. by apply Hpk.
  - done.
  - done.
  - intros old_name permitted Hne. unfold rename_project.
    rewrite bool_decide_eq_false_2 by done. simpl.
    by rewrite orb_true_r.
  - done.
Qed.

(** ** C10: the naming conventions are only read *)

Lemma conventions_kept_save s x :
  naming_conventions x = naming_conventions s ->
  conventions_kept s (save_assets_to_json x).1.
Proof.
  intros Hn. destruct (save_fields x) as (Hh' & _ & Hn' & Hs').
  unfold conventions_kept. rewrite Hn', Hs', Hh', Hn. auto.
Qed.

Ltac kept_branches :=
  repeat match goal with
    | |- conventions_kept ?s (?x, _).1 =>
        simpl; split; [reflexivity | left; reflexivity]
    | |- conventions_kept _ (let '(_, _) := save_assets_to_json ?x in _).1 =>
        let Hs := fresh "Hs" in
        destruct (save_assets_to_json x) as [? ?] eqn:Hs;
        apply (f_equal fst) in Hs; simpl in Hs; subst; simpl;
        apply conventions_kept_save; reflexivity
    | |- conventions_kept _ (save_assets_to_json ?x).1 =>
        apply conventions_kept_save; reflexivity
    | |- conventions_kept _ (let '(_, _) := ?x in _).1 => destruct x as [? ?]
    | |- conventions_kept _ (match ?x with _ => _ end).1 => destruct x
    | |- conventions_kept _ (if ?x then _ else _).1 => destruct x
    end.

Lemma conventions_kept_step py_repr op s : conventions_kept s (step py_repr op s).1.
Proof.
  destruct op; simpl.
  - unfold add_project. kept_branches.
  - unfold rename_project. kept_branches.
  - unfold delete_project. kept_branches.
  - unfold create_asset_clicked. kept_branches.
  - unfold edit_asset_clicked. kept_branches.
  - unfold delete_asset_clicked. kept_branches.
Qed.

Lemma conventions_run py_repr ops s :
  naming_conventions (run py_repr ops s) = naming_conventions s.
Proof.
  unfold run. revert s. induction ops as [|op ops IH]; intros s; [done|].
  simpl. rewrite IH. apply conventions_kept_step.
Qed.

(** C10.  No operation changes the naming conventions: they are taken out
    of the loaded dict by [__init__], so they are not a key of the
    hierarchy; after any sequence of operations they are what was loaded;
    resolving an identifier only reads them; and an operation that saves
    writes the hierarchy with exactly these conventions under their key. *)
Theorem C10_conventions_unchanged (py_repr : json -> string) :
  (forall raw t,
     naming_conventions (init raw t)
     = default (JObj []) (dict_get "naming_conventions" (load_assets_from_json raw))
     /\ "naming_conventions" ∉ dict_keys (assets_hierarchy (init raw t))) /\
  (forall ops s, naming_conventions (run py_repr ops s) = naming_conventions s) /\
  (forall op s,
     naming_conventions (step py_repr op s).1 = naming_conventions s /\
     (saved (step py_repr op s).1 = saved s \/
      saved (step py_repr op s).1
      = JObj (dict_set "naming_conventions" (naming_conventions s)
                (assets_hierarchy (step py_repr op s).1)))) /\
  (forall d, py_getitem (JObj (dict_set "naming_conventions" (naming_conventions d)
                                 (assets_hierarchy d))) "naming_conventions"
             = Ok (naming_conventions d)).
Proof.
  split_and!.
  - intros raw t. split; [done|]. unfold init. simpl.
    set (h0 := dict_del "naming_conventions" (load_assets_from_json raw)).
    assert ("naming_conventions" ∉ dict_keys h0) as H0.
    { unfold h0. rewrite elem_of_dict_keys_del. tauto. }
    destruct (dict_mem master_assets h0); [done|].
    rewrite elem_of_dict_keys_set. intros [?|?]; done.
  - apply conventions_run.
  - intros op s. apply conventions_kept_step.
  - intros d. simpl. by rewrite dict_get_set_eq.
Qed.

(** ** Reading and writing the asset list of a category *)

Lemma is_str_true s v : is_str s v = true <-> v = JStr s.
Proof.
  destruct v; simpl; try (split; [done|congruence]).
  rewrite bool_decide_eq_true. split; congruence.
Qed.

Lemma any_db_name_found db_name l :
  Forall has_db_name l -> Exists (named db_name) l -> any_db_name db_name l = Ok true.
Proof.
  induction 1 as [|a l [v Ha] _ IH]; intros Hex; [by apply Exists_nil in Hex|].
  simpl. rewrite Ha. unfold_bind. destruct (is_str db_name v) eqn:Hv; [done|].
  apply IH. apply Exists_cons in Hex as [Hn|?]; [|done].
  unfold named in Hn. rewrite Ha in Hn. injection Hn as ->.
  by rewrite (proj2 (is_str_true _ _)) in Hv.
Qed.

Lemma any_db_name_fresh db_name l :
  Forall has_db_name l -> ~ Exists (named db_name) l -> any_db_name db_name l = Ok false.
Proof.
  induction 1 as [|a l [v Ha] _ IH]; intros Hex; [done|].
  simpl. rewrite Ha. unfold_bind. destruct (is_str db_name v) eqn:Hv.
  - exfalso. apply Hex. left. apply is_str_true in Hv. by subst.
  - apply IH. intros ?. apply Hex. by right.
Qed.

Lemma asset_list_of_set cat_val l l' :
  asset_list_of cat_val = JArr l -> asset_list_of (set_asset_list cat_val l') = JArr l'.
Proof.
  unfold set_asset_list. destruct (is_wrapper cat_val) eqn:Hw; [|done].
  destruct cat_val as [| | | | |o]; try done. simpl. by rewrite dict_get_set_eq.
Qed.

Lemma get_assets_put_same h p c l l' :
  get_assets h p c = Ok (JArr l) -> get_assets (put_assets h p c l') p c = Ok (JArr l').
Proof.
  unfold get_assets, put_assets.
  destruct (dict_get p h) as [cats|] eqn:Hp; [|done].
  destruct cats as [| | | | |cats]; try done. simpl.
  destruct (dict_get c cats) as [cat_val|] eqn:Hc; [|done]. unfold_bind.
  intros [= Hl]. rewrite dict_get_set_eq. simpl. rewrite dict_get_set_eq.
  by rewrite (asset_list_of_set _ _ _ Hl).
Qed.

Lemma get_assets_put_other h p c l' p' c' :
  (p', c') <> (p, c) -> get_assets (put_assets h p c l') p' c' = get_assets h p' c'.
Proof.
  intros Hne. unfold get_assets, put_assets.
  destruct (dict_get p h) as [cats|] eqn:Hp; [|done].
  destruct cats as [| | | | |cats]; try done.
  destruct (dict_get c cats) as [cat_val|] eqn:Hc; [|done].
  destruct (decide (p' = p)) as [->|Hpp].
  - rewrite dict_get_set_eq, Hp. simpl.
    rewrite dict_get_set_ne; [done|]. congruence.
  - by rewrite dict_get_set_ne.
Qed.

(** ** C2: creating an asset *)

(** C2.  When the input dialog is accepted with a name for which an
    identifier is resolved, in a category whose list holds entries with
    identifiers: if one of them has the resolved identifier,
    [create_asset_clicked] warns "Duplicate" and the state (document,
    saved file, tree) is the one before; if none has, the list of that
    category becomes the old one followed by the one new entry, every
    other category reads as before, projects and conventions are as
    before, and the saved file holds the new hierarchy. *)
Theorem C2_create_asset (py_repr : json -> string) (s : state)
    (project category display_name db_name : string) (variant : option string)
    (l : list json) :
  display_name <> "" ->
  resolve_db_name py_repr (naming_conventions s) category display_name variant
  = Ok (Some db_name) ->
  get_assets (assets_hierarchy s) project category = Ok (JArr l) ->
  Forall has_db_name l ->
  let r := create_asset_clicked py_repr project category display_name true variant s in
  (Exists (named db_name) l ->
     r = (s, [Warning "Duplicate" "Asset name already exists."])) /\
  (~ Exists (named db_name) l ->
     get_assets (assets_hierarchy r.1) project category
     = Ok (JArr (l ++ [new_asset display_name db_name])) /\
     (forall p c, (p, c) <> (project, category) ->
        get_assets (assets_hierarchy r.1) p c = get_assets (assets_hierarchy s) p c) /\
     dict_keys (assets_hierarchy r.1) = dict_keys (assets_hierarchy s) /\
     projects r.1 = projects s /\
     naming_conventions r.1 = naming_conventions s /\
     saved r.1 = JObj (dict_set "naming_conventions" (naming_conventions s)
                         (assets_hierarchy r.1))).
Proof.
  intros Hname Hres Hget Hl r. subst r. unfold create_asset_clicked.
  rewrite (bool_decide_eq_false_2 _ Hname). simpl. rewrite Hres, Hget. simpl.
  split.
  - intros Hex. by rewrite (any_db_name_found _ _ Hl Hex).
  - intros Hex. rewrite (any_db_name_fresh _ _ Hl Hex). simpl.
    set (h := put_assets _ _ _ _).
    destruct (save_fields (with_hierarchy h s)) as (Hh & Hp & Hn & Hs).
    destruct (save_assets_to_json (with_hierarchy h s)) as [s1 failed]. simpl in *.
    rewrite Hh, Hp, Hn, Hs. unfold h. split_and!; try done.
    + by eapply get_assets_put_same.
    + intros p c Hpc. by apply get_assets_put_other.
    + apply put_assets_keys.
Qed.

(** ** C3: the identifier of a display name *)

Lemma replace_spaces_only_spaces s :
  only_spaces s = true -> replace_spaces s = removeWhitespace s.
Proof.
  induction s as [|c r IH]; simpl; [done|].
  intros [Hc Hr]%andb_prop. rewrite (IH Hr).
  destruct (Ascii.eqb c " ") eqn:Hsp.
  - apply Ascii.eqb_eq in Hsp. by subst c.
  - rewrite orb_false_r in Hc. apply negb_true_iff in Hc. by rewrite Hc.
Qed.

Lemma append_empty s : s +:+ "" = s.
Proof.
  induction s as [|c r IH]; [done|].
  change (String c (r +:+ "") = String c r). by rewrite IH.
Qed.

(** The claim C3 as stated fails on a name with a tab: the name is not
    empty after trimming, and the identifier the code resolves keeps the
    tab, where [removeWhitespace] would drop it. *)
Lemma C3_counterexample :
  strip hero_tab_sword <> "" /\
  resolve_db_name no_repr mesh_conventions "Static Meshes" hero_tab_sword None
  = Ok (Some ("SM_Hero" +:+ String tab "Sword")) /\
  resolve_db_name no_repr mesh_conventions "Static Meshes" hero_tab_sword None
  <> Ok (Some ("SM_" +:+ removeWhitespace hero_tab_sword +:+ "")).
Proof. split_and!; [done|reflexivity|done]. Qed.

(** C3, amended.  For a display name that is not empty after trimming, in
    a category whose convention (the empty one when the category has
    none) asks for no variant, the identifier is the prefix, the display
    name without its space characters (U+0020; other whitespace stays),
    and the suffix, an absent prefix or suffix being empty; with the
    category "Textures" and a [suffixes] mapping the suffix is the entry
    of the chosen variant.  A category without convention gives the name
    without its spaces; ["SM_"] and "Hero Sword" give "SM_HeroSword"; and
    on names whose only whitespace is spaces this is [removeWhitespace]. *)
Theorem C3_identifier (py_repr : json -> string) (conventions : dict)
    (category display_name : string) (variant : option string) :
  strip display_name <> "" ->
  (forall convention,
     default (JObj []) (dict_get category conventions) = JObj convention ->
     (category <> "Textures" \/ dict_mem "suffixes" convention = false) ->
     resolve_db_name py_repr (JObj conventions) category display_name variant
     = Ok (Some (convention_part py_repr convention "prefix"
                 +:+ replace_spaces display_name
                 +:+ convention_part py_repr convention "suffix"))) /\
  (forall convention suffixes suffix_type suffix,
     dict_get "Textures" conventions = Some (JObj convention) ->
     dict_get "suffixes" convention = Some (JObj suffixes) ->
     dict_get suffix_type suffixes = Some suffix ->
     resolve_db_name py_repr (JObj conventions) "Textures" display_name (Some suffix_type)
     = Ok (Some (convention_part py_repr convention "prefix"
                 +:+ replace_spaces display_name
                 +:+ format_value py_repr suffix))) /\
  (dict_get category conventions = None ->
     resolve_db_name py_repr (JObj conventions) category display_name variant
     = Ok (Some (replace_spaces display_name))) /\
  resolve_db_name py_repr mesh_conventions "Static Meshes" "Hero Sword" variant
  = Ok (Some "SM_HeroSword") /\
  (only_spaces display_name = true ->
     replace_spaces display_name = removeWhitespace display_name).
Proof.
  intros _. split_and!.
  - intros convention Hc Hv. unfold resolve_db_name. simpl. rewrite Hc. simpl.
    unfold convention_part.
    destruct (decide (category = "Textures")) as [->|Hne]; simpl.
    + destruct Hv as [?|Hv]; [done|]. by rewrite Hv.
    + done.
  - intros convention suffixes suffix_type suffix Hc Hs Hk.
    unfold resolve_db_name. simpl. rewrite Hc. simpl.
    unfold dict_mem. rewrite Hs. simpl. by rewrite Hk.
  - intros Hc. unfold resolve_db_name. simpl. rewrite Hc. simpl.
    destruct (decide (category = "Textures")); simpl;
      by rewrite append_empty.
  - reflexivity.
  - apply replace_spaces_only_spaces.
Qed.

(** ** C4: when a variant is asked for *)

(** The claim C4 as stated fails for a category that is not "Textures":
    with a [suffixes] mapping in the convention of "Flipbooks" and no
    variant chosen, an identifier is resolved with the empty suffix and the
    asset is created. *)
Lemma C4_counterexample :
  py_in "suffixes" (JObj [("prefix", JStr "FB_"); ("suffixes", JObj [("Loop", JStr "_L")])])
  = Ok true /\
  resolve_db_name no_repr flipbook_conventions "Flipbooks" "Fire" None
  = Ok (Some "FB_Fire") /\
  get_assets
    (assets_hierarchy
       (create_asset_clicked no_repr "Show" "Flipbooks" "Fire" true None flipbook_state).1)
    "Show" "Flipbooks"
  = Ok (JArr [new_asset "Fire" "FB_Fire"]).
Proof. split_and!; reflexivity. Qed.

(** C4, amended.  The variant is asked for in the category named
    "Textures" only.  There, when the convention has a [suffixes] mapping
    and no variant is chosen, no identifier is resolved, no suffix is
    picked in its place, and [create_asset_clicked] returns without a
    message and with the state as it was.  In any other category a
    [suffixes] mapping is not looked at: whatever the variant, the
    identifier is made of the [prefix] and [suffix] entries of the
    convention. *)
Theorem C4_variant_only_for_textures (py_repr : json -> string) (conventions : dict)
    (display_name : string) :
  (forall convention suffixes,
     dict_get "Textures" conventions = Some (JObj convention) ->
     dict_get "suffixes" convention = Some (JObj suffixes) ->
     resolve_db_name py_repr (JObj conventions) "Textures" display_name None = Ok None /\
     forall s project ok,
       naming_conventions s = JObj conventions ->
       create_asset_clicked py_repr project "Textures" display_name ok None s = (s, [])) /\
  (forall category convention variant,
     category <> "Textures" ->
     default (JObj []) (dict_get category conventions) = JObj convention ->
     resolve_db_name py_repr (JObj conventions) category display_name variant
     = Ok (Some (convention_part py_repr convention "prefix"
                 +:+ replace_spaces display_name
                 +:+ convention_part py_repr convention "suffix"))).
Proof.
  split.
  - intros convention suffixes Hc Hs.
    assert (resolve_db_name py_repr (JObj conventions) "Textures" display_name None
            = Ok None) as Hres.
    { unfold resolve_db_name. simpl. rewrite Hc. simpl.
      unfold dict_mem. by rewrite Hs. }
    split; [done|]. intros s project ok Hn. unfold create_asset_clicked.
    destruct (negb _); [done|]. by rewrite Hn, Hres.
  - intros category convention variant Hne Hc.
    unfold resolve_db_name. simpl. rewrite Hc. simpl.
    by rewrite decide_False.
Qed.

(** ** C5: the wrapper form of a category *)

Lemma for_result_dict_get (F : string * json -> result (string * json)) d d' k v :
  (forall x y, F x = Ok y -> y.1 = x.1) ->
  for_result F d = Ok d' -> dict_get k d = Some v ->
  exists v', F (k, v) = Ok (k, v') /\ dict_get k d' = Some v'.
Proof.
  intros HF. revert d'. induction d as [|[k1 v1] d IH]; intros d'; [done|].
  cbn [for_result dict_get]. unfold_bind.
  destruct (F (k1, v1)) as [[k2 v2]|] eqn:Hx; [|done].
  destruct (for_result F d) as [ys|] eqn:Hl; [|done].
  intros [= <-]. pose proof (HF _ _ Hx) as Hk. simpl in Hk. subst k2.
  cbn [dict_get]. destruct (decide (k = k1)) as [->|Hne].
  - intros [= <-]. by exists v2.
  - intros Hg. by apply IH.
Qed.

Lemma migrate_project_item_key x y : migrate_project_item x = Ok y -> y.1 = x.1.
Proof.
  destruct x as [k v]. unfold migrate_project_item.
  destruct (decide (k = _)); [by intros [= <-]|].
  unfold_bind. destruct (migrate_project v); [|done]. by intros [= <-].
Qed.

Lemma migrate_category_item_key x y : migrate_category_item x = Ok y -> y.1 = x.1.
Proof.
  destruct x as [k v]. unfold migrate_category_item.
  unfold_bind. destruct (migrate_category v); [|done]. by intros [= <-].
Qed.

Lemma migrate_conventions_get d d' k :
  k <> "naming_conventions" ->
  migrate_conventions d = Ok d' -> dict_get k d' = dict_get k d.
Proof.
  intros Hk. unfold migrate_conventions.
  destruct (dict_get "naming_conventions" d) as [nc|]; [|by intros [= <-]].
  unfold_bind. destruct (py_in "Meshes" nc) as [[]|]; [| by intros [= <-] |done].
  destruct (py_pop nc "Meshes") as [[v rest]|]; [|done].
  destruct (py_setitem rest "Static Meshes" v) as [nc'|]; [|done].
  intros [= <-]. by apply dict_get_set_ne.
Qed.

Lemma is_wrapper_set_asset_list cat_val l :
  is_wrapper (set_asset_list cat_val l) = is_wrapper cat_val.
Proof.
  unfold set_asset_list. destruct (is_wrapper cat_val) eqn:Hw; [|done].
  destruct cat_val as [| | | | |o]; try done. simpl. unfold dict_mem.
  by rewrite dict_get_set_eq.
Qed.

(** What loading makes of a wrapped category. *)
Lemma load_wrapped_category raw data loaded project cats category o l :
  raw = JObj data ->
  migrate raw = Ok loaded ->
  project <> "naming_conventions" ->
  dict_get project data = Some (JObj cats) ->
  dict_mem "Meshes" cats = false ->
  dict_get category cats = Some (JObj o) ->
  dict_get "assets" o = Some (JArr l) ->
  exists cats',
    dict_get project loaded = Some (JObj cats') /\
    dict_get category cats'
    = Some (JObj (dict_set "assets" (JArr (migrate_entry <$> l)) o)).
Proof.
  intros -> Hm Hp Hproj Hmesh Hcat Hassets. unfold migrate in Hm. simpl in Hm.
  unfold_bind. destruct (for_result migrate_project_item data) as [d1|] eqn:H1; [|done].
  destruct (for_result_dict_get _ _ _ _ _ migrate_project_item_key H1 Hproj)
    as (v' & Hv' & Hget1).
  rewrite <- (migrate_conventions_get _ _ _ Hp Hm) in Hget1.
  unfold migrate_project_item in Hv'. rewrite decide_False in Hv' by done.
  unfold migrate_project in Hv'. simpl in Hv'. rewrite Hmesh in Hv'. simpl in Hv'.
  unfold_bind.
  destruct (for_result migrate_category_item cats) as [cats'|] eqn:H2; [|done].
  injection Hv' as <-. exists cats'. split; [done|].
  destruct (for_result_dict_get _ _ _ _ _ migrate_category_item_key H2 Hcat)
    as (w & Hw & Hget2).
  rewrite Hget2. f_equal. unfold migrate_category_item, migrate_category in Hw.
  simpl in Hw. unfold dict_mem in Hw. rewrite Hassets in Hw. simpl in Hw.
  by injection Hw as <-.
Qed.

(** The claim C5 as stated fails: a category read in the wrapper form is
    written back in the wrapper form. *)
Lemma C5_counterexample :
  saved_category (saved (save_assets_to_json (init wrapped_raw ∅)).1) "Show" "Rocks"
  = Ok (JObj [("assets", JArr [asset_of_string "Mossy Rock"])]) /\
  is_wrapper (JObj [("assets", JArr [asset_of_string "Mossy Rock"])]) = true.
Proof. split; reflexivity. Qed.

(** C5, amended.  A category stored as [{"assets": [...]}] is accepted on
    read: [get_assets] returns its inner list, with the bare strings in it
    turned into asset objects.  The wrapper itself is kept: the category is
    held in the wrapper form, a change of its list keeps the form, and the
    saved file has the wrapper around the migrated list.  The code creates
    no wrapper of its own: the categories it makes are bare lists. *)
Theorem C5_wrapper_kept (raw : json) (t : fs) (data loaded : dict)
    (project category : string) (cats o : dict) (l : list json) :
  raw = JObj data ->
  migrate raw = Ok loaded ->
  project <> "naming_conventions" ->
  dict_get project data = Some (JObj cats) ->
  dict_mem "Meshes" cats = false ->
  dict_get category cats = Some (JObj o) ->
  dict_get "assets" o = Some (JArr l) ->
  let s := init raw t in
  let kept := JObj (dict_set "assets" (JArr (migrate_entry <$> l)) o) in
  get_assets (assets_hierarchy s) project category = Ok (JArr (migrate_entry <$> l)) /\
  saved_category (JObj (assets_hierarchy s)) project category = Ok kept /\
  saved_category (saved (save_assets_to_json s).1) project category = Ok kept /\
  is_wrapper kept = true /\
  (forall cat_val l', is_wrapper (set_asset_list cat_val l') = is_wrapper cat_val) /\
  (forall template category' cat_val,
     template = default_categories \/ template = master_categories ->
     py_getitem template category' = Ok cat_val -> is_wrapper cat_val = false).
Proof.
  intros Hraw Hm Hp Hproj Hmesh Hcat Hassets s kept.
  destruct (load_wrapped_category _ _ _ _ _ _ _ _ Hraw Hm Hp Hproj Hmesh Hcat Hassets)
    as (cats' & Hget1 & Hget2).
  assert (dict_get project (assets_hierarchy s) = Some (JObj cats')) as Hh.
  { unfold s, init, load_assets_from_json. rewrite Hm. simpl.
    set (h0 := dict_del "naming_conventions" loaded).
    assert (dict_get project h0 = Some (JObj cats')) as H0.
    { unfold h0. by rewrite dict_get_del_ne. }
    destruct (dict_mem master_assets h0) eqn:Hmem; [done|].
    rewrite dict_get_set_ne; [done|]. intros ->.
    unfold dict_mem in Hmem. by rewrite H0 in Hmem. }
  clearbody s.
  assert (saved_category (JObj (assets_hierarchy s)) project category = Ok kept) as Hsc.
  { unfold saved_category. simpl. rewrite Hh. simpl. by rewrite Hget2. }
  split_and!.
  - unfold get_assets. rewrite Hh. simpl. rewrite Hget2. simpl.
    by rewrite dict_get_set_eq.
  - done.
  - destruct (save_fields s) as (_ & _ & _ & ->).
    unfold saved_category in *. simpl in *.
    by rewrite dict_get_set_ne.
  - unfold kept. simpl. unfold dict_mem. by rewrite dict_get_set_eq.
  - apply is_wrapper_set_asset_list.
  - intros template category' cat_val [-> | ->]; simpl;
      repeat (case_decide; [by intros [= <-]|]); done.
Qed.

(** ** C9: a failed rename on disk does not stop the rename in the document *)

Lemma try_rename_failed permitted old new what t :
  path_exists t old = true ->
  (os_rename permitted old new t).2 <> Done ->
  try_rename permitted old new what t
  = (t, [Warning "Error" ("Failed to rename " +:+ what)]).
Proof.
  intros Hex. unfold try_rename. rewrite Hex. unfold os_rename. rewrite Hex. simpl.
  destruct permitted; simpl; [|done].
  destruct (decide (old = new)); [done|].
  by destruct (path_exists t new).
Qed.

Lemma os_rename_not_permitted old new t :
  (os_rename false old new t).2 <> Done.
Proof. done. Qed.

(** The two renames of an asset are attempted one after the other, each
    on what the other left: a failure of the first does not stop the
    second, a failure of the second does not undo the first. *)
Lemma rename_on_disk_independent fp dp project category old_db new_db t :
  let folder := [project; category; old_db] in
  let file_try := try_rename fp (folder ++ [old_db +:+ ".hipnc"])
                    (folder ++ [new_db +:+ ".hipnc"]) "Houdini file" t in
  let folder_try := try_rename dp folder [project; category; new_db]
                      "asset folder" file_try.1 in
  rename_on_disk fp dp project category old_db new_db t
  = (folder_try.1, file_try.2 ++ folder_try.2).
Proof.
  simpl. unfold rename_on_disk. simpl.
  destruct (try_rename fp _ _ _ t) as [t1 w1]. simpl.
  by destruct (try_rename dp _ _ _ t1) as [t2 w2].
Qed.

(** C9.  Whatever the system answers to the renames on disk
    ([permitted], [file_permitted], [folder_permitted] range over all
    cases), once the names have passed the checks [rename_project] and
    [edit_asset_clicked] put the new name in the document, save it, and
    end with the message of success; a rename on disk that raised is
    reported by a warning of its own, and of the two renames of an asset
    each is attempted on what the other left. *)
Theorem C9_rename_commits (py_repr : json -> string) (s : state) :
  (forall old_name new_name idx categories permitted,
     old_name <> master_assets ->
     let new := strip new_name in
     new <> "" -> new ∉ projects s -> new <> master_assets ->
     list_index old_name (projects s) = Some idx ->
     dict_get old_name (assets_hierarchy s) = Some categories ->
     let r := rename_project [old_name] new_name true permitted s in
     assets_hierarchy r.1 = dict_set new categories (dict_del old_name (assets_hierarchy s)) /\
     projects r.1 = <[idx := new]> (projects s) /\
     saved r.1 = JObj (dict_set "naming_conventions" (naming_conventions s)
                         (assets_hierarchy r.1)) /\
     (exists before,
        r.2 = before ++ [Information "Project Renamed"
                           ("Project renamed to '" +:+ new +:+ "'.")]) /\
     (path_exists (tree s) [old_name] = true ->
      (os_rename permitted [old_name] [new] (tree s)).2 <> Done ->
      Warning "Error" "Failed to rename project folder" ∈ r.2)) /\
  (forall project category display_name new_display_name variant l i asset
          new_db_name old_db_name file_permitted folder_permitted,
     new_display_name <> "" ->
     get_assets (assets_hierarchy s) project category = Ok (JArr l) ->
     find_asset_by_display_name l display_name = Ok (Some (i, asset)) ->
     resolve_db_name py_repr (naming_conventions s) category new_display_name variant
     = Ok (Some new_db_name) ->
     any_other_db_name asset new_db_name l = Ok false ->
     py_getitem asset "db_name" = Ok (JStr old_db_name) ->
     let r := edit_asset_clicked py_repr project category display_name new_display_name
                true variant file_permitted folder_permitted s in
     let folder := [project; category; old_db_name] in
     let file_old := folder ++ [old_db_name +:+ ".hipnc"] in
     let file_new := folder ++ [new_db_name +:+ ".hipnc"] in
     let file_try := try_rename file_permitted file_old file_new "Houdini file" (tree s) in
     let folder_try := try_rename folder_permitted folder [project; category; new_db_name]
                         "asset folder" file_try.1 in
     get_assets (assets_hierarchy r.1) project category
     = Ok (JArr (<[i := renamed_asset asset new_display_name new_db_name]> l)) /\
     saved r.1 = JObj (dict_set "naming_conventions" (naming_conventions s)
                         (assets_hierarchy r.1)) /\
     tree r.1 = (sync_filesystem_with_json (assets_hierarchy r.1) folder_try.1).1 /\
     (exists failed,
        r.2 = file_try.2 ++ folder_try.2 ++ failed ++
              [Information "Asset Renamed"
                 ("Asset renamed to '" +:+ new_display_name +:+ "'.")]) /\
     (path_exists (tree s) file_old = true ->
      (os_rename file_permitted file_old file_new (tree s)).2 <> Done ->
      file_try = (tree s, [Warning "Error" "Failed to rename Houdini file"])) /\
     (path_exists file_try.1 folder = true ->
      (os_rename folder_permitted folder [project; category; new_db_name] file_try.1).2
      <> Done ->
      folder_try = (file_try.1, [Warning "Error" "Failed to rename asset folder"]))).
Proof.
  split.
  - intros old_name new_name idx categories permitted Hold new Hne Hnp Hnm Hidx Hget r.
    subst r. unfold rename_project.
    rewrite (bool_decide_eq_false_2 _ Hold).
    destruct (bool_decide (new_name = "")) eqn:Hnn.
    { apply bool_decide_eq_true in Hnn. subst new_name. done. }
    simpl. fold new.
    rewrite (bool_decide_eq_false_2 _ Hne), (bool_decide_eq_false_2 _ Hnp),
      (bool_decide_eq_false_2 _ Hnm). simpl. rewrite Hidx. simpl. rewrite Hget.
    destruct (try_rename permitted [old_name] [new] "project folder" (tree s))
      as [t warned] eqn:Htry.
    match goal with |- context [save_assets_to_json ?x] =>
      destruct (save_fields x) as (Hh & Hp & Hn & Hs);
      destruct (save_assets_to_json x) as [s3 failed] end.
    simpl in *. rewrite Hh, Hp, Hs. split_and!; try done.
    + exists (warned ++ failed). by rewrite <- app_assoc.
    + intros Hex Hfail. rewrite (try_rename_failed _ _ _ _ _ Hex Hfail) in Htry.
      injection Htry as <- <-. simpl. left.
  - intros project category display_name new_display_name variant l i asset
      new_db_name old_db_name fp dp Hname Hget Hfind Hres Hdup Hold r.
    subst r. unfold edit_asset_clicked. rewrite Hget. simpl. rewrite Hfind. simpl.
    rewrite (bool_decide_eq_false_2 _ Hname). simpl. rewrite Hres, Hdup, Hold. simpl.
    rewrite rename_on_disk_independent. simpl.
    match goal with |- context [save_assets_to_json ?x] =>
      destruct (save_fields x) as (Hh & Hp & Hn & Hs);
      pose proof (eq_refl (save_assets_to_json x)) as Hsave;
      unfold save_assets_to_json at 2 in Hsave;
      destruct (save_assets_to_json x) as [s3 failed] end.
    simpl in *. rewrite Hs, Hh. split_and!.
    + by eapply get_assets_put_same.
    + done.
    + destruct (sync_filesystem_with_json _ _) as [t' o]. by injection Hsave as -> _.
    + exists failed. by rewrite <- !app_assoc.
    + intros Hex Hfail. by apply try_rename_failed.
    + intros Hex Hfail. by apply try_rename_failed.
Qed.

(** ** The theorems at concrete inputs *)

Lemma C1_witness :
  NoDup (top_keys wrapped_raw) /\
  occurrences master_assets
    (projects (run no_repr [AddProject "Show B"; DeleteProject ["Show"] true]
                 (init wrapped_raw ∅))) = 1.
Proof.
  assert (NoDup (top_keys wrapped_raw)) as H by (simpl; apply NoDup_singleton).
  split; [exact H|].
  exact (proj1 (proj2 (proj2
    (C1_master_assets_reserved no_repr wrapped_raw ∅
       [AddProject "Show B"; DeleteProject ["Show"] true] H)))).
Defined.

Lemma C2_witness :
  resolve_db_name no_repr (naming_conventions mesh_state) "Static Meshes" "Hero Axe" None
  = Ok (Some "SM_HeroAxe") /\
  get_assets (assets_hierarchy mesh_state) "Show" "Static Meshes" = Ok (JArr [hero_sword]) /\
  get_assets
    (assets_hierarchy
       (create_asset_clicked no_repr "Show" "Static Meshes" "Hero Axe" true None
          mesh_state).1) "Show" "Static Meshes"
  = Ok (JArr ([hero_sword] ++ [new_asset "Hero Axe" "SM_HeroAxe"])).
Proof.
  split; [reflexivity|]. split; [reflexivity|].
  refine (proj1 (proj2 (C2_create_asset no_repr mesh_state "Show" "Static Meshes"
    "Hero Axe" "SM_HeroAxe" None [hero_sword] _ eq_refl eq_refl _) _)).
  - discriminate.
  - constructor; [|constructor]. eexists. reflexivity.
  - intros H. inversion H as [? ? Hn|? ? Hn]; [discriminate Hn|inversion Hn].
Defined.

Lemma C3_witness :
  strip "Hero Sword" <> "" /\
  resolve_db_name no_repr mesh_conventions "Static Meshes" "Hero Sword" None
  = Ok (Some "SM_HeroSword").
Proof.
  assert (strip "Hero Sword" <> "") as H by discriminate.
  split; [exact H|].
  exact (proj1 (proj2 (proj2 (proj2
    (C3_identifier no_repr [] "Static Meshes" "Hero Sword" None H))))).
Defined.

Lemma C4_witness :
  dict_get "Textures" [("Textures", JObj [("suffixes", JObj [("Diffuse", JStr "_D")])])]
  = Some (JObj [("suffixes", JObj [("Diffuse", JStr "_D")])]) /\
  resolve_db_name no_repr texture_conventions "Textures" "Rock" None = Ok None.
Proof.
  split; [reflexivity|].
  exact (proj1 (proj1 (C4_variant_only_for_textures no_repr
    [("Textures", JObj [("suffixes", JObj [("Diffuse", JStr "_D")])])] "Rock")
    [("suffixes", JObj [("Diffuse", JStr "_D")])] [("Diffuse", JStr "_D")]
    eq_refl eq_refl)).
Defined.

Lemma C5_witness :
  migrate wrapped_raw
  = Ok [("Show", JObj [("Rocks", JObj [("assets", JArr [asset_of_string "Mossy Rock"])])])] /\
  get_assets (assets_hierarchy (init wrapped_raw ∅)) "Show" "Rocks"
  = Ok (JArr (migrate_entry <$> [JStr "Mossy Rock"])).
Proof.
  split; [reflexivity|].
  refine (proj1 (C5_wrapper_kept wrapped_raw ∅ _ _ "Show" "Rocks" _ _ [JStr "Mossy Rock"]
    eq_refl eq_refl _ eq_refl eq_refl eq_refl eq_refl)).
  discriminate.
Defined.

Lemma C6_witness :
  canonical (JObj canonical_doc) = true /\
  load_assets_from_json (JObj canonical_doc) = canonical_doc.
Proof.
  split; [reflexivity|].
  exact (proj2 C6_normalize_idempotent canonical_doc eq_refl).
Defined.

Lemma C9_witness :
  path_exists (tree mesh_state_on_disk) ["Show"] = true /\
  (os_rename false ["Show"] ["Show B"] (tree mesh_state_on_disk)).2 <> Done /\
  projects (rename_project ["Show"] "Show B" true false mesh_state_on_disk).1
  = [master_assets; "Show B"] /\
  Warning "Error" "Failed to rename project folder"
    ∈ (rename_project ["Show"] "Show B" true false mesh_state_on_disk).2 /\
  path_exists (tree mesh_state_on_disk)
    ["Show"; "Static Meshes"; "SM_HeroSword"; "SM_HeroSword.hipnc"] = true /\
  get_assets
    (assets_hierarchy
       (edit_asset_clicked no_repr "Show" "Static Meshes" "Hero Sword" "Hero Axe" true
          None false false mesh_state_on_disk).1) "Show" "Static Meshes"
  = Ok (JArr [new_asset "Hero Axe" "SM_HeroAxe"]) /\
  try_rename false ["Show"; "Static Meshes"; "SM_HeroSword"; "SM_HeroSword.hipnc"]
    ["Show"; "Static Meshes"; "SM_HeroSword"; "SM_HeroAxe.hipnc"] "Houdini file"
    (tree mesh_state_on_disk)
  = (tree mesh_state_on_disk, [Warning "Error" "Failed to rename Houdini file"]) /\
  try_rename false ["Show"; "Static Meshes"; "SM_HeroSword"]
    ["Show"; "Static Meshes"; "SM_HeroAxe"] "asset folder" (tree mesh_state_on_disk)
  = (tree mesh_state_on_disk, [Warning "Error" "Failed to rename asset folder"]).
Proof.
  assert (path_exists (tree mesh_state_on_disk) ["Show"] = true) as Hdir
    by (vm_compute; reflexivity).
  assert (path_exists (tree mesh_state_on_disk)
            ["Show"; "Static Meshes"; "SM_HeroSword"; "SM_HeroSword.hipnc"] = true) as Hfile
    by (vm_compute; reflexivity).
  assert (path_exists (tree mesh_state_on_disk)
            ["Show"; "Static Meshes"; "SM_HeroSword"] = true) as Hfolder
    by (vm_compute; reflexivity).
  destruct (C9_rename_commits no_repr mesh_state_on_disk) as [Hproject Hasset].
  destruct (Hproject "Show" "Show B" 1 (JObj [("Static Meshes", JArr [hero_sword])]) false)
    as (_ & Hlist & _ & _ & Hwarned).
  { discriminate. }
  { discriminate. }
  { simpl. intros H. inversion H as [|? ? ? H']; subst. inversion H' as [|? ? ? H'']; subst.
    inversion H''. }
  { discriminate. }
  { reflexivity. }
  { reflexivity. }
  destruct (Hasset "Show" "Static Meshes" "Hero Sword" "Hero Axe" None [hero_sword] 0%nat
              hero_sword "SM_HeroAxe" "SM_HeroSword" false false)
    as (Hdoc & _ & _ & _ & Hfile_try & Hfolder_try).
  { discriminate. }
  { reflexivity. }
  { reflexivity. }
  { reflexivity. }
  { reflexivity. }
  { reflexivity. }
  specialize (Hfile_try Hfile (os_rename_not_permitted _ _ _)).
  rewrite Hfile_try in Hfolder_try.
  specialize (Hfolder_try Hfolder (os_rename_not_permitted _ _ _)).
  split_and!.
  - exact Hdir.
  - apply os_rename_not_permitted.
  - exact Hlist.
  - exact (Hwarned Hdir (os_rename_not_permitted _ _ _)).
  - exact Hfile.
  - exact Hdoc.
  - exact Hfile_try.
  - exact Hfolder_try.
Defined.

(** ** Listing a directory *)

Lemma child_name_Some p q n : child_name p q = Some n <-> q = p ++ [n].
Proof.
  revert q. induction p as [|a p IH]; intros q; simpl.
  - destruct q as [|b [|c q]]; split; intros H; simplify_eq; done.
  - destruct q as [|b q]; [split; intros H; simplify_eq|].
    destruct (decide (a = b)) as [->|Hne].
    + rewrite IH. split; intros H; simplify_eq; done.
    + split; intros H; simplify_eq.
Qed.

Lemma elem_of_listdir (t : fs) p n : n ∈ listdir t p <-> is_Some (t !! (p ++ [n])).
Proof.
  unfold listdir. rewrite list_elem_of_omap. split.
  - intros ([q k] & Hin & Hc). simpl in Hc. apply child_name_Some in Hc. subst q.
    apply elem_of_map_to_list in Hin. by exists k.
  - intros [k Hk]. exists (p ++ [n], k). split.
    + by apply elem_of_map_to_list.
    + simpl. by apply child_name_Some.
Qed.

Lemma NoDup_listdir (t : fs) p : NoDup (listdir t p).
Proof.
  unfold listdir. pose proof (NoDup_fst_map_to_list t) as Hnd.
  induction (map_to_list t) as [|[q k] l IH]; simpl; [constructor|].
  rewrite fmap_cons in Hnd. apply NoDup_cons in Hnd as [Hq Hl]. simpl in Hq.
  destruct (child_name p q) as [n|] eqn:Hc; simpl; [|by apply IH].
  apply NoDup_cons. split; [|by apply IH].
  rewrite list_elem_of_omap. intros ([q' k'] & Hin & Hc'). simpl in Hc'.
  apply child_name_Some in Hc, Hc'. subst q q'. apply Hq.
  apply list_elem_of_fmap. by exists (p ++ [n], k').
Qed.

(** ** Sequencing *)

Lemma for_each_app {A : Type} (l1 l2 : list A) (body : A -> action) t :
  for_each (l1 ++ l2) body t = (for_each l1 body >> for_each l2 body) t.
Proof.
  revert t. induction l1 as [|x l1 IH]; intros t; simpl; [done|].
  unfold seq. destruct (body x t) as [t1 [|e]]; [|done].
  by rewrite IH.
Qed.

Lemma for_each_unchanged {A : Type} (l : list A) (body : A -> action) t :
  (forall x, x ∈ l -> body x t = (t, Done)) -> for_each l body t = (t, Done).
Proof.
  induction l as [|x l IH]; intros H; simpl; [done|].
  unfold seq. rewrite H by left. apply IH. intros y Hy. apply H. by right.
Qed.

(** A loop whose body keeps [I] and never raises under it. *)
Lemma for_each_invariant {A : Type} (I : fs -> Prop) (l : list A) (body : A -> action) t :
  (forall x t0, x ∈ l -> I t0 -> exists t1, body x t0 = (t1, Done) /\ I t1) ->
  I t -> exists t', for_each l body t = (t', Done) /\ I t'.
Proof.
  revert t. induction l as [|x l IH]; intros t H Ht; simpl; [by exists t|].
  destruct (H x t) as (t1 & Hb & Ht1); [left|done|].
  unfold seq. rewrite Hb. apply IH; [|done].
  intros y t0 Hy. apply H. by right.
Qed.

(** ** [os.makedirs] *)

Lemma makedirs_from_lookup pre rest t t' q :
  makedirs_from pre rest t = (t', Done) ->
  t' !! q = if decide (q <> pre /\ pre `prefix_of` q /\ q `prefix_of` (pre ++ rest))
            then Some KDir else t !! q.
Proof.
  revert pre t. induction rest as [|n rest IH]; intros pre t; simpl.
  - intros [= <-]. rewrite app_nil_r. case_decide as H; [|done].
    destruct H as (Hne & H1 & H2). exfalso. apply Hne.
    by apply (anti_symm prefix).
  - assert (forall t0, t0 !! (pre ++ [n]) = Some KDir ->
              makedirs_from (pre ++ [n]) rest t0 = (t', Done) ->
              t' !! q = if decide (q <> pre /\ pre `prefix_of` q /\
                                   q `prefix_of` (pre ++ n :: rest))
                        then Some KDir else t0 !! q) as Hstep.
    { intros t0 Hq Hm. rewrite (IH _ _ Hm). rewrite <- app_assoc. simpl.
      destruct (decide (q = pre ++ [n])) as [->|Hqn].
      - rewrite Hq. by repeat case_decide.
      - apply decide_ext. split.
        + intros (H1 & H2 & H3). split_and!; [|by etrans; [apply prefix_app_r|]|done].
          intros ->. destruct H2 as [k Hk]. rewrite <- app_assoc in Hk.
          apply (f_equal length) in Hk. rewrite !length_app in Hk. simpl in Hk. lia.
        + intros (H1 & [k Hk] & H3). split_and!; [done| |done].
          destruct H3 as [k' Hk']. subst q. rewrite <- app_assoc in Hk'.
          apply app_inv_head in Hk'. destruct k as [|a k]; [by rewrite app_nil_r in H1|].
          simpl in Hk'. injection Hk' as <- _. exists k. by rewrite <- app_assoc. }
    destruct (t !! (pre ++ [n])) as [[|]|] eqn:Hq.
    + done.
    + by apply Hstep.
    + intros Hm. rewrite (Hstep _ (lookup_insert_eq _ _ _) Hm).
      case_decide as Hd; [done|]. rewrite lookup_insert_ne; [done|].
      intros <-. apply Hd. split_and!.
      * intros H. apply (f_equal length) in H. rewrite length_app in H. simpl in H. lia.
      * by apply prefix_app_r.
      * apply prefix_app, prefix_cons, prefix_nil.
Qed.

Lemma makedirs_lookup p t t' q :
  makedirs p t = (t', Done) ->
  t' !! q = if decide (q <> [] /\ q `prefix_of` p) then Some KDir else t !! q.
Proof.
  intros H. rewrite (makedirs_from_lookup _ _ _ _ q H). simpl.
  apply decide_ext. split; [tauto|]. intros [? ?]. split_and!; [done|apply prefix_nil|done].
Qed.

Lemma makedirs_from_ok pre rest t :
  (forall q, q <> pre -> pre `prefix_of` q -> q `prefix_of` (pre ++ rest) ->
             t !! q <> Some KFile) ->
  exists t', makedirs_from pre rest t = (t', Done).
Proof.
  revert pre t. induction rest as [|n rest IH]; intros pre t H; simpl; [by eexists|].
  assert (pre ++ [n] <> pre) as Hne.
  { intros E. apply (f_equal length) in E. rewrite length_app in E. simpl in E. lia. }
  assert (forall t0, (forall q, q <> pre ++ [n] -> t0 !! q = t !! q) ->
            exists t', makedirs_from (pre ++ [n]) rest t0 = (t', Done)) as Hstep.
  { intros t0 Hsame. apply IH. intros q Hq H1 H2. rewrite Hsame by done.
    apply H.
    - intros ->. destruct H1 as [k Hk]. rewrite <- app_assoc in Hk.
      apply (f_equal length) in Hk. rewrite !length_app in Hk. simpl in Hk. lia.
    - etrans; [|exact H1]. by apply prefix_app_r.
    - by rewrite <- app_assoc in H2. }
  destruct (t !! (pre ++ [n])) as [[|]|] eqn:Hq.
  - exfalso. eapply H; [exact Hne| | |exact Hq].
    + by apply prefix_app_r.
    + apply prefix_app, prefix_cons, prefix_nil.
  - by apply Hstep.
  - apply Hstep. intros q Hqn. by rewrite lookup_insert_ne.
Qed.

Lemma makedirs_ok p t :
  (forall q, q <> [] -> q `prefix_of` p -> t !! q <> Some KFile) ->
  exists t', makedirs p t = (t', Done).
Proof. intros H. apply makedirs_from_ok. intros q Hq _ Hp. by apply H. Qed.

Lemma covered_cons p ps q :
  covered (p :: ps) q <-> (q <> [] /\ q `prefix_of` p) \/ covered ps q.
Proof. unfold covered. rewrite Exists_cons. tauto. Qed.

Lemma covered_app ps1 ps2 q : covered (ps1 ++ ps2) q <-> covered ps1 q \/ covered ps2 q.
Proof. unfold covered. rewrite Exists_app. tauto. Qed.

Lemma makedirs_all_lookup ps t t' q :
  for_each ps makedirs t = (t', Done) ->
  t' !! q = if decide (covered ps q) then Some KDir else t !! q.
Proof.
  revert t. induction ps as [|p ps IH]; intros t; simpl.
  - intros [= <-]. case_decide as H; [|done]. destruct H as [_ H]. by apply Exists_nil in H.
  - unfold seq. destruct (makedirs p t) as [t1 [|e]] eqn:Hp; [|done].
    intros Hps. rewrite (IH _ Hps), (makedirs_lookup _ _ _ q Hp).
    destruct (decide (covered ps q)) as [Hc|Hc].
    + rewrite decide_True; [done|]. apply covered_cons. by right.
    + destruct (decide (q <> [] /\ q `prefix_of` p)) as [Hq|Hq].
      * rewrite decide_True; [done|]. apply covered_cons. by left.
      * rewrite decide_False; [done|]. rewrite covered_cons. tauto.
Qed.

Lemma makedirs_all_ok ps t :
  (forall q, covered ps q -> t !! q <> Some KFile) ->
  exists t', for_each ps makedirs t = (t', Done).
Proof.
  revert t. induction ps as [|p ps IH]; intros t H; simpl; [by eexists|].
  destruct (makedirs_ok p t) as [t1 Hp].
  { intros q Hq Hpre. apply H. split; [done|]. by left. }
  unfold seq. rewrite Hp. apply IH. intros q [Hq Hex].
  rewrite (makedirs_lookup _ _ _ q Hp). case_decide; [done|].
  apply H. split; [done|]. by right.
Qed.

Lemma makedirs_all_noop ps t :
  (forall q, covered ps q -> t !! q = Some KDir) ->
  for_each ps makedirs t = (t, Done).
Proof.
  intros H. destruct (makedirs_all_ok ps t) as [t' Ht'].
  { intros q Hq. by rewrite (H q Hq). }
  rewrite Ht'. f_equal. apply map_eq. intros q.
  rewrite (makedirs_all_lookup _ _ _ q Ht'). case_decide; [|done]. by rewrite H.
Qed.

Lemma covered_parent ps q x : q <> [] -> covered ps (q ++ [x]) -> covered ps q.
Proof.
  intros Hq [_ Hex]. split; [done|]. eapply Exists_impl; [exact Hex|].
  intros p Hp. simpl in Hp. by eapply prefix_app_l.
Qed.

Lemma parent_closed_makedirs_all ps t t' :
  parent_closed t -> for_each ps makedirs t = (t', Done) -> parent_closed t'.
Proof.
  intros Ht Hps q x Hq.
  rewrite (makedirs_all_lookup _ _ _ (q ++ [x]) Hps), (makedirs_all_lookup _ _ _ q Hps).
  case_decide as Hc.
  - intros _. by rewrite decide_True by by eapply covered_parent.
  - intros Hx. case_decide; [done|]. by eapply Ht.
Qed.

Lemma parent_closed_ancestor t q r :
  parent_closed t -> q <> [] -> r <> [] -> is_Some (t !! (q ++ r)) -> t !! q = Some KDir.
Proof.
  intros Ht Hq. induction r as [|x r IH] using rev_ind; [done|]. intros _ Hx.
  rewrite app_assoc in Hx. destruct r as [|y r].
  - rewrite app_nil_r in Hx. by eapply Ht.
  - apply IH; [done|]. rewrite (Ht (q ++ y :: r) x); [done| |done].
    by destruct q.
Qed.

(** ** [shutil.rmtree] and [os.remove] *)

Lemma rmtree_lookup p t q :
  (rmtree p t).1 !! q = if decide (p `prefix_of` q) then None else t !! q.
Proof.
  unfold rmtree. simpl. rewrite map_lookup_filter.
  destruct (t !! q) as [k|]; simpl; [|by case_decide].
  case_decide as H.
  - rewrite option_guard_False; [done|]. simpl. tauto.
  - by rewrite option_guard_True.
Qed.

Lemma os_remove_lookup p t t' q :
  os_remove p t = (t', Done) ->
  t' !! q = if decide (q = p) then None else t !! q.
Proof.
  unfold os_remove. destruct (t !! p) as [[|]|]; try done. intros [= <-].
  case_decide as H; [subst; apply lookup_delete_eq|by apply lookup_delete_ne].
Qed.

(** ** Loops over a listing *)

(** Each iteration of the loop works on the part of the tree its name
    selects and leaves there what [F] says, reading only that part; then
    the loop leaves what [F] says on every selected part. *)
Lemma for_each_regions (sel : path -> option string) (F : fs -> path -> option kind)
    (body : string -> action) (ns : list string) (t t' : fs) :
  NoDup ns ->
  (forall n t0 t1, n ∈ ns -> body n t0 = (t1, Done) ->
     forall q, t1 !! q = if decide (sel q = Some n) then F t0 q else t0 !! q) ->
  (forall t1 t2 q n, sel q = Some n ->
     (forall q', sel q' = Some n -> t1 !! q' = t2 !! q') -> F t1 q = F t2 q) ->
  for_each ns body t = (t', Done) ->
  forall q, t' !! q = match sel q with
                      | Some n => if decide (n ∈ ns) then F t q else t !! q
                      | None => t !! q
                      end.
Proof.
  intros Hnd Hbody Hext. revert t. induction Hnd as [|n ns Hn Hnd IH]; intros t; simpl.
  - unfold skip. intros [= <-] q. by destruct (sel q).
  - unfold seq. destruct (body n t) as [t1 [|e]] eqn:Hb; [|done]. intros Hrest q.
    assert (forall q, t1 !! q = if decide (sel q = Some n) then F t q else t !! q) as H1.
    { apply Hbody; [left|done]. }
    rewrite (IH (fun m t0 t2 Hm => Hbody m t0 t2 (list_elem_of_further _ _ _ Hm)) _ Hrest q).
    destruct (sel q) as [m|] eqn:Hm.
    + destruct (decide (m = n)) as [->|Hmn].
      * rewrite decide_False by done. rewrite H1, Hm, decide_True by done.
        rewrite decide_True by left. done.
      * destruct (decide (m ∈ ns)) as [Hin|Hout].
        -- rewrite decide_True by by right. apply (Hext _ _ _ m Hm).
           intros q' Hq'. rewrite H1, Hq'. rewrite decide_False; [done|congruence].
        -- rewrite decide_False.
           ++ rewrite H1, Hm. rewrite decide_False; [done|congruence].
           ++ rewrite elem_of_cons. tauto.
    + rewrite H1, Hm. by rewrite decide_False.
Qed.

(** ** [cleanup_filesystem], path by path *)

Lemma entry_of_Some p c q x : entry_of p c q = Some x <-> q = [p; c; x].
Proof.
  unfold entry_of. destruct q as [|n [|c' [|x' [|? ?]]]];
    try (split; intros H; discriminate H).
  destruct (decide (n = p /\ c' = c)) as [[-> ->]|Hne].
  - split; intros H; by simplify_eq.
  - split; [done|]. intros H. simplify_eq. exfalso. by apply Hne.
Qed.

Lemma category_folder_of_Some p q c :
  category_folder_of p q = Some c <-> [p; c] `prefix_of` q.
Proof.
  unfold category_folder_of. destruct q as [|n [|c' r]].
  - split; [done|]. intros []%prefix_nil_not.
  - split; [done|]. intros [k Hk]. simpl in Hk. discriminate Hk.
  - case_decide as H; split.
    + intros [= ->]. subst n. by exists r.
    + intros [k Hk]. simpl in Hk. by injection Hk as _ -> _.
    + done.
    + intros [k Hk]. simpl in Hk. injection Hk as -> _ _. done.
Qed.

Lemma top_folder_Some q n : top_folder q = Some n <-> [n] `prefix_of` q.
Proof.
  unfold top_folder. destruct q as [|m r]; simpl.
  - split; [done|]. intros []%prefix_nil_not.
  - split.
    + intros [= ->]. by exists r.
    + intros [k Hk]. simpl in Hk. by injection Hk as -> _.
Qed.

Lemma after_category_outside names p c t q :
  entry_of p c q = None -> after_category names p c t q = t !! q.
Proof.
  unfold after_category, entry_of. destruct q as [|n [|c' [|x' [|? ?]]]]; try done.
  by case_decide.
Qed.

Lemma after_category_ext names p c t1 t2 q :
  t1 !! q = t2 !! q -> after_category names p c t1 q = after_category names p c t2 q.
Proof.
  intros H. unfold after_category. destruct q as [|n [|c' [|x [|? ?]]]]; try done.
  case_decide; [|done]. by destruct (unmatched names x).
Qed.

Lemma cleanup_category_lookup names p c t t' :
  cleanup_category names p c t = (t', Done) ->
  forall q, t' !! q = after_category names p c t q.
Proof.
  unfold cleanup_category. intros Hloop q.
  rewrite (fun Hb He => for_each_regions (entry_of p c) (after_category names p c)
             _ _ _ _ (NoDup_listdir t [p; c]) Hb He Hloop q).
  - destruct (entry_of p c q) as [x|] eqn:Hx.
    + case_decide as Hin; [done|]. apply entry_of_Some in Hx. subst q.
      rewrite elem_of_listdir in Hin. simpl in Hin.
      assert (t !! [p; c; x] = None) as Hnone.
      { destruct (t !! [p; c; x]); [|done]. exfalso. by apply Hin. }
      unfold after_category. rewrite decide_True by done. rewrite Hnone.
      by destruct (unmatched names x).
    + by rewrite after_category_outside.
  - intros x t0 t1 _ Hb q'.
    assert ((if unmatched names x then os_remove [p; c; x] else skip) t0 = (t1, Done))
      as Hb'.
    { rewrite <- Hb. unfold unmatched. by destruct (splitext x). }
    clear Hb. case_decide as Hsel.
    + apply entry_of_Some in Hsel. subst q'. unfold after_category.
      rewrite decide_True by done.
      destruct (unmatched names x).
      * rewrite (os_remove_lookup _ _ _ _ Hb'). by rewrite decide_True.
      * by injection Hb' as <-.
    + destruct (unmatched names x).
      * rewrite (os_remove_lookup _ _ _ _ Hb'). rewrite decide_False; [done|].
        intros ->. apply Hsel. by apply entry_of_Some.
      * by injection Hb' as <-.
  - intros t1 t2 q' x Hsel Hsame. apply entry_of_Some in Hsel as Hq. subst q'.
    unfold after_category. rewrite !decide_True by done.
    destruct (unmatched names x); [done|]. by apply Hsame.
Qed.

Lemma after_project_outside p cats t q :
  category_folder_of p q = None -> after_project p cats t q = t !! q.
Proof.
  unfold after_project, category_folder_of. destruct q as [|n [|c' r]]; try done.
  by case_decide.
Qed.

Lemma after_category_other names p c t q c' :
  category_folder_of p q = Some c' -> c' <> c ->
  after_category names p c t q = t !! q.
Proof.
  intros Hq Hne. apply after_category_outside.
  destruct (entry_of p c q) as [x|] eqn:Hx; [|done].
  apply entry_of_Some in Hx. subst q. simpl in Hq.
  rewrite decide_True in Hq by done. congruence.
Qed.

Lemma after_project_ext p cats t1 t2 q :
  t1 !! q = t2 !! q -> (forall c, t1 !! [p; c] = t2 !! [p; c]) ->
  after_project p cats t1 q = after_project p cats t2 q.
Proof.
  intros Hq Hc. unfold after_project. destruct q as [|n [|c r]]; try done.
  case_decide; [|done]. unfold isdir. rewrite (Hc c), Hq.
  destruct (bool_decide _); [|done].
  destruct (py_in c cats) as [[|]|]; try done.
  destruct (category_db_names cats c) as [names|]; [|done].
  by apply after_category_ext.
Qed.

Lemma cleanup_project_lookup p cats t t' :
  cleanup_project p cats t = (t', Done) ->
  forall q, t' !! q = after_project p cats t q.
Proof.
  unfold cleanup_project. intros Hloop q.
  rewrite (fun Hb He => for_each_regions (category_folder_of p) (after_project p cats)
             _ _ _ _ (NoDup_listdir t [p]) Hb He Hloop q).
  - destruct (category_folder_of p q) as [c|] eqn:Hc.
    + case_decide as Hin; [done|].
      rewrite elem_of_listdir in Hin. simpl in Hin.
      unfold category_folder_of in Hc. destruct q as [|n [|c' r]]; try done.
      case_decide; [|done]. simplify_eq. unfold after_project.
      rewrite decide_True by done.
      assert (isdir t [p; c] = false) as ->; [|done].
      apply bool_decide_eq_false. intros Hd. apply Hin. by rewrite Hd.
    + by rewrite after_project_outside.
  - intros c t0 t1 _ Hb q'.
    assert (forall r, category_folder_of p (p :: c :: r) = Some c) as Hreg.
    { intros r. simpl. by rewrite decide_True. }
    destruct (isdir t0 [p; c]) eqn:Hdir; simpl in Hb.
    2:{ injection Hb as <-. case_decide as Hsel; [|done].
        unfold category_folder_of in Hsel. destruct q' as [|n [|c' r]]; try done.
        case_decide; [|done]. simplify_eq. unfold after_project.
        rewrite decide_True by done. by rewrite Hdir. }
    destruct (py_in c cats) as [[|]|e] eqn:Hin; simpl in Hb; [| |done].
    + unfold category_db_names in *.
      destruct (py_getitem cats c) as [cv|] eqn:Hcv; simpl in Hb; [|done].
      destruct (db_name_set (asset_list_of cv)) as [names|] eqn:Hn; simpl in Hb; [|done].
      rewrite (cleanup_category_lookup _ _ _ _ _ Hb q').
      case_decide as Hsel.
      * unfold category_folder_of in Hsel. destruct q' as [|n [|c' r]]; try done.
        case_decide; [|done]. simplify_eq. unfold after_project.
        rewrite decide_True by done. rewrite Hdir, Hin. unfold category_db_names.
        rewrite Hcv. simpl. by rewrite Hn.
      * apply after_category_outside.
        destruct (entry_of p c q') as [x|] eqn:Hx; [|done].
        apply entry_of_Some in Hx. subst q'. by rewrite Hreg in Hsel.
    + replace t1 with (rmtree [p; c] t0).1 by by rewrite Hb.
      rewrite rmtree_lookup. case_decide as Hpre.
      * apply category_folder_of_Some in Hpre as Hsel. rewrite decide_True by done.
        destruct Hpre as [r ->]. simpl. unfold after_project.
        rewrite decide_True by done. by rewrite Hdir, Hin.
      * rewrite decide_False; [done|]. by rewrite category_folder_of_Some.
  - intros t1 t2 q' c Hsel Hsame.
    unfold category_folder_of in Hsel. destruct q' as [|n [|c' r]]; try done.
    case_decide; [|done]. simplify_eq.
    assert (forall r, category_folder_of p (p :: c :: r) = Some c) as Hreg.
    { intros r'. simpl. by rewrite decide_True. }
    unfold after_project. rewrite !decide_True by done.
    unfold isdir. rewrite (Hsame [p; c] (Hreg [])).
    rewrite (Hsame (p :: c :: r) (Hreg r)).
    destruct (bool_decide _); [|done].
    destruct (py_in c cats) as [[|]|]; try done.
    destruct (category_db_names cats c) as [names|]; [|done].
    apply after_category_ext, Hsame, Hreg.
Qed.

Lemma after_cleanup_outside h t q :
  top_folder q = None -> after_cleanup h t q = t !! q.
Proof. by destruct q. Qed.

Lemma after_project_other p cats t q n :
  top_folder q = Some n -> n <> p -> after_project p cats t q = t !! q.
Proof.
  intros Hq Hne. apply after_project_outside.
  unfold category_folder_of. destruct q as [|m [|c r]]; try done.
  simpl in Hq. injection Hq as ->. by rewrite decide_False.
Qed.

Lemma cleanup_filesystem_lookup h t t' :
  cleanup_filesystem h t = (t', Done) ->
  forall q, t' !! q = after_cleanup h t q.
Proof.
  unfold cleanup_filesystem. intros Hloop q.
  rewrite (fun Hb He => for_each_regions top_folder (after_cleanup h)
             _ _ _ _ (NoDup_listdir t []) Hb He Hloop q).
  - destruct (top_folder q) as [n|] eqn:Hn.
    + case_decide as Hin; [done|].
      rewrite elem_of_listdir in Hin. simpl in Hin.
      destruct q as [|m r]; [done|]. simpl in Hn. injection Hn as ->.
      unfold after_cleanup.
      assert (isdir t [n] = false) as ->; [|done].
      apply bool_decide_eq_false. intros Hd. apply Hin. by rewrite Hd.
    + by rewrite after_cleanup_outside.
  - intros n t0 t1 _ Hb q'.
    destruct (isdir t0 [n]) eqn:Hdir; simpl in Hb.
    2:{ injection Hb as <-. case_decide as Hsel; [|done].
        destruct q' as [|m r]; [done|]. simpl in Hsel. injection Hsel as ->.
        unfold after_cleanup. by rewrite Hdir. }
    destruct (dict_get n h) as [cats|] eqn:Hget.
    + rewrite (cleanup_project_lookup _ _ _ _ Hb q'). case_decide as Hsel.
      * destruct q' as [|m r]; [done|]. simpl in Hsel. injection Hsel as ->.
        unfold after_cleanup. by rewrite Hdir, Hget.
      * destruct (top_folder q') as [m|] eqn:Hm.
        -- apply (after_project_other _ _ _ _ m); congruence.
        -- destruct q'; [|done]. done.
    + replace t1 with (rmtree [n] t0).1 by by rewrite Hb.
      rewrite rmtree_lookup. case_decide as Hpre.
      * apply top_folder_Some in Hpre as Hsel. rewrite decide_True by done.
        destruct Hpre as [r ->]. simpl. unfold after_cleanup. by rewrite Hdir, Hget.
      * rewrite decide_False; [done|]. by rewrite top_folder_Some.
  - intros t1 t2 q' n Hsel Hsame.
    destruct q' as [|m r]; [done|]. simpl in Hsel. injection Hsel as ->.
    assert (forall r, top_folder (n :: r) = Some n) as Hreg by done.
    unfold after_cleanup, isdir. rewrite (Hsame [n] (Hreg [])).
    rewrite (Hsame (n :: r) (Hreg r)).
    destruct (bool_decide _); [|done].
    destruct (dict_get n h) as [cats|]; [|done].
    apply after_project_ext; [apply Hsame, Hreg|].
    intros c. apply Hsame, Hreg.
Qed.

(** ** When [cleanup_filesystem] does not raise *)

Lemma swept_clean_rmtree h p t : swept_clean h t -> swept_clean h (rmtree p t).1.
Proof.
  intros Ht p' cats c names x H1 H2 H3 H4. rewrite rmtree_lookup.
  case_decide; [done|]. by eapply Ht.
Qed.

Lemma cleanup_category_clean h p cats c names t :
  dict_get p h = Some cats -> py_in c cats = Ok true ->
  category_db_names cats c = Ok names ->
  swept_clean h t -> cleanup_category names p c t = (t, Done).
Proof.
  intros H1 H2 H3 Ht. unfold cleanup_category. apply for_each_unchanged.
  intros x Hx. apply elem_of_listdir in Hx. simpl in Hx.
  assert (unmatched names x = false) as Hu.
  { destruct (unmatched names x) eqn:Hu; [|done].
    rewrite (Ht _ _ _ _ _ H1 H2 H3 Hu) in Hx. by destruct Hx. }
  unfold unmatched in Hu. destruct (splitext x) as [a e]. simpl in Hu. by rewrite Hu.
Qed.

Lemma cleanup_project_ok h p cats t :
  cleanup_safe h -> dict_get p h = Some cats -> swept_clean h t ->
  exists t', cleanup_project p cats t = (t', Done) /\ swept_clean h t'.
Proof.
  intros Hsafe Hget Ht. unfold cleanup_project.
  apply (for_each_invariant (swept_clean h)); [|done].
  intros c t0 _ Ht0. destruct (isdir t0 [p; c]); simpl; [|by exists t0].
  destruct (Hsafe _ _ c Hget) as (known & Hin & Hnames). rewrite Hin. simpl.
  destruct known; simpl.
  - destruct (Hnames eq_refl) as [names Hn]. unfold category_db_names in Hn.
    destruct (py_getitem cats c) as [cv|] eqn:Hcv; [|done]. simpl in *.
    rewrite Hn. simpl. exists t0. split; [|done].
    eapply cleanup_category_clean; try done.
    unfold category_db_names. by rewrite Hcv.
  - eexists. split; [done|]. by apply (swept_clean_rmtree h [p; c]).
Qed.

Lemma cleanup_filesystem_ok h t :
  cleanup_safe h -> swept_clean h t ->
  exists t', cleanup_filesystem h t = (t', Done).
Proof.
  intros Hsafe Ht. unfold cleanup_filesystem.
  destruct (for_each_invariant (swept_clean h) (listdir t [])
    (fun project_folder t' =>
       if negb (isdir t' [project_folder]) then skip t'
       else match dict_get project_folder h with
            | None => rmtree [project_folder] t'
            | Some categories => cleanup_project project_folder categories t'
            end) t) as (t' & Ht' & _); [|done|by exists t'].
  intros n t0 _ Ht0. destruct (isdir t0 [n]); simpl; [|by exists t0].
  destruct (dict_get n h) as [cats|] eqn:Hget.
  - by apply (cleanup_project_ok h).
  - eexists. split; [done|]. by apply (swept_clean_rmtree h [n]).
Qed.

(** ** The passes on a document of the expected shape *)

Lemma seq_ext (a a' b b' : action) t :
  (forall t0, a t0 = a' t0) -> (forall t0, b t0 = b' t0) -> (a >> b) t = (a' >> b') t.
Proof. intros Ha Hb. unfold seq. rewrite Ha. by destruct (a' t) as [t1 [|e]]. Qed.

Lemma for_each_ext {A : Type} (l : list A) (f g : A -> action) t :
  (forall x t0, x ∈ l -> f x t0 = g x t0) -> for_each l f t = for_each l g t.
Proof.
  revert t. induction l as [|x l IH]; intros t H; simpl; [done|].
  apply seq_ext.
  - intros t0. apply H. left.
  - intros t0. apply IH. intros y t1 Hy. apply H. by right.
Qed.

Lemma for_each_fmap {A B : Type} (f : A -> B) (l : list A) (body : B -> action) t :
  for_each (f <$> l) body t = for_each l (fun x => body (f x)) t.
Proof.
  revert t. induction l as [|x l IH]; intros t; [done|].
  rewrite fmap_cons. simpl. by apply seq_ext.
Qed.

Lemma for_each_bind {A B : Type} (f : A -> list B) (l : list A) (body : B -> action) t :
  for_each (l ≫= f) body t = for_each l (fun x => for_each (f x) body) t.
Proof.
  revert t. induction l as [|x l IH]; intros t; [done|].
  rewrite bind_cons, for_each_app. simpl. by apply seq_ext.
Qed.

Lemma for_each_Forall2 {A B : Type} (R : A -> B -> Prop) (f : A -> action) (g : B -> action)
    (l : list A) (k : list B) t :
  Forall2 R l k -> (forall x y t0, R x y -> f x t0 = g y t0) ->
  for_each l f t = for_each k g t.
Proof.
  intros H Hfg. revert t. induction H as [|x y l k Hxy _ IH]; intros t; [done|].
  simpl. apply seq_ext; [|done]. intros t0. by apply Hfg.
Qed.

Lemma Forall2_elem_l {A B : Type} (P : A -> B -> Prop) l k x :
  Forall2 P l k -> x ∈ l -> exists y, y ∈ k /\ P x y.
Proof.
  induction 1 as [|x' y l k Hxy _ IH]; intros Hx; [by apply elem_of_nil in Hx|].
  apply elem_of_cons in Hx as [->|Hx].
  - exists y. split; [left|done].
  - destruct (IH Hx) as (y' & ? & ?). exists y'. split; [by right|done].
Qed.

Lemma Forall2_elem_r {A B : Type} (P : A -> B -> Prop) l k y :
  Forall2 P l k -> y ∈ k -> exists x, x ∈ l /\ P x y.
Proof.
  induction 1 as [|x y' l k Hxy _ IH]; intros Hy; [by apply elem_of_nil in Hy|].
  apply elem_of_cons in Hy as [->|Hy].
  - exists x. split; [left|done].
  - destruct (IH Hy) as (x' & ? & ?). exists x'. split; [by right|done].
Qed.

Lemma make_hidden_paths q t : make_hidden q t = for_each (hidden_of q) makedirs t.
Proof. unfold make_hidden, hidden_of. by rewrite for_each_fmap. Qed.

(** What the view says about the document. *)
Lemma view_asset_Some a d : view_asset a = Some d -> py_getitem a "db_name" = Ok (JStr d).
Proof.
  unfold view_asset. destruct (py_getitem a "db_name") as [[| | |s| |]|]; try done.
  by intros [= ->].
Qed.

Lemma view_assets_db_names cv ds :
  view_assets cv = Some ds -> db_name_set (asset_list_of cv) = Ok (JStr <$> ds).
Proof.
  unfold view_assets, db_name_set.
  destruct (py_iter (asset_list_of cv)) as [l|]; [|done]. simpl.
  intros H%mapM_Some_1. unfold_bind.
  induction H as [|a d l ds Ha _ IH]; [done|].
  assert (db_name_of a = Ok (JStr d)) as Hd.
  { unfold db_name_of. by rewrite (view_asset_Some _ _ Ha). }
  cbn [for_result]. unfold_bind. rewrite Hd, IH. by rewrite fmap_cons.
Qed.

Lemma view_categories_inv v cs :
  view_categories v = Some cs ->
  exists cats, v = JObj cats /\
    Forall2 (fun c cd => cd.1 = c /\ exists cv,
               dict_get c cats = Some cv /\ view_assets cv = Some cd.2)
      (dict_keys cats) cs.
Proof.
  unfold view_categories. destruct v as [| | | | |cats]; try done.
  intros H%mapM_Some_1. exists cats. split; [done|].
  eapply Forall2_impl; [exact H|]. intros c cd Hc. simpl in Hc.
  destruct (dict_get c cats) as [cv|]; [|done]. simpl in Hc.
  destruct (view_assets cv) as [ds|] eqn:Hds; [|done]. simpl in Hc.
  injection Hc as <-. simpl. eauto.
Qed.

Lemma view_inv h D :
  view h = Some D ->
  Forall2 (fun p pc => pc.1 = p /\ exists v,
             dict_get p h = Some v /\ view_categories v = Some pc.2)
    (dict_keys h) D.
Proof.
  unfold view. intros H%mapM_Some_1.
  eapply Forall2_impl; [exact H|]. intros p pc Hp. simpl in Hp.
  destruct (dict_get p h) as [v|]; [|done]. simpl in Hp.
  destruct (view_categories v) as [cs|] eqn:Hcs; [|done]. simpl in Hp.
  injection Hp as <-. simpl. eauto.
Qed.

Lemma hidden_asset_paths p c a d t :
  view_asset a = Some d ->
  hidden_asset p c a t = for_each (asset_paths p c d) makedirs t.
Proof.
  intros Ha. unfold hidden_asset. rewrite (view_asset_Some _ _ Ha). simpl.
  unfold seq at 1. unfold asset_paths. simpl. unfold seq at 1.
  destruct (makedirs [p; c; d] t) as [t1 [|e]]; [|done].
  apply make_hidden_paths.
Qed.

Lemma hidden_category_paths p cats c cd t :
  cd.1 = c ->
  (exists cv, dict_get c cats = Some cv /\ view_assets cv = Some cd.2) ->
  hidden_category p (JObj cats) (JStr c) t = for_each (category_paths p cd) makedirs t.
Proof.
  intros Hc (cv & Hcv & Hds). destruct cd as [c' ds]. cbn [fst snd] in *. subst c'.
  unfold hidden_category, category_paths. cbn [as_component lift fst snd].
  rewrite for_each_app. apply seq_ext; [apply make_hidden_paths|].
  intros t0. cbn [py_getitem]. rewrite Hcv. cbn [lift]. unfold view_assets in Hds.
  destruct (py_iter (asset_list_of cv)) as [l|]; [|done]. cbn [lift].
  apply mapM_Some_1 in Hds. rewrite for_each_bind.
  eapply for_each_Forall2; [exact Hds|].
  intros a d t1 Ha. by apply hidden_asset_paths.
Qed.

Lemma hidden_project_paths h p pc t :
  pc.1 = p ->
  (exists v, dict_get p h = Some v /\ view_categories v = Some pc.2) ->
  hidden_project h p t = for_each (project_paths pc) makedirs t.
Proof.
  intros Hp (v & Hv & Hcs). destruct pc as [p' cs]. cbn [fst snd] in *. subst p'.
  apply view_categories_inv in Hcs as (cats & -> & Hcs).
  unfold hidden_project, project_paths. cbn [fst snd].
  rewrite for_each_app. apply seq_ext; [apply make_hidden_paths|].
  intros t0. cbn [py_getitem]. rewrite Hv. cbn [lift py_iter].
  rewrite for_each_bind, for_each_fmap.
  eapply for_each_Forall2; [exact Hcs|].
  intros c cd t1 [Hc Hcv]. by apply hidden_category_paths.
Qed.

Lemma create_hidden_folders_paths h D t :
  view h = Some D ->
  create_hidden_folders h t = for_each (hidden_paths D) makedirs t.
Proof.
  intros HD%view_inv. unfold create_hidden_folders, hidden_paths.
  rewrite for_each_bind. eapply for_each_Forall2; [exact HD|].
  intros p pc t0 [Hp Hv]. by apply hidden_project_paths.
Qed.

Lemma dict_get_NoDup h p v : NoDup (dict_keys h) -> (p, v) ∈ h -> dict_get p h = Some v.
Proof.
  unfold dict_keys. induction h as [|[k w] h IH]; intros Hnd Hin.
  - by apply elem_of_nil in Hin.
  - rewrite fmap_cons in Hnd. apply NoDup_cons in Hnd as [Hk Hnd]. simpl in *.
    apply elem_of_cons in Hin as [[= -> ->]|Hin].
    + by rewrite decide_True.
    + rewrite decide_False; [by apply IH|]. intros ->. apply Hk.
      apply list_elem_of_fmap. by exists (k, v).
Qed.

Lemma ensure_project_paths p cats pc t :
  pc.1 = p ->
  view_categories (JObj cats) = Some pc.2 ->
  ensure_project (p, JObj cats) t
  = for_each ([p] :: ((fun cd => [p; cd.1]) <$> pc.2)) makedirs t.
Proof.
  intros Hp Hcs. destruct pc as [p' cs]. cbn [fst snd] in *. subst p'.
  apply view_categories_inv in Hcs as (cats' & [= <-] & Hcs).
  unfold ensure_project. cbn [for_each py_items lift].
  apply seq_ext; [done|]. intros t0. rewrite for_each_fmap.
  transitivity (for_each (dict_keys cats) (fun c => makedirs [p; c]) t0).
  - unfold dict_keys. rewrite for_each_fmap. apply for_each_ext. by intros [c cv] t1 _.
  - eapply for_each_Forall2; [exact Hcs|]. by intros c cd t1 [-> _].
Qed.

Lemma ensure_items_paths h (items : dict) (D : list (string * list (string * list string))) t :
  (forall item, item ∈ items -> dict_get item.1 h = Some item.2) ->
  Forall2 (fun item pc => pc.1 = item.1 /\ exists v,
             dict_get item.1 h = Some v /\ view_categories v = Some pc.2) items D ->
  for_each items ensure_project t
  = for_each D (fun pc => for_each ([pc.1] :: ((fun cd => [pc.1; cd.1]) <$> pc.2))
                            makedirs) t.
Proof.
  intros Hget HD. revert t.
  induction HD as [|[p v] pc items D [Hp (v' & Hv' & Hcs)] _ IH]; intros t; [done|].
  cbn [fst snd] in *. assert (v' = v) as ->.
  { pose proof (Hget (p, v) ltac:(left)) as H. cbn [fst snd] in H. congruence. }
  apply view_categories_inv in Hcs as Hinv. destruct Hinv as (cats & -> & _).
  cbn [for_each]. apply seq_ext.
  - intros t0. rewrite Hp. by apply ensure_project_paths.
  - intros t0. apply IH. intros item Hin. apply Hget. by right.
Qed.

Lemma ensure_present_paths h D t :
  NoDup (dict_keys h) -> view h = Some D ->
  ensure_present h t = for_each (ensure_paths D) makedirs t.
Proof.
  intros Hnd HD%view_inv. unfold ensure_present, ensure_paths.
  unfold seq at 1. cbn [makedirs makedirs_from]. rewrite for_each_bind.
  unfold dict_keys in HD. apply Forall2_fmap_l in HD.
  rewrite (ensure_items_paths h h D).
  - apply for_each_ext. by intros [p cs] t0 _.
  - intros [p v] Hin. by apply dict_get_NoDup.
  - eapply Forall2_impl; [exact HD|]. by intros [p v] pc H.
Qed.

(** ** The paths the passes ask for *)

Lemma prefix_cons_cases (q : path) a l :
  q `prefix_of` a :: l -> q = [] \/ exists q', q = a :: q' /\ q' `prefix_of` l.
Proof.
  destruct q as [|b q]; [by left|]. intros H. right.
  pose proof (prefix_cons_inv_1 _ _ _ _ H) as ->.
  exists q. split; [done|]. by eapply prefix_cons_inv_2.
Qed.

Ltac prefix_cases H :=
  repeat match type of H with
    | _ `prefix_of` [] => apply prefix_nil_inv in H; subst
    | _ `prefix_of` _ :: _ =>
        let q' := fresh "q" in
        apply prefix_cons_cases in H as [->|(q' & -> & H)]
    end.

Lemma elem_of_hidden_of q p : q ∈ hidden_of p <-> exists f, f ∈ hidden_folders /\ q = p ++ [f].
Proof.
  unfold hidden_of. rewrite list_elem_of_fmap. split; intros (f & ? & ?); by exists f.
Qed.

Lemma hidden_folder_not_txt db_names f :
  f ∈ hidden_folders -> unmatched db_names f = false.
Proof.
  unfold hidden_folders. rewrite !elem_of_cons, elem_of_nil.
  intros [->|[->|[->|[]]]]; reflexivity.
Qed.

Lemma covered_ensure_paths D q :
  covered (ensure_paths D) q <->
  exists pc, pc ∈ D /\ (q = [pc.1] \/ exists cd, cd ∈ pc.2 /\ q = [pc.1; cd.1]).
Proof.
  unfold covered, ensure_paths. rewrite Exists_exists. split.
  - intros (Hq & q' & Hin & Hpre). apply list_elem_of_bind in Hin as ([p cs] & Hin & Hpc).
    exists (p, cs). split; [done|]. simpl.
    apply elem_of_cons in Hin as [->|Hin].
    + prefix_cases Hpre; try done. by left.
    + apply list_elem_of_fmap in Hin as (cd & -> & Hcd).
      prefix_cases Hpre; try done; [by left|]. right. by exists cd.
  - intros ([p cs] & Hpc & H). simpl in H. destruct H as [->|(cd & Hcd & ->)].
    + split; [done|]. exists [p]. split; [|done].
      apply list_elem_of_bind. exists (p, cs). split; [left|done].
    + split; [done|]. exists [p; cd.1]. split; [|done].
      apply list_elem_of_bind. exists (p, cs). split; [|done].
      right. apply list_elem_of_fmap. by exists cd.
Qed.

Lemma elem_of_hidden_paths D q :
  q ∈ hidden_paths D <->
  exists pc, pc ∈ D /\
    ((exists f, f ∈ hidden_folders /\ q = [pc.1; f]) \/
     exists cd, cd ∈ pc.2 /\
       ((exists f, f ∈ hidden_folders /\ q = [pc.1; cd.1; f]) \/
        exists d, d ∈ cd.2 /\
          (q = [pc.1; cd.1; d] \/
           exists f, f ∈ hidden_folders /\ q = [pc.1; cd.1; d; f]))).
Proof.
  assert (forall p c d q0, q0 ∈ asset_paths p c d <->
            (q0 = [p; c; d] \/ exists f, f ∈ hidden_folders /\ q0 = [p; c; d; f])) as Ha.
  { intros p c d q0. unfold asset_paths. by rewrite elem_of_cons, elem_of_hidden_of. }
  assert (forall p cd q0, q0 ∈ category_paths p cd <->
            ((exists f, f ∈ hidden_folders /\ q0 = [p; cd.1; f]) \/
             exists d, d ∈ cd.2 /\
               (q0 = [p; cd.1; d] \/ exists f, f ∈ hidden_folders /\ q0 = [p; cd.1; d; f])))
    as Hc.
  { intros p cd q0. unfold category_paths.
    rewrite elem_of_app, elem_of_hidden_of, list_elem_of_bind. split.
    - intros [?|(d & Hin & Hd)]; [by left|]. right. exists d. split; [done|]. by apply Ha.
    - intros [?|(d & Hd & Hin)]; [by left|]. right. exists d. split; [|done]. by apply Ha. }
  unfold hidden_paths. rewrite list_elem_of_bind. split.
  - intros (pc & Hin & Hpc). exists pc. split; [done|]. unfold project_paths in Hin.
    rewrite elem_of_app, elem_of_hidden_of, list_elem_of_bind in Hin.
    destruct Hin as [?|(cd & Hin & Hcd)]; [by left|]. right. exists cd.
    split; [done|]. by apply Hc.
  - intros (pc & Hpc & Hin). exists pc. split; [|done]. unfold project_paths.
    rewrite elem_of_app, elem_of_hidden_of, list_elem_of_bind.
    destruct Hin as [?|(cd & Hcd & Hin)]; [by left|]. right. exists cd.
    split; [|done]. by apply Hc.
Qed.

(** The shapes of a path on the way to a hidden folder. *)
Lemma covered_hidden_paths D q :
  covered (hidden_paths D) q ->
  exists pc, pc ∈ D /\
    (q = [pc.1] \/
     (exists f, f ∈ hidden_folders /\ q = [pc.1; f]) \/
     exists cd, cd ∈ pc.2 /\
       (q = [pc.1; cd.1] \/
        (exists f, f ∈ hidden_folders /\ q = [pc.1; cd.1; f]) \/
        exists d, d ∈ cd.2 /\
          (q = [pc.1; cd.1; d] \/
           exists f, f ∈ hidden_folders /\ q = [pc.1; cd.1; d; f]))).
Proof.
  unfold covered. rewrite Exists_exists. intros (Hq & q' & Hin & Hpre).
  apply elem_of_hidden_paths in Hin as (pc & Hpc & Hin). exists pc. split; [done|].
  destruct Hin as [(f & Hf & ->)|(cd & Hcd & Hin)].
  { prefix_cases Hpre; try done; [by left|]. right. left. by exists f. }
  destruct Hin as [(f & Hf & ->)|(d & Hd & Hin)].
  { prefix_cases Hpre; try done; [by left| |].
    - right. right. exists cd. split; [done|]. by left.
    - right. right. exists cd. split; [done|]. right. left. by exists f. }
  destruct Hin as [->|(f & Hf & ->)].
  { prefix_cases Hpre; try done; [by left| |].
    - right. right. exists cd. split; [done|]. by left.
    - right. right. exists cd. split; [done|]. right. right. exists d.
      split; [done|]. by left. }
  prefix_cases Hpre; try done; [by left| | |].
  - right. right. exists cd. split; [done|]. by left.
  - right. right. exists cd. split; [done|]. right. right. exists d.
    split; [done|]. by left.
  - right. right. exists cd. split; [done|]. right. right. exists d.
    split; [done|]. right. by exists f.
Qed.

Lemma covered_hidden_project D pc f :
  pc ∈ D -> f ∈ hidden_folders -> covered (hidden_paths D) [pc.1; f].
Proof.
  intros Hpc Hf. split; [done|]. apply Exists_exists. exists [pc.1; f]. split; [|done].
  apply elem_of_hidden_paths. exists pc. split; [done|]. left. by exists f.
Qed.

(** ** The document behind its view *)

Lemma view_project_of_get h D p v :
  view h = Some D -> dict_get p h = Some v ->
  exists cs, (p, cs) ∈ D /\ view_categories v = Some cs.
Proof.
  intros HD%view_inv Hget.
  destruct (Forall2_elem_l _ _ _ p HD) as ([p' cs] & Hin & Hp & v' & Hv' & Hcs).
  { by eapply dict_get_Some_keys. }
  simpl in *. subst p'. exists cs. split; [done|]. congruence.
Qed.

Lemma view_get_of_project h D pc :
  view h = Some D -> pc ∈ D ->
  exists v, dict_get pc.1 h = Some v /\ view_categories v = Some pc.2.
Proof.
  intros HD%view_inv Hin.
  destruct (Forall2_elem_r _ _ _ pc HD Hin) as (p & _ & Hp & v & Hv & Hcs).
  subst p. by exists v.
Qed.

Lemma view_category_of_mem cats cs c :
  view_categories (JObj cats) = Some cs -> dict_mem c cats = true ->
  exists ds cv, (c, ds) ∈ cs /\ dict_get c cats = Some cv /\ view_assets cv = Some ds.
Proof.
  intros (cats' & [= <-] & Hcs)%view_categories_inv Hmem%dict_mem_true.
  destruct (Forall2_elem_l _ _ _ c Hcs Hmem) as ([c' ds] & Hin & Hc & cv & Hcv & Hds).
  simpl in *. subst c'. by exists ds, cv.
Qed.

Lemma view_mem_of_category cats cs cd :
  view_categories (JObj cats) = Some cs -> cd ∈ cs ->
  exists cv, dict_get cd.1 cats = Some cv /\ view_assets cv = Some cd.2.
Proof.
  intros (cats' & [= <-] & Hcs)%view_categories_inv Hin.
  destruct (Forall2_elem_r _ _ _ cd Hcs Hin) as (c & _ & Hc & cv & Hcv & Hds).
  subst c. by exists cv.
Qed.

Lemma category_db_names_view cats c cv ds :
  dict_get c cats = Some cv -> view_assets cv = Some ds ->
  category_db_names (JObj cats) c = Ok (JStr <$> ds).
Proof.
  intros Hcv Hds. unfold category_db_names. simpl. rewrite Hcv. simpl.
  by apply view_assets_db_names.
Qed.

Lemma cleanup_safe_view h D : view h = Some D -> cleanup_safe h.
Proof.
  intros HD p v c Hget.
  destruct (view_project_of_get _ _ _ _ HD Hget) as (cs & _ & Hcs).
  apply view_categories_inv in Hcs as Hinv. destruct Hinv as (cats & -> & _).
  exists (dict_mem c cats). split; [done|]. intros Hmem.
  destruct (view_category_of_mem _ _ _ Hcs Hmem) as (ds & cv & _ & Hcv & Hds).
  exists (JStr <$> ds). by eapply category_db_names_view.
Qed.

Lemma txt_safe_spec D pc cd d :
  txt_safe D = true -> pc ∈ D -> cd ∈ pc.2 -> d ∈ cd.2 ->
  unmatched (JStr <$> cd.2) d = false.
Proof.
  unfold txt_safe. intros H Hpc Hcd Hd.
  apply forallb_true_Forall in H. rewrite Forall_forall in H.
  specialize (H _ Hpc). apply forallb_true_Forall in H. rewrite Forall_forall in H.
  specialize (H _ Hcd). apply forallb_true_Forall in H. rewrite Forall_forall in H.
  specialize (H _ Hd). by apply negb_true_iff in H.
Qed.

Lemma after_cleanup_cases h t q :
  after_cleanup h t q = None \/ after_cleanup h t q = t !! q.
Proof.
  unfold after_cleanup. destruct q as [|n r]; [by right|].
  destruct (isdir t [n]); [|by right].
  destruct (dict_get n h) as [cats|]; [|by left].
  unfold after_project. destruct r as [|c r]; [by right|].
  case_decide; [|by right]. destruct (isdir t [n; c]); [|by right].
  destruct (py_in c cats) as [[|]|]; [|by left|by right].
  destruct (category_db_names cats c) as [names|]; [|by right].
  unfold after_category. destruct r as [|x [|? ?]]; try by right.
  case_decide; [|by right]. destruct (unmatched names x); [by left|by right].
Qed.

Lemma isdir_true t q : isdir t q = true <-> t !! q = Some KDir.
Proof. apply bool_decide_eq_true. Qed.

(** ** One synchronisation after another *)

Section Reconcile.

Variable h : dict.
Variable D : list (string * list (string * list string)).
Variables t tA tB t1 : fs.

Hypothesis Hnd : NoDup (dict_keys h).
Hypothesis HD : view h = Some D.
Hypothesis Hsafe : txt_safe D = true.
Hypothesis Hpc : parent_closed t.
Hypothesis HA : ensure_present h t = (tA, Done).
Hypothesis HB : cleanup_filesystem h tA = (tB, Done).
Hypothesis H1 : create_hidden_folders h tB = (t1, Done).

Lemma ensured_lookup q :
  tA !! q = if decide (covered (ensure_paths D) q) then Some KDir else t !! q.
Proof.
  apply makedirs_all_lookup. by rewrite <- (ensure_present_paths h D t).
Qed.

Lemma ensured_parent_closed : parent_closed tA.
Proof.
  eapply parent_closed_makedirs_all; [exact Hpc|].
  by rewrite <- (ensure_present_paths h D t).
Qed.

Lemma cleaned_lookup q : tB !! q = after_cleanup h tA q.
Proof. by apply cleanup_filesystem_lookup. Qed.

Lemma reconciled_lookup q :
  t1 !! q = if decide (covered (hidden_paths D) q) then Some KDir else tB !! q.
Proof.
  apply makedirs_all_lookup. by rewrite <- (create_hidden_folders_paths h D tB).
Qed.

Lemma known_project pc :
  pc ∈ D -> exists cats,
    dict_get pc.1 h = Some (JObj cats) /\ view_categories (JObj cats) = Some pc.2.
Proof.
  intros Hin. destruct (view_get_of_project _ _ _ HD Hin) as (v & Hv & Hcs).
  apply view_categories_inv in Hcs as Hinv. destruct Hinv as (cats & -> & _).
  by exists cats.
Qed.

Lemma known_category pc cats cd :
  pc ∈ D -> dict_get pc.1 h = Some (JObj cats) -> cd ∈ pc.2 ->
  py_in cd.1 (JObj cats) = Ok true /\
  category_db_names (JObj cats) cd.1 = Ok (JStr <$> cd.2).
Proof.
  intros Hpc' Hget Hcd. destruct (known_project pc Hpc') as (cats' & Hget' & Hcs).
  assert (cats' = cats) as -> by congruence.
  destruct (view_mem_of_category _ _ _ Hcs Hcd) as (cv & Hcv & Hds). split.
  - simpl. unfold dict_mem. by rewrite Hcv.
  - by eapply category_db_names_view.
Qed.

Lemma ensured_project pc : pc ∈ D -> tA !! [pc.1] = Some KDir.
Proof.
  intros Hin. rewrite ensured_lookup, decide_True; [done|].
  apply covered_ensure_paths. exists pc. split; [done|]. by left.
Qed.

Lemma ensured_category pc cd : pc ∈ D -> cd ∈ pc.2 -> tA !! [pc.1; cd.1] = Some KDir.
Proof.
  intros Hin Hcd. rewrite ensured_lookup, decide_True; [done|].
  apply covered_ensure_paths. exists pc. split; [done|]. right. by exists cd.
Qed.

(** What the clean-up leaves below a known category. *)
Lemma cleaned_below_category pc cd r :
  pc ∈ D -> cd ∈ pc.2 ->
  tB !! (pc.1 :: cd.1 :: r)
  = after_category (JStr <$> cd.2) pc.1 cd.1 tA (pc.1 :: cd.1 :: r).
Proof.
  intros Hin Hcd. rewrite cleaned_lookup. unfold after_cleanup.
  rewrite (proj2 (isdir_true _ _) (ensured_project pc Hin)).
  destruct (known_project pc Hin) as (cats & Hget & Hcs). rewrite Hget.
  unfold after_project. rewrite decide_True by done.
  rewrite (proj2 (isdir_true _ _) (ensured_category pc cd Hin Hcd)).
  destruct (known_category pc cats cd Hin Hget Hcd) as [-> ->]. done.
Qed.

Lemma cleaned_keeps_ensured q :
  covered (ensure_paths D) q -> tB !! q = Some KDir.
Proof.
  intros (pc & Hin & Hq)%covered_ensure_paths. destruct Hq as [->|(cd & Hcd & ->)].
  - rewrite cleaned_lookup. unfold after_cleanup.
    rewrite (proj2 (isdir_true _ _) (ensured_project pc Hin)).
    destruct (known_project pc Hin) as (cats & -> & _). simpl.
    by apply ensured_project.
  - rewrite (cleaned_below_category pc cd [] Hin Hcd). simpl.
    by apply ensured_category.
Qed.

Lemma reconciled_keeps_ensured q :
  covered (ensure_paths D) q -> t1 !! q = Some KDir.
Proof.
  intros Hq. rewrite reconciled_lookup. case_decide; [done|].
  by apply cleaned_keeps_ensured.
Qed.

Lemma reconciled_hidden q : covered (hidden_paths D) q -> t1 !! q = Some KDir.
Proof. intros Hq. by rewrite reconciled_lookup, decide_True. Qed.

Lemma reconciled_swept : swept_clean h t1.
Proof.
  intros p v c names x Hget Hin Hnames Hun.
  destruct (view_project_of_get _ _ _ _ HD Hget) as (cs & Hpc' & Hcs).
  apply view_categories_inv in Hcs as Hinv. destruct Hinv as (cats & -> & _).
  simpl in Hin. injection Hin as Hmem.
  destruct (view_category_of_mem _ _ _ Hcs Hmem) as (ds & cv & Hcd & Hcv & Hds).
  assert (names = JStr <$> ds) as ->.
  { pose proof (category_db_names_view _ _ _ _ Hcv Hds) as H. congruence. }
  rewrite reconciled_lookup. case_decide as Hcov.
  - exfalso. apply covered_hidden_paths in Hcov as (pc' & Hin' & Hshape).
    destruct Hshape as [?|[(f & _ & ?)|(cd' & Hcd' & Hshape)]]; [done|done|].
    destruct Hshape as [?|[(f & Hf & Heq)|(d & Hd & Hshape)]]; [done| |].
    + injection Heq as _ _ ->. by rewrite hidden_folder_not_txt in Hun.
    + destruct Hshape as [Heq|(f & _ & ?)]; [|done].
      injection Heq as Hp Hc ->. destruct pc' as [p' cs'], cd' as [c' ds'].
      simpl in *. subst p' c'.
      destruct (known_category (p, cs') cats (c, ds') Hin' Hget Hcd') as [_ Hn'].
      simpl in Hn'. rewrite Hnames in Hn'. injection Hn' as Hn'.
      pose proof (txt_safe_spec D (p, cs') (c, ds') d Hsafe Hin' Hcd' Hd) as Hs.
      simpl in Hs. rewrite <- Hn' in Hs. congruence.
  - pose proof (cleaned_below_category (p, cs) (c, ds) [x] Hpc' Hcd) as HBx.
    cbn [fst snd] in HBx. rewrite HBx. unfold after_category.
    rewrite decide_True by done. by rewrite Hun.
Qed.

Lemma reconciled_top n : t1 !! [n] = Some KDir -> is_Some (dict_get n h).
Proof.
  rewrite reconciled_lookup. case_decide as Hcov.
  - intros _. apply covered_hidden_paths in Hcov as (pc & Hin & Hshape).
    assert (n = pc.1) as ->.
    { destruct Hshape as [?|[(f & _ & ?)|(cd & _ & Hshape)]]; [congruence|done|].
      destruct Hshape as [?|[(f & _ & ?)|(d & _ & [?|(f & _ & ?)])]]; done. }
    destruct (known_project pc Hin) as (cats & -> & _). done.
  - rewrite cleaned_lookup. unfold after_cleanup.
    destruct (isdir tA [n]) eqn:Hdir.
    + destruct (dict_get n h); [done|]. done.
    + intros H. apply isdir_true in H. congruence.
Qed.

(** An entry that the second clean-up removes is a hidden folder of a
    project that is no category of it, which the last pass makes again. *)
Lemma removed_is_project_hidden q k :
  t1 !! q = Some k -> after_cleanup h t1 q = None ->
  exists pc f, pc ∈ D /\ f ∈ hidden_folders /\ (f ∉ pc.2.*1) /\ q = [pc.1; f].
Proof.
  intros Hq Hnone. destruct q as [|n r]; [simpl in Hnone; congruence|].
  unfold after_cleanup in Hnone.
  destruct (isdir t1 [n]) eqn:Hn; [|congruence]. apply isdir_true in Hn.
  destruct (reconciled_top n Hn) as [v Hget]. rewrite Hget in Hnone.
  destruct (view_project_of_get _ _ _ _ HD Hget) as (cs & Hpc' & Hcs).
  apply view_categories_inv in Hcs as Hinv. destruct Hinv as (cats & -> & _).
  unfold after_project in Hnone. destruct r as [|c r]; [congruence|].
  rewrite decide_True in Hnone by done.
  destruct (isdir t1 [n; c]) eqn:Hc; [|congruence]. apply isdir_true in Hc.
  simpl in Hnone. destruct (dict_mem c cats) eqn:Hmem.
  - (* a known category: nothing of it is swept *)
    exfalso.
    destruct (view_category_of_mem _ _ _ Hcs Hmem) as (ds & cv & Hcd & Hcv & Hds).
    rewrite (category_db_names_view _ _ _ _ Hcv Hds) in Hnone.
    unfold after_category in Hnone. destruct r as [|x [|? ?]]; try congruence.
    rewrite decide_True in Hnone by done.
    destruct (unmatched (JStr <$> ds) x) eqn:Hun; [|congruence].
    pose proof (reconciled_swept n (JObj cats) c (JStr <$> ds) x Hget) as Hs.
    simpl in Hs. rewrite Hmem in Hs.
    rewrite Hs in Hq; [done|done| |done]. by eapply category_db_names_view.
  - (* a folder of the project that is no category *)
    assert (forall cd, cd ∈ cs -> cd.1 <> c) as Hnocat.
    { intros cd Hcd Heq.
      destruct (view_mem_of_category _ _ _ Hcs Hcd) as (cv & Hcv & _).
      unfold dict_mem in Hmem. by rewrite <- Heq, Hcv in Hmem. }
    assert (forall pc, pc ∈ D -> pc.1 = n -> pc.2 = cs) as Hsame.
    { intros pc Hin Hp. destruct (known_project pc Hin) as (cats' & Hg & Hv).
      rewrite Hp, Hget in Hg. injection Hg as <-. congruence. }
    assert (forall rest, tB !! (n :: c :: rest) = Some KDir -> False) as HnoB.
    { intros rest. rewrite cleaned_lookup. unfold after_cleanup.
      destruct (isdir tA [n]) eqn:HnA.
      - rewrite Hget. unfold after_project. rewrite decide_True by done.
        destruct (isdir tA [n; c]) eqn:HcA.
        + simpl. by rewrite Hmem.
        + intros H. apply bool_decide_eq_false in HcA. apply HcA.
          destruct rest as [|y rest]; [done|].
          apply (parent_closed_ancestor tA [n; c] (y :: rest));
            [apply ensured_parent_closed|done|done|]. simpl. by rewrite H.
      - intros H. apply bool_decide_eq_false in HnA. apply HnA.
        apply (parent_closed_ancestor tA [n] (c :: rest));
          [apply ensured_parent_closed|done|done|]. simpl. by rewrite H. }
    assert (c ∈ hidden_folders) as Hf.
    { rewrite reconciled_lookup in Hc. case_decide as Hcov.
      - apply covered_hidden_paths in Hcov as (pc & Hin & Hshape).
        destruct Hshape as [?|[(f & Hf & Heq)|(cd & Hcd & Hshape)]]; [done| |].
        + by injection Heq as _ ->.
        + exfalso.
          assert (pc.1 = n /\ cd.1 = c) as [Hp Hc'].
          { destruct Hshape as [?|[(f & _ & ?)|(d & _ & [?|(f & _ & ?)])]];
              by simplify_eq. }
          rewrite (Hsame pc Hin Hp) in Hcd. by apply (Hnocat cd).
      - exfalso. by apply (HnoB []). }
    destruct r as [|y r].
    + exists (n, cs), c. split_and!; [done|done| |done].
      simpl. intros (cd & Hc' & Hcd)%list_elem_of_fmap. by apply (Hnocat cd).
    + exfalso. assert (tB !! (n :: c :: y :: r) = Some k) as HB'.
      { rewrite reconciled_lookup in Hq. case_decide as Hcov; [|done].
        exfalso. apply covered_hidden_paths in Hcov as (pc & Hin & Hshape).
        destruct Hshape as [?|[(f & _ & ?)|(cd & Hcd & Hshape)]]; [done|done|].
        assert (pc.1 = n /\ cd.1 = c) as [Hp Hc'].
        { destruct Hshape as [?|[(f & _ & ?)|(d & _ & [?|(f & _ & ?)])]];
            by simplify_eq. }
        rewrite (Hsame pc Hin Hp) in Hcd. by apply (Hnocat cd). }
      rewrite cleaned_lookup in HB'.
      assert (tA !! (n :: c :: y :: r) = Some k) as HA'.
      { destruct (after_cleanup_cases h tA (n :: c :: y :: r)) as [E|E]; congruence. }
      assert (tA !! [n; c] = Some KDir) as HcA.
      { apply (parent_closed_ancestor tA [n; c] (y :: r));
          [apply ensured_parent_closed|done|done|]. simpl. by rewrite HA'. }
      assert (tA !! [n] = Some KDir) as HnA.
      { apply (parent_closed_ancestor tA [n] (c :: y :: r));
          [apply ensured_parent_closed|done|done|]. simpl. by rewrite HA'. }
      unfold after_cleanup in HB'.
      rewrite (proj2 (isdir_true _ _) HnA), Hget in HB'. unfold after_project in HB'.
      rewrite decide_True in HB' by done.
      rewrite (proj2 (isdir_true _ _) HcA) in HB'. simpl in HB'.
      by rewrite Hmem in HB'.
Qed.

Lemma reconciled_removed q k :
  t1 !! q = Some k -> after_cleanup h t1 q = None -> covered (hidden_paths D) q.
Proof.
  intros Hq Hnone.
  destruct (removed_is_project_hidden q k Hq Hnone) as (pc & f & Hpc' & Hf & _ & ->).
  by apply covered_hidden_project.
Qed.

Lemma second_sync : sync_filesystem_with_json h t1 = (t1, Done).
Proof.
  unfold sync_filesystem_with_json, seq.
  rewrite (ensure_present_paths h D t1 Hnd HD).
  rewrite (makedirs_all_noop _ _ reconciled_keeps_ensured).
  destruct (cleanup_filesystem_ok h t1 (cleanup_safe_view _ _ HD) reconciled_swept)
    as [t2 H2].
  rewrite H2. rewrite (create_hidden_folders_paths h D t2 HD).
  pose proof (cleanup_filesystem_lookup _ _ _ H2) as L2.
  destruct (makedirs_all_ok (hidden_paths D) t2) as [t3 H3].
  { intros q Hq. rewrite L2.
    destruct (after_cleanup_cases h t1 q) as [->| ->]; [done|].
    by rewrite (reconciled_hidden q Hq). }
  rewrite H3. f_equal. apply map_eq. intros q.
  rewrite (makedirs_all_lookup _ _ _ q H3). case_decide as Hcov.
  - by rewrite (reconciled_hidden q Hcov).
  - rewrite L2. destruct (after_cleanup_cases h t1 q) as [E|E]; [|done].
    rewrite E. destruct (t1 !! q) as [k|] eqn:Hq; [|done].
    exfalso. apply Hcov. by eapply reconciled_removed.
Qed.

(** The three passes of the second synchronisation, one by one. *)
Lemma second_passes :
  exists tB', ensure_present h t1 = (t1, Done) /\
    cleanup_filesystem h t1 = (tB', Done) /\
    create_hidden_folders h tB' = (t1, Done).
Proof.
  pose proof second_sync as H2. unfold sync_filesystem_with_json, seq in H2.
  assert (ensure_present h t1 = (t1, Done)) as HA2.
  { rewrite (ensure_present_paths h D t1 Hnd HD).
    apply makedirs_all_noop, reconciled_keeps_ensured. }
  rewrite HA2 in H2.
  destruct (cleanup_filesystem h t1) as [tB' [|e]] eqn:HB2; [|done].
  by exists tB'.
Qed.

Lemma same_categories pc pc' : pc ∈ D -> pc' ∈ D -> pc.1 = pc'.1 -> pc.2 = pc'.2.
Proof.
  intros Hin Hin' Heq.
  destruct (known_project pc Hin) as (cats & Hget & Hcs).
  destruct (known_project pc' Hin') as (cats' & Hget' & Hcs').
  rewrite Heq in Hget. congruence.
Qed.

Lemma no_category_of pc f cats :
  pc ∈ D -> dict_get pc.1 h = Some (JObj cats) -> f ∉ pc.2.*1 -> dict_mem f cats = false.
Proof.
  intros Hin Hget Hno. destruct (dict_mem f cats) eqn:Hmem; [|done]. exfalso.
  destruct (known_project pc Hin) as (cats' & Hget' & Hcs).
  assert (cats' = cats) as -> by congruence.
  destruct (view_category_of_mem _ _ _ Hcs Hmem) as (ds & cv & Hcd & _).
  apply Hno, list_elem_of_fmap. by exists (f, ds).
Qed.

Lemma covered_hidden_category pc cd f :
  pc ∈ D -> cd ∈ pc.2 -> f ∈ hidden_folders -> covered (hidden_paths D) [pc.1; cd.1; f].
Proof.
  intros Hin Hcd Hf. split; [done|]. apply Exists_exists. exists [pc.1; cd.1; f].
  split; [|done]. apply elem_of_hidden_paths. exists pc. split; [done|]. right.
  exists cd. split; [done|]. left. by exists f.
Qed.

Lemma covered_hidden_asset pc cd d f :
  pc ∈ D -> cd ∈ pc.2 -> d ∈ cd.2 -> f ∈ hidden_folders ->
  covered (hidden_paths D) [pc.1; cd.1; d] /\ covered (hidden_paths D) [pc.1; cd.1; d; f].
Proof.
  intros Hin Hcd Hd Hf.
  split; (split; [done|]); apply Exists_exists.
  - exists [pc.1; cd.1; d]. split; [|done]. apply elem_of_hidden_paths.
    exists pc. split; [done|]. right. exists cd. split; [done|]. right.
    exists d. split; [done|]. by left.
  - exists [pc.1; cd.1; d; f]. split; [|done]. apply elem_of_hidden_paths.
    exists pc. split; [done|]. right. exists cd. split; [done|]. right.
    exists d. split; [done|]. right. by exists f.
Qed.

(** The second clean-up removes the hidden folders of a project. *)
Lemma second_cleanup_project_hidden pc f r :
  pc ∈ D -> f ∈ hidden_folders -> f ∉ pc.2.*1 ->
  after_cleanup h t1 (pc.1 :: f :: r) = None.
Proof.
  intros Hin Hf Hno. unfold after_cleanup.
  assert (t1 !! [pc.1] = Some KDir) as Hp.
  { apply reconciled_keeps_ensured, covered_ensure_paths. exists pc. split; [done|]. by left. }
  assert (t1 !! [pc.1; f] = Some KDir) as Hpf.
  { by apply reconciled_hidden, covered_hidden_project. }
  rewrite (proj2 (isdir_true _ _) Hp).
  destruct (known_project pc Hin) as (cats & Hget & Hcs). rewrite Hget.
  unfold after_project. rewrite decide_True by done.
  rewrite (proj2 (isdir_true _ _) Hpf). simpl.
  by rewrite (no_category_of pc f cats Hin Hget Hno).
Qed.

(** It leaves what is in a category to the sweep of that category. *)
Lemma second_cleanup_category pc cd r :
  pc ∈ D -> cd ∈ pc.2 ->
  after_cleanup h t1 (pc.1 :: cd.1 :: r)
  = after_category (JStr <$> cd.2) pc.1 cd.1 t1 (pc.1 :: cd.1 :: r).
Proof.
  intros Hin Hcd. unfold after_cleanup.
  assert (t1 !! [pc.1] = Some KDir) as Hp.
  { apply reconciled_keeps_ensured, covered_ensure_paths. exists pc. split; [done|]. by left. }
  assert (t1 !! [pc.1; cd.1] = Some KDir) as Hc.
  { apply reconciled_keeps_ensured, covered_ensure_paths. exists pc. split; [done|].
    right. by exists cd. }
  rewrite (proj2 (isdir_true _ _) Hp).
  destruct (known_project pc Hin) as (cats & Hget & Hcs). rewrite Hget.
  unfold after_project. rewrite decide_True by done.
  rewrite (proj2 (isdir_true _ _) Hc).
  destruct (known_category pc cats cd Hin Hget Hcd) as [-> ->]. done.
Qed.

(** So the hidden folders of the categories, the folders of the assets and
    their hidden folders are still there after it. *)
Lemma second_cleanup_keeps_hidden pc cd f :
  pc ∈ D -> cd ∈ pc.2 -> f ∈ hidden_folders ->
  after_cleanup h t1 [pc.1; cd.1; f] = Some KDir /\
  (forall d, d ∈ cd.2 ->
     after_cleanup h t1 [pc.1; cd.1; d] = Some KDir /\
     after_cleanup h t1 [pc.1; cd.1; d; f] = Some KDir).
Proof.
  intros Hin Hcd Hf. split; [|intros d Hd; split].
  - rewrite (second_cleanup_category pc cd [f] Hin Hcd). unfold after_category.
    rewrite decide_True by done. rewrite (hidden_folder_not_txt _ f Hf).
    by apply reconciled_hidden, covered_hidden_category.
  - rewrite (second_cleanup_category pc cd [d] Hin Hcd). unfold after_category.
    rewrite decide_True by done. rewrite (txt_safe_spec D pc cd d Hsafe Hin Hcd Hd).
    by apply reconciled_hidden, (covered_hidden_asset pc cd d f).
  - rewrite (second_cleanup_category pc cd [d; f] Hin Hcd). unfold after_category.
    by apply reconciled_hidden, (covered_hidden_asset pc cd d f).
Qed.

(** A hidden folder of a project is empty. *)
Lemma project_hidden_empty pc f y r :
  pc ∈ D -> f ∈ hidden_folders -> f ∉ pc.2.*1 ->
  t1 !! (pc.1 :: f :: y :: r) = None.
Proof.
  intros Hin Hf Hno. rewrite reconciled_lookup, decide_False.
  2:{ intros Hcov. apply covered_hidden_paths in Hcov as (pc' & Hin' & Hshape).
      destruct Hshape as [?|[(f' & _ & ?)|(cd & Hcd & Hshape)]]; [done|done|].
      assert (pc'.1 = pc.1 /\ cd.1 = f) as [Hp Hc'].
      { destruct Hshape as [?|[(f' & _ & ?)|(d & _ & [?|(f' & _ & ?)])]];
          by simplify_eq. }
      apply Hno. rewrite <- (same_categories pc' pc Hin' Hin Hp).
      apply list_elem_of_fmap. by exists cd. }
  rewrite cleaned_lookup. unfold after_cleanup.
  rewrite (proj2 (isdir_true _ _) (ensured_project pc Hin)).
  destruct (known_project pc Hin) as (cats & Hget & Hcs). rewrite Hget.
  unfold after_project. rewrite decide_True by done.
  destruct (isdir tA [pc.1; f]) eqn:Hd.
  - simpl. by rewrite (no_category_of pc f cats Hin Hget Hno).
  - destruct (tA !! (pc.1 :: f :: y :: r)) as [k|] eqn:Hk; [|done]. exfalso.
    apply bool_decide_eq_false in Hd. apply Hd.
    apply (parent_closed_ancestor tA [pc.1; f] (y :: r));
      [apply ensured_parent_closed|done|done|]. simpl. by rewrite Hk.
Qed.

End Reconcile.

(** ** C7: synchronising twice *)

Lemma outcome_done (a : action) t : (a t).2 = Done -> a t = ((a t).1, Done).
Proof. destruct (a t) as [t' o]. simpl. by intros ->. Qed.



Lemma parent_closed_empty : parent_closed ∅.
Proof. intros q x _ [k Hk]. by rewrite lookup_empty in Hk. Qed.


(** ** C8: what the clean-up pass removes *)

(** When the pass ends without exception it has removed every folder of
    the root that is no project, every folder of a project that is no
    category and every entry of a category that is swept, and has left
    every other entry of a category, asset folders included. *)
Lemma cleanup_filesystem_done h t t' :
  cleanup_filesystem h t = (t', Done) ->
  (forall n r, t !! [n] = Some KDir -> dict_get n h = None -> t' !! (n :: r) = None) /\
  (forall n cats c r,
     t !! [n] = Some KDir -> dict_get n h = Some cats ->
     t !! [n; c] = Some KDir -> py_in c cats = Ok false ->
     t' !! (n :: c :: r) = None) /\
  (forall n cats c names x r,
     t !! [n] = Some KDir -> dict_get n h = Some cats ->
     t !! [n; c] = Some KDir -> py_in c cats = Ok true ->
     category_db_names cats c = Ok names ->
     (unmatched names x = true -> t' !! [n; c; x] = None) /\
     (unmatched names x = false -> t' !! (n :: c :: x :: r) = t !! (n :: c :: x :: r))).
Proof.
  intros Hdone. split_and!.
  - intros n r Hn Hget. rewrite (cleanup_filesystem_lookup _ _ _ Hdone).
    unfold after_cleanup. by rewrite (proj2 (isdir_true _ _) Hn), Hget.
  - intros n cats c r Hn Hget Hc Hin. rewrite (cleanup_filesystem_lookup _ _ _ Hdone).
    unfold after_cleanup, after_project.
    rewrite (proj2 (isdir_true _ _) Hn), Hget, decide_True by done.
    by rewrite (proj2 (isdir_true _ _) Hc), Hin.
  - intros n cats c names x r Hn Hget Hc Hin Hnames.
    rewrite !(cleanup_filesystem_lookup _ _ _ Hdone).
    unfold after_cleanup, after_project.
    rewrite (proj2 (isdir_true _ _) Hn), Hget, !decide_True by done.
    rewrite (proj2 (isdir_true _ _) Hc), Hin, Hnames. unfold after_category.
    split; intros Hun.
    + rewrite decide_True by done. by rewrite Hun.
    + destruct r; [|done]. rewrite decide_True by done. by rewrite Hun.
Qed.

(** C8 at the failing input: with a stale asset folder named [old.txt]
    in a category of each of two projects, the pass raises on the first
    one it meets and the folder [X] of the other project, which is no
    category, is still there. *)
Theorem C8_cleanup_aborts :
  (cleanup_filesystem two_projects stale_tree).2 = Raised OSError /\
  stale_tree !! ["A"; "X"] = Some KDir /\
  py_in "X" (JObj [("C", JArr [])]) = Ok false /\
  (cleanup_filesystem two_projects stale_tree).1 !! ["A"; "X"] = Some KDir.
Proof. split_and!; by vm_compute. Qed.

(* ===================================================================== *)
(** * Further properties of the code *)
(* ===================================================================== *)

(** ** Loading *)

Lemma for_result_raise {A B : Type} (f : A -> result B) l x :
  x ∈ l -> (exists e, f x = Raise e) -> exists e, for_result f l = Raise e.
Proof.
  intros Hx [e He]. induction l as [|y l IH]; [by apply elem_of_nil in Hx|].
  simpl. unfold_bind. apply elem_of_cons in Hx as [<-|Hx].
  - rewrite He. by exists e.
  - destruct (f y); [|by eexists]. destruct (IH Hx) as [e' ->]. by exists e'.
Qed.

Lemma migrate_project_not_dict v :
  (forall d, v <> JObj d) -> exists e, migrate_project v = Raise e.
Proof.
  intros Hv. unfold migrate_project.
  destruct v as [|b|n|s|l|d]; simpl; unfold_bind; simpl; try by eexists.
  - destruct (str_contains "Meshes" s); simpl; by eexists.
  - destruct (existsb (is_str "Meshes") l); simpl; by eexists.
  - by destruct (Hv d).
Qed.

(** X1.  Loading is all or nothing: when the parsed file is not a dict, or
    when one of its projects is not a dict, [load_assets_from_json] returns
    the empty dict, whatever else the file holds; [__init__] then starts
    with the reserved project alone and with empty conventions, and a save
    from there writes just that. *)
Theorem load_all_or_nothing (raw : json) :
  (forall d, raw <> JObj d) \/
  (exists data k v, raw = JObj data /\ (k, v) ∈ data /\ k <> "naming_conventions" /\
                    forall d, v <> JObj d) ->
  load_assets_from_json raw = [] /\
  forall t,
    assets_hierarchy (init raw t) = [(master_assets, master_categories)] /\
    projects (init raw t) = [master_assets] /\
    naming_conventions (init raw t) = JObj [] /\
    saved (save_assets_to_json (init raw t)).1
    = JObj [(master_assets, master_categories); ("naming_conventions", JObj [])].
Proof.
  intros H.
  assert (load_assets_from_json raw = []) as Hload.
  { unfold load_assets_from_json.
    destruct (migrate raw) as [d|] eqn:Hm; [|done]. exfalso.
    destruct H as [H|(data & k & v & -> & Hin & Hk & Hv)].
    - destruct raw; try done. by destruct (H fields).
    - unfold migrate in Hm. simpl in Hm. unfold_bind.
      destruct (for_result_raise migrate_project_item data (k, v) Hin) as [e He].
      { unfold migrate_project_item. rewrite decide_False by done.
        destruct (migrate_project_not_dict v Hv) as [e ->]. by exists e. }
      by rewrite He in Hm. }
  split; [done|]. intros t.
  destruct (save_fields (init raw t)) as (_ & _ & _ & ->).
  unfold init. by rewrite Hload.
Qed.

Lemma load_all_or_nothing_witness :
  load_assets_from_json
    (JObj [("Show", JObj [("Textures", JArr [JStr "Rock"])]); ("Broken", JArr [])]) = [].
Proof.
  refine (proj1 (load_all_or_nothing _ (or_intror _))).
  exists [("Show", JObj [("Textures", JArr [JStr "Rock"])]); ("Broken", JArr [])],
         "Broken", (JArr []).
  split; [reflexivity|]. split; [|split; [discriminate|discriminate]].
  apply elem_of_cons. right. apply elem_of_cons. by left.
Defined.

Lemma migrate_project_no_meshes categories categories' :
  migrate_project categories = Ok categories' ->
  exists cats', categories' = JObj cats' /\ dict_get "Meshes" cats' = None.
Proof.
  unfold migrate_project. unfold_bind.
  destruct (py_in "Meshes" categories) as [has|] eqn:Hin; [|done].
  destruct categories as [| | | | |cats]; try (by destruct has).
  simpl in Hin. injection Hin as <-. unfold dict_mem.
  destruct (dict_get "Meshes" cats) as [v|] eqn:Hm; simpl.
  - rewrite Hm. simpl.
    destruct (for_result migrate_category_item _) as [cats'|] eqn:Hl; [|done].
    intros [= <-]. exists cats'. split; [done|].
    apply dict_get_None_keys. rewrite (migrate_category_item_keys _ _ Hl).
    rewrite elem_of_dict_keys_set, elem_of_dict_keys_del. intros [?|[? ?]]; done.
  - destruct (for_result migrate_category_item cats) as [cats'|] eqn:Hl; [|done].
    intros [= <-]. exists cats'. split; [done|].
    apply dict_get_None_keys. rewrite (migrate_category_item_keys _ _ Hl).
    by apply dict_get_None_keys.
Qed.

(** X2.  The renaming of the legacy category: in a file that loads, a
    project with a category "Meshes" comes out without that key, and its
    "Static Meshes" holds what the migration makes of the old "Meshes",
    whatever "Static Meshes" held before; the same renaming is applied to
    the key "Meshes" of the naming conventions; and no project of a loaded
    document has a category "Meshes". *)
Theorem load_renames_meshes (data loaded : dict) :
  migrate (JObj data) = Ok loaded ->
  (forall project cats v,
     project <> "naming_conventions" ->
     dict_get project data = Some (JObj cats) ->
     dict_get "Meshes" cats = Some v ->
     exists cats' v',
       dict_get project loaded = Some (JObj cats') /\
       dict_get "Meshes" cats' = None /\
       migrate_category v = Ok v' /\
       dict_get "Static Meshes" cats' = Some v') /\
  (forall nc v,
     dict_get "naming_conventions" data = Some (JObj nc) ->
     dict_get "Meshes" nc = Some v ->
     dict_get "naming_conventions" loaded
     = Some (JObj (dict_set "Static Meshes" v (dict_del "Meshes" nc)))) /\
  (forall project categories,
     project <> "naming_conventions" ->
     dict_get project loaded = Some categories ->
     exists cats', categories = JObj cats' /\ dict_get "Meshes" cats' = None).
Proof.
  unfold migrate. simpl. unfold_bind.
  destruct (for_result migrate_project_item data) as [d1|] eqn:H1; [|done].
  intros Hc. split_and!.
  - intros project cats v Hp Hproj Hm.
    destruct (for_result_dict_get _ _ _ _ _ migrate_project_item_key H1 Hproj)
      as (w & Hw & Hget).
    rewrite <- (migrate_conventions_get _ _ _ Hp Hc) in Hget.
    unfold migrate_project_item in Hw. rewrite decide_False in Hw by done.
    unfold_bind. destruct (migrate_project (JObj cats)) as [w'|] eqn:Hmp; [|done].
    injection Hw as <-.
    destruct (migrate_project_no_meshes _ _ Hmp) as (cats' & -> & Hno).
    unfold migrate_project in Hmp. simpl in Hmp. unfold dict_mem in Hmp.
    rewrite Hm in Hmp. simpl in Hmp. unfold_bind.
    destruct (for_result migrate_category_item _) as [cs|] eqn:Hl; [|done].
    injection Hmp as ->.
    destruct (for_result_dict_get _ _ _ "Static Meshes" v migrate_category_item_key Hl)
      as (v' & Hv' & Hget').
    { apply dict_get_set_eq. }
    unfold migrate_category_item in Hv'. unfold_bind.
    destruct (migrate_category v) as [v2|]; [|done]. injection Hv' as ->.
    by exists cats', v'.
  - intros nc v Hnc Hm.
    destruct (for_result_dict_get _ _ _ _ _ migrate_project_item_key H1 Hnc)
      as (w & Hw & Hget).
    unfold migrate_project_item in Hw. rewrite decide_True in Hw by done.
    injection Hw as <-.
    unfold migrate_conventions in Hc. rewrite Hget in Hc. simpl in Hc.
    unfold dict_mem in Hc. rewrite Hm in Hc. simpl in Hc. injection Hc as <-.
    apply dict_get_set_eq.
  - intros project categories Hp Hget.
    rewrite (migrate_conventions_get _ _ _ Hp Hc) in Hget.
    apply dict_get_elem in Hget.
    apply for_result_Forall2 in H1.
    destruct (Forall2_elem_r _ _ _ _ H1 Hget) as ([k v] & _ & Hx).
    unfold migrate_project_item in Hx.
    destruct (decide (k = "naming_conventions")) as [->|Hne]; [by injection Hx as <- <-|].
    unfold_bind. destruct (migrate_project v) as [w|] eqn:Hmp; [|done].
    injection Hx as <- <-. by eapply migrate_project_no_meshes.
Qed.

Lemma load_renames_meshes_witness :
  dict_get "Show"
    (load_assets_from_json
       (JObj [("Show", JObj [("Static Meshes", JArr [JStr "Old"]);
                             ("Meshes", JArr [JStr "Hero Sword"])])]))
  = Some (JObj [("Static Meshes", JArr [asset_of_string "Hero Sword"])]).
Proof.
  destruct (proj1 (load_renames_meshes
    [("Show", JObj [("Static Meshes", JArr [JStr "Old"]);
                    ("Meshes", JArr [JStr "Hero Sword"])])]
    [("Show", JObj [("Static Meshes", JArr [asset_of_string "Hero Sword"])])] eq_refl)
    "Show" [("Static Meshes", JArr [JStr "Old"]); ("Meshes", JArr [JStr "Hero Sword"])]
    (JArr [JStr "Hero Sword"]) ltac:(discriminate) eq_refl eq_refl)
    as (cats' & v' & H1 & _).
  reflexivity.
Defined.

(** ** Saving and loading again *)

Lemma dict_del_absent k d : k ∉ dict_keys d -> dict_del k d = d.
Proof.
  unfold dict_del, dict_keys. induction d as [|[k' v] d IH]; intros Hk; [done|].
  rewrite fmap_cons, not_elem_of_cons in Hk. destruct Hk as [Hne Hk]. simpl in Hne.
  rewrite filter_cons_True by (simpl; congruence). by rewrite IH.
Qed.

Lemma dict_del_set_absent k v d : k ∉ dict_keys d -> dict_del k (dict_set k v d) = d.
Proof.
  unfold dict_del, dict_keys. induction d as [|[k' v'] d IH]; intros Hk; simpl.
  - by rewrite filter_cons_False by (simpl; tauto).
  - rewrite fmap_cons, not_elem_of_cons in Hk. destruct Hk as [Hne Hk]. simpl in Hne.
    rewrite decide_False by done.
    rewrite filter_cons_True by (simpl; congruence). by rewrite IH.
Qed.

Lemma Forall_dict_set (P : string * json -> Prop) k v d :
  P (k, v) -> Forall P d -> Forall P (dict_set k v d).
Proof.
  intros Hkv. induction 1 as [|[k' v'] d Hx Hd IH]; simpl.
  - by constructor.
  - case_decide; constructor; done.
Qed.

Lemma Forall_dict_del (P : string * json -> Prop) k d :
  Forall P d -> Forall P (dict_del k d).
Proof.
  unfold dict_del. induction 1 as [|x d Hx Hd IH]; [done|].
  destruct (decide (x.1 <> k)).
  - rewrite filter_cons_True by done. by constructor.
  - by rewrite filter_cons_False by done.
Qed.

(** What a load returns is made of entries the migration leaves alone, and
    of conventions without the legacy key. *)
Lemma load_migrated raw :
  Forall (fun x => migrate_project_item x = Ok x) (load_assets_from_json raw) /\
  forall nc, dict_get "naming_conventions" (load_assets_from_json raw) = Some nc ->
             py_in "Meshes" nc = Ok false.
Proof.
  unfold load_assets_from_json. destruct (migrate raw) as [y|] eqn:Hm; [|by split].
  pose proof (migrate_idem _ _ Hm) as Hy. unfold migrate in Hy. simpl in Hy.
  unfold migrate in Hm. unfold_bind.
  destruct (py_items raw) as [items|]; [|done].
  destruct (for_result migrate_project_item items) as [y1|] eqn:H1; [|done].
  assert (Forall (fun x => migrate_project_item x = Ok x) y1) as Hfix1.
  { apply for_result_Forall2 in H1. clear -H1.
    induction H1 as [|x z l l' Hx _ IH]; constructor; [|done].
    by eapply migrate_project_item_idem. }
  pose proof Hm as Hc. unfold migrate_conventions in Hc.
  destruct (dict_get "naming_conventions" y1) as [nc0|] eqn:Hg.
  - unfold_bind. destruct (py_in "Meshes" nc0) as [[]|] eqn:Hin; [| |done].
    + destruct nc0 as [| | |s|l|c]; try done. simpl in *.
      destruct (dict_get "Meshes" c) as [v|] eqn:Hmesh; [|done]. simpl in Hc.
      injection Hc as <-. split.
      * apply Forall_dict_set; [|done]. unfold migrate_project_item.
        by rewrite decide_True.
      * intros nc. rewrite dict_get_set_eq. intros [= <-]. simpl. f_equal.
        unfold dict_mem. rewrite dict_get_set_ne by done.
        by rewrite dict_get_del_eq.
    + injection Hc as <-. split; [done|]. intros nc. rewrite Hg. by intros [= <-].
  - injection Hc as <-. split; [done|]. intros nc. by rewrite Hg.
Qed.

Lemma master_categories_migrated :
  migrate_project_item (master_assets, master_categories)
  = Ok (master_assets, master_categories).
Proof. reflexivity. Qed.

Lemma init_migrated raw t :
  ("naming_conventions" ∉ dict_keys (assets_hierarchy (init raw t))) /\
  dict_mem master_assets (assets_hierarchy (init raw t)) = true /\
  Forall (fun x => migrate_project_item x = Ok x) (assets_hierarchy (init raw t)) /\
  py_in "Meshes" (naming_conventions (init raw t)) = Ok false.
Proof.
  destruct (load_migrated raw) as [Hfix Hnc].
  unfold init. cbn [assets_hierarchy naming_conventions].
  set (h0 := dict_del "naming_conventions" (load_assets_from_json raw)).
  assert ("naming_conventions" ∉ dict_keys h0) as H0.
  { unfold h0. rewrite elem_of_dict_keys_del. tauto. }
  assert (Forall (fun x => migrate_project_item x = Ok x) h0) as Hh0.
  { by apply Forall_dict_del. }
  split_and!.
  - destruct (dict_mem master_assets h0); [done|].
    rewrite elem_of_dict_keys_set. intros [?|?]; done.
  - destruct (dict_mem master_assets h0) eqn:Hm; [done|].
    unfold dict_mem. by rewrite dict_get_set_eq.
  - destruct (dict_mem master_assets h0); [done|].
    apply Forall_dict_set; [apply master_categories_migrated|done].
  - destruct (dict_get "naming_conventions" _) as [nc|] eqn:Hg; [by apply Hnc|done].
Qed.

Lemma projects_init raw t :
  projects (init raw t)
  = if bool_decide (master_assets ∈ dict_keys (assets_hierarchy (init raw t)))
    then master_assets :: list_remove master_assets (dict_keys (assets_hierarchy (init raw t)))
    else dict_keys (assets_hierarchy (init raw t)).
Proof. reflexivity. Qed.

(** X3.  What [__init__] makes of a file survives a save and a restart:
    for every parsed file, well formed or not, saving the state [__init__]
    built and running [__init__] again on the saved file gives the same
    hierarchy, the same naming conventions and the same project list. *)
Theorem save_then_load (raw : json) (t t' : fs) :
  let s := init raw t in
  let s' := init (saved (save_assets_to_json s).1) t' in
  assets_hierarchy s' = assets_hierarchy s /\
  naming_conventions s' = naming_conventions s /\
  projects s' = projects s.
Proof.
  intros s s'.
  destruct (save_fields s) as (_ & _ & _ & Hsaved).
  destruct (init_migrated raw t) as (Hno & Hmaster & Hh & Hconv).
  pose proof (projects_init raw t) as Hp.
  unfold s'. rewrite Hsaved. unfold s. clear s s' Hsaved.
  revert Hno Hmaster Hh Hconv Hp.
  generalize (projects (init raw t)) (naming_conventions (init raw t))
             (assets_hierarchy (init raw t)).
  intros ps conv h Hno Hmaster Hh Hconv Hp.
  assert (load_assets_from_json (JObj (dict_set "naming_conventions" conv h))
          = dict_set "naming_conventions" conv h) as Hload.
  { unfold load_assets_from_json, migrate. simpl. unfold_bind.
    rewrite for_result_fix.
    - unfold migrate_conventions. rewrite dict_get_set_eq. unfold_bind.
      by rewrite Hconv.
    - apply Forall_dict_set; [|done]. unfold migrate_project_item.
      by rewrite decide_True. }
  assert (assets_hierarchy (init (JObj (dict_set "naming_conventions" conv h)) t') = h) as Hh'.
  { unfold init. rewrite Hload. cbn [assets_hierarchy].
    rewrite dict_del_set_absent by done. by rewrite Hmaster. }
  split_and!.
  - done.
  - unfold init. rewrite Hload. cbn [naming_conventions].
    by rewrite dict_get_set_eq.
  - by rewrite projects_init, Hh'.
Qed.

(** ** The order of the project list *)

Lemma head_insert_later {A : Type} (l : list A) i x y :
  head l = Some y -> i <> 0 -> head (<[i := x]> l) = Some y.
Proof. destruct l as [|z l]; [done|]. by destruct i. Qed.

Lemma head_list_remove x y l :
  head l = Some y -> x <> y -> head (list_remove x l) = Some y.
Proof.
  destruct l as [|z l]; [done|]. simpl. intros [= ->] Hne.
  by rewrite decide_False.
Qed.

Lemma head_app_some {A : Type} (l k : list A) y : head l = Some y -> head (l ++ k) = Some y.
Proof. by destruct l. Qed.

Lemma head_projects_save s : projects (save_assets_to_json s).1 = projects s.
Proof. by destruct (save_fields s) as (_ & -> & _). Qed.

Lemma master_first_step py_repr op s :
  head (projects s) = Some master_assets ->
  head (projects (step py_repr op s).1) = Some master_assets.
Proof.
  intros Hs. destruct op as [text|sel new_name ok permitted|sel confirm|p c d ok v
                            |p c d n ok v fp dp|p c d confirm]; simpl.
  - unfold add_project. repeat case_bool_decide; try done.
    destruct (dict_mem _ _); simpl.
    + by apply head_app_some.
    + rewrite head_projects_save. simpl. by apply head_app_some.
  - unfold rename_project. destruct sel as [|old_name sel]; [done|].
    case_bool_decide as Hold; [done|].
    destruct (negb _); [done|].
    case_bool_decide; [done|].
    destruct (_ || _); [done|].
    destruct (list_index old_name (projects s)) as [idx|] eqn:Hidx; [|done].
    cbn [with_projects assets_hierarchy].
    destruct (dict_get old_name (assets_hierarchy s)) as [categories|].
    + destruct (try_rename _ _ _ _ _) as [t warned].
      destruct (save_assets_to_json _) as [s3 failed] eqn:Hsave. simpl.
      change s3 with (s3, failed).1. rewrite <- Hsave, head_projects_save. simpl.
      apply head_insert_later; [done|]. intros ->.
      destruct (projects s) as [|z l]; [done|]. simpl in *. injection Hs as ->.
      rewrite decide_False in Hidx by done. by destruct (list_index old_name l).
    + simpl. apply head_insert_later; [done|]. intros ->.
      destruct (projects s) as [|z l]; [done|]. simpl in *. injection Hs as ->.
      rewrite decide_False in Hidx by done. by destruct (list_index old_name l).
  - unfold delete_project. destruct sel as [|project_name sel]; [done|].
    case_bool_decide as Hname; [done|].
    destruct (negb confirm); [done|].
    destruct (list_index _ _); [|done].
    destruct (negb _); [done|].
    destruct (save_assets_to_json _) as [s3 failed] eqn:Hsave. simpl.
    change s3 with (s3, failed).1. rewrite <- Hsave, head_projects_save. simpl.
    by apply head_list_remove.
  - destruct (same_frame_create py_repr p c d ok v s) as (-> & _). done.
  - destruct (same_frame_edit py_repr p c d n ok v fp dp s) as (-> & _). done.
  - destruct (same_frame_delete p c d confirm s) as (-> & _). done.
Qed.

(** X4.  The reserved project is listed first: [__init__] puts "Master
    Assets" at the head of the project list, and it is still there after
    any sequence of operations, whatever is added, renamed or deleted. *)
Theorem master_assets_listed_first (py_repr : json -> string) (raw : json) (t : fs)
    (ops : list operation) :
  head (projects (run py_repr ops (init raw t))) = Some master_assets.
Proof.
  assert (head (projects (init raw t)) = Some master_assets) as H0.
  { unfold init. simpl.
    set (h0 := dict_del "naming_conventions" (load_assets_from_json raw)).
    rewrite bool_decide_eq_true_2; [done|].
    destruct (dict_mem master_assets h0) eqn:Hm.
    - by apply dict_mem_true.
    - rewrite elem_of_dict_keys_set. by left. }
  revert H0. generalize (init raw t). unfold run.
  induction ops as [|op ops IH]; intros s Hs; [done|].
  simpl. apply IH. by apply master_first_step.
Qed.

(** ** The rows of a category and the asset behind a row *)

Lemma find_asset_spec l display_name names :
  for_result (fun a => py_getitem a "display_name") l = Ok names ->
  match find_asset_by_display_name l display_name with
  | Ok (Some (i, a)) =>
      l !! i = Some a /\ names !! i = Some (JStr display_name) /\
      forall j, j < i -> names !! j <> Some (JStr display_name)
  | Ok None => JStr display_name ∉ names
  | Raise _ => False
  end.
Proof.
  revert names. induction l as [|a l IH]; intros names; simpl.
  - intros [= <-]. apply not_elem_of_nil.
  - unfold_bind. destruct (py_getitem a "display_name") as [v|] eqn:Hv; [|done].
    destruct (for_result _ l) as [vs|] eqn:Hl; [|done]. intros [= <-].
    specialize (IH vs eq_refl).
    destruct (is_str display_name v) eqn:Hs.
    + apply is_str_true in Hs. subst v. split_and!; [done..|]. intros j Hj. lia.
    + assert (v <> JStr display_name) as Hne.
      { intros ->. by rewrite (proj2 (is_str_true _ _) eq_refl) in Hs. }
      destruct (find_asset_by_display_name l display_name) as [[[i x]|]|]; [| |done].
      * destruct IH as (Hi & Hn & Hbefore). split_and!; [done..|].
        intros [|j] Hj; simpl; [congruence|]. apply Hbefore. lia.
      * rewrite not_elem_of_cons. split; [congruence|done].
Qed.

(** X5.  The rows and what they act on: when [get_display_names] can
    list a category, [find_asset_by_display_name] does not raise on it; for
    a name among the rows it returns the entry of the first row with that
    name, so of two assets with one display name the second is never
    reached by "Open", "Rename" or "Delete"; for any other name it returns
    [None]. *)
Theorem find_asset_first_row (l names : list json) (display_name : string) :
  get_display_names (JArr l) = Ok names ->
  (JStr display_name ∈ names ->
   exists i a,
     find_asset_by_display_name l display_name = Ok (Some (i, a)) /\
     l !! i = Some a /\
     py_getitem a "display_name" = Ok (JStr display_name) /\
     names !! i = Some (JStr display_name) /\
     forall j, j < i -> names !! j <> Some (JStr display_name)) /\
  (JStr display_name ∉ names ->
   find_asset_by_display_name l display_name = Ok None).
Proof.
  unfold get_display_names. simpl. intros Hnames.
  pose proof (find_asset_spec l display_name names Hnames) as H.
  destruct (find_asset_by_display_name l display_name) as [[[i a]|]|]; [| |done].
  - destruct H as (Hi & Hn & Hbefore). split.
    + intros _. exists i, a. split_and!; try done.
      apply for_result_Forall2 in Hnames.
      destruct (Forall2_lookup_l _ _ _ _ _ Hnames Hi) as (v & Hv & Hget).
      congruence.
    + intros Hnot. exfalso. apply Hnot. by eapply list_elem_of_lookup_2.
  - split; [done|by intros _].
Qed.

Lemma find_asset_first_row_witness :
  get_display_names (JArr [new_asset "Rock" "T_Rock_D"; new_asset "Rock" "T_Rock_N"])
  = Ok [JStr "Rock"; JStr "Rock"] /\
  find_asset_by_display_name [new_asset "Rock" "T_Rock_D"; new_asset "Rock" "T_Rock_N"] "Rock"
  = Ok (Some (0, new_asset "Rock" "T_Rock_D")).
Proof.
  split; [reflexivity|].
  destruct (proj1 (find_asset_first_row
    [new_asset "Rock" "T_Rock_D"; new_asset "Rock" "T_Rock_N"]
    [JStr "Rock"; JStr "Rock"] "Rock" eq_refl)) as (i & a & Hfind & _).
  - apply elem_of_cons. by left.
  - reflexivity.
Defined.

(** ** Equality of loaded values *)

Lemma json_induction (P : json -> Prop) :
  P JNull -> (forall b, P (JBool b)) -> (forall n, P (JInt n)) -> (forall s, P (JStr s)) ->
  (forall l, Forall P l -> P (JArr l)) ->
  (forall d, Forall (fun kv => P kv.2) d -> P (JObj d)) ->
  forall v, P v.
Proof.
  intros HNull HBool HInt HStr HArr HObj. fix IH 1. intros [|b|n|s|l|d].
  - exact HNull.
  - apply HBool.
  - apply HInt.
  - apply HStr.
  - apply HArr. induction l as [|x l IHl]; constructor; [apply IH|exact IHl].
  - apply HObj. induction d as [|[k x] d IHd]; constructor; [apply IH|exact IHd].
Qed.

Lemma py_eq_obj_get d b k v :
  py_eq (JObj d) b = true -> (k, v) ∈ d ->
  exists d' v', b = JObj d' /\ dict_get k d' = Some v' /\ py_eq v v' = true.
Proof.
  destruct b as [| | | | |d']; try done. simpl. intros H Hin. exists d'.
  apply andb_prop in H as [_ H].
  induction d as [|[k1 v1] d IH]; [by apply elem_of_nil in Hin|].
  apply andb_prop in H as [H1 H2]. apply elem_of_cons in Hin as [[= <- <-]|Hin].
  - destruct (dict_get k d') as [v'|]; [|done]. by exists v'.
  - by apply IH.
Qed.

Lemma py_eq_str s v : py_eq (JStr s) v = true -> v = JStr s.
Proof.
  destruct v; try done. simpl. intros H. apply bool_decide_eq_true in H. by subst.
Qed.

(** Equal entries carry the same identifier. *)
Lemma py_eq_view_asset a b x :
  py_eq a b = true -> view_asset a = Some x -> view_asset b = Some x.
Proof.
  unfold view_asset. intros Heq.
  destruct (py_getitem a "db_name") as [[| | |s| |]|] eqn:Ha; try done.
  intros [= <-]. destruct a as [| | | | |d]; try done. simpl in Ha.
  destruct (dict_get "db_name" d) as [w|] eqn:Hd; [|done]. injection Ha as ->.
  destruct (py_eq_obj_get _ _ _ _ Heq (dict_get_elem _ _ _ Hd)) as (d' & v' & -> & Hg & Hv).
  apply py_eq_str in Hv. subst v'. simpl. by rewrite Hg.
Qed.

Lemma py_eq_display_name a b v w :
  py_eq a b = true ->
  py_getitem a "display_name" = Ok v -> py_getitem b "display_name" = Ok w ->
  py_eq v w = true.
Proof.
  intros Heq Ha Hb. destruct a as [| | | | |d]; try done. simpl in Ha.
  destruct (dict_get "display_name" d) as [v0|] eqn:Hd; [|done]. injection Ha as ->.
  destruct (py_eq_obj_get _ _ _ _ Heq (dict_get_elem _ _ _ Hd)) as (d' & v' & -> & Hg & Hv).
  simpl in Hb. rewrite Hg in Hb. by injection Hb as <-.
Qed.

Lemma py_eq_items_refl (d0 r : dict) :
  (forall kv, kv ∈ r -> dict_get kv.1 d0 = Some kv.2 /\ py_eq kv.2 kv.2 = true) ->
  (fix go (d : list (string * json)) : bool :=
     match d with
     | [] => true
     | (k, v) :: r =>
         match dict_get k d0 with
         | Some v' => py_eq v v'
         | None => false
         end && go r
     end) r = true.
Proof.
  induction r as [|[k x] r IHr]; intros H; [done|].
  destruct (H (k, x)) as [H1 H2]; [left|]. simpl in H1, H2. rewrite H1, H2. simpl.
  apply IHr. intros kv Hkv. apply H. by right.
Qed.

Lemma wf_json_items (d : dict) kv :
  (fix go (d : list (string * json)) : bool :=
     match d with
     | [] => true
     | (_, x) :: r => wf_json x && go r
     end) d = true ->
  kv ∈ d -> wf_json kv.2 = true.
Proof.
  induction d as [|[k x] d IHd]; intros H Hin; [by apply elem_of_nil in Hin|].
  apply andb_prop in H as [H1 H2]. apply elem_of_cons in Hin as [->|Hin]; [done|].
  by apply IHd.
Qed.

Lemma py_eq_refl v : wf_json v = true -> py_eq v v = true.
Proof.
  induction v as [|b|n|s|l IH|d IH] using json_induction; simpl; intros Hwf;
    try done; try by apply bool_decide_eq_true_2.
  - induction IH as [|x l Hx _ IHl]; [done|]. simpl in Hwf.
    apply andb_prop in Hwf as [H1 H2]. rewrite (Hx H1). by apply IHl.
  - apply andb_prop in Hwf as [Hnd Hwf]. apply bool_decide_eq_true in Hnd.
    rewrite bool_decide_eq_true_2 by done. simpl.
    apply py_eq_items_refl. intros [k x] Hin. split.
    + by apply dict_get_NoDup.
    + rewrite Forall_forall in IH. apply (IH _ Hin).
      by apply (wf_json_items d (k, x)).
Qed.

(** ** Removing an asset *)

Lemma py_eq_str_r v s : py_eq v (JStr s) = true -> v = JStr s.
Proof.
  destruct v; try done. simpl. intros H. apply bool_decide_eq_true in H. by subst.
Qed.

Lemma find_asset_found l display_name i a :
  find_asset_by_display_name l display_name = Ok (Some (i, a)) ->
  l !! i = Some a /\ py_getitem a "display_name" = Ok (JStr display_name).
Proof.
  revert i. induction l as [|x l IH]; intros i; simpl; [done|]. unfold_bind.
  destruct (py_getitem x "display_name") as [v|] eqn:Hv; [|done].
  destruct (is_str display_name v) eqn:Hs.
  - intros [= <- <-]. apply is_str_true in Hs. by subst.
  - destruct (find_asset_by_display_name l display_name) as [[[j y]|]|]; try done.
    intros [= <- <-]. by apply IH.
Qed.

(** [assets.remove(asset)] takes out the entry that was found. *)
Lemma remove_found_asset l display_name i a :
  find_asset_by_display_name l display_name = Ok (Some (i, a)) ->
  wf_json a = true ->
  remove_asset a l = delete i l.
Proof.
  intros Hfind Hwf. revert i Hfind. induction l as [|x l IH]; intros i; simpl; [done|].
  unfold_bind. destruct (py_getitem x "display_name") as [v|] eqn:Hv; [|done].
  destruct (is_str display_name v) eqn:Hs.
  - intros [= <- <-]. by rewrite py_eq_refl.
  - destruct (find_asset_by_display_name l display_name) as [[[j y]|]|] eqn:Hl; try done.
    intros [= <- <-]. destruct (find_asset_found _ _ _ _ Hl) as [_ Hd].
    destruct (py_eq x y) eqn:Hxy.
    + pose proof (py_eq_display_name _ _ _ _ Hxy Hv Hd) as Hvw.
      apply py_eq_str_r in Hvw. subst v.
      by rewrite (proj2 (is_str_true _ _) eq_refl) in Hs.
    + simpl. f_equal. by apply IH.
Qed.

(** X6.  Deleting an asset: when the row is found and the question is
    answered with yes, [delete_asset_clicked] takes exactly the found entry
    out of the list of the category, every other entry and every other
    category staying as it was, saves the new hierarchy and reports the
    deletion; when the answer is no, nothing happens at all; and a row
    whose name is in no entry ends in the warning "not found in list" with
    the state as before. *)
Theorem delete_asset_removes_found (s : state) (project category display_name : string)
    (l : list json) :
  get_assets (assets_hierarchy s) project category = Ok (JArr l) ->
  (forall i asset,
     find_asset_by_display_name l display_name = Ok (Some (i, asset)) ->
     wf_json asset = true ->
     let r := delete_asset_clicked project category display_name true s in
     get_assets (assets_hierarchy r.1) project category = Ok (JArr (delete i l)) /\
     (forall p c, (p, c) <> (project, category) ->
        get_assets (assets_hierarchy r.1) p c = get_assets (assets_hierarchy s) p c) /\
     projects r.1 = projects s /\
     saved r.1 = JObj (dict_set "naming_conventions" (naming_conventions s)
                         (assets_hierarchy r.1)) /\
     (exists before,
        r.2 = before ++ [Information "Asset Deleted"
                           ("Asset '" +:+ display_name +:+ "' deleted.")]) /\
     delete_asset_clicked project category display_name false s = (s, [])) /\
  (find_asset_by_display_name l display_name = Ok None ->
   forall confirm,
     delete_asset_clicked project category display_name confirm s
     = (s, [Warning "Error" ("Asset '" +:+ display_name +:+ "' not found in list.")])).
Proof.
  intros Hget. split.
  - intros i asset Hfind Hwf r. subst r. unfold delete_asset_clicked.
    rewrite Hget. simpl. rewrite Hfind. simpl.
    rewrite (remove_found_asset _ _ _ _ Hfind Hwf).
    set (h := put_assets _ _ _ _).
    destruct (save_fields (with_hierarchy h s)) as (Hh & Hp & Hn & Hs).
    destruct (save_assets_to_json (with_hierarchy h s)) as [s1 failed]. simpl in *.
    rewrite Hh, Hp, Hs. unfold h. split_and!; try done.
    + by eapply get_assets_put_same.
    + intros p c Hpc. by apply get_assets_put_other.
    + by exists failed.
  - intros Hfind confirm. unfold delete_asset_clicked.
    rewrite Hget. simpl. by rewrite Hfind.
Qed.

Lemma delete_asset_removes_found_witness :
  get_assets (assets_hierarchy mesh_state) "Show" "Static Meshes" = Ok (JArr [hero_sword]) /\
  find_asset_by_display_name [hero_sword] "Hero Sword" = Ok (Some (0, hero_sword)) /\
  get_assets
    (assets_hierarchy (delete_asset_clicked "Show" "Static Meshes" "Hero Sword" true mesh_state).1)
    "Show" "Static Meshes" = Ok (JArr []).
Proof.
  split; [reflexivity|]. split; [reflexivity|].
  exact (proj1 (proj1 (delete_asset_removes_found mesh_state "Show" "Static Meshes"
    "Hero Sword" [hero_sword] eq_refl) 0 hero_sword eq_refl eq_refl)).
Defined.

(** ** The identifiers of a category *)

Lemma identifiers_put_same h p c l l' :
  get_assets h p c = Ok (JArr l) ->
  identifiers (put_assets h p c l') p c = mapM view_asset l'.
Proof. intros H. unfold identifiers. by rewrite (get_assets_put_same _ _ _ _ l' H). Qed.

Lemma identifiers_put_other h p c l' p' c' :
  (p', c') <> (p, c) -> identifiers (put_assets h p c l') p' c' = identifiers h p' c'.
Proof. intros H. unfold identifiers. by rewrite get_assets_put_other. Qed.

Lemma any_db_name_fresh_view db_name l ds :
  Forall2 (fun a d => view_asset a = Some d) l ds ->
  any_db_name db_name l = Ok false -> db_name ∉ ds.
Proof.
  induction 1 as [|a d l ds Ha _ IH]; simpl; [intros _; apply not_elem_of_nil|].
  apply view_asset_Some in Ha. rewrite Ha. unfold_bind. simpl.
  case_bool_decide as Hd; [done|]. intros Hl.
  apply not_elem_of_cons. split; [done|by apply IH].
Qed.

Lemma any_other_db_name_fresh asset db_name l a d :
  any_other_db_name asset db_name l = Ok false ->
  a ∈ l -> view_asset a = Some d -> py_eq a asset = false -> d <> db_name.
Proof.
  induction l as [|x l IH]; simpl; intros Hany Hin Hv Hne; [by apply elem_of_nil in Hin|].
  apply elem_of_cons in Hin as [<-|Hin].
  - rewrite Hne in Hany. apply view_asset_Some in Hv. rewrite Hv in Hany.
    unfold_bind. simpl in Hany. case_bool_decide; [done|]. congruence.
  - destruct (py_eq x asset); [by apply IH|].
    unfold_bind. destruct (py_getitem x "db_name") as [v|]; [|done].
    destruct (is_str db_name v); [done|]. by apply IH.
Qed.

Lemma elem_of_insert_inv {A : Type} (l : list A) i x y :
  y ∈ <[i := x]> l -> y = x \/ y ∈ l.
Proof.
  revert i. induction l as [|z l IH]; intros [|i]; simpl; try by right.
  - rewrite !elem_of_cons. tauto.
  - rewrite !elem_of_cons. intros [->|H]; [tauto|]. destruct (IH _ H); tauto.
Qed.

Lemma NoDup_insert_fresh {A : Type} (l : list A) i x :
  NoDup l -> (forall j, j <> i -> l !! j <> Some x) -> NoDup (<[i := x]> l).
Proof.
  revert i. induction l as [|z l IH]; intros i Hl Hx; [by destruct i|].
  apply NoDup_cons in Hl as [Hz Hl]. destruct i as [|i]; simpl.
  - apply NoDup_cons. split; [|done]. intros Hin.
    apply list_elem_of_lookup_1 in Hin as [j Hj]. by apply (Hx (S j)).
  - apply NoDup_cons. split.
    + intros Hin. apply elem_of_insert_inv in Hin as [->|Hin]; [|done].
      by apply (Hx 0).
    + apply IH; [done|]. intros j Hj. apply (Hx (S j)). congruence.
Qed.

Lemma remove_asset_shape asset l :
  remove_asset asset l = l \/ exists j, remove_asset asset l = delete j l.
Proof.
  induction l as [|x l IH]; simpl; [by left|].
  destruct (py_eq x asset).
  - right. by exists 0.
  - destruct IH as [->|[j ->]]; [by left|]. right. by exists (S j).
Qed.

Lemma view_asset_renamed asset d display_name db_name :
  view_asset asset = Some d ->
  view_asset (renamed_asset asset display_name db_name) = Some db_name.
Proof.
  intros H. apply view_asset_Some in H. destruct asset as [| | | | |o]; try done.
  unfold view_asset. simpl. by rewrite dict_get_set_eq.
Qed.

Lemma Forall2_insert_both {A B : Type} (P : A -> B -> Prop) l k i x y :
  Forall2 P l k -> P x y -> Forall2 P (<[i := x]> l) (<[i := y]> k).
Proof.
  intros H Hxy. revert i. induction H as [|a b l k Hab Hlk IH]; intros [|i]; simpl;
    try constructor; auto.
Qed.

Lemma Forall2_delete_both {A B : Type} (P : A -> B -> Prop) l k i :
  Forall2 P l k -> Forall2 P (delete i l) (delete i k).
Proof.
  intros H. revert i. induction H as [|a b l k Hab Hlk IH]; intros [|i]; simpl;
    try constructor; auto.
Qed.

Lemma NoDup_delete {A : Type} (l : list A) i : NoDup l -> NoDup (delete i l).
Proof.
  revert i. induction l as [|x l IH]; intros [|i] Hl; simpl; try done.
  - by apply NoDup_cons in Hl as [_ Hl].
  - apply NoDup_cons in Hl as [Hx Hl]. apply NoDup_cons. split; [|by apply IH].
    intros Hin. apply Hx. clear -Hin. revert i Hin.
    induction l as [|z l IHl]; intros [|i]; simpl; try done.
    + intros H. by right.
    + rewrite !elem_of_cons. intros [->|H]; [by left|]. right. by eapply IHl.
Qed.

Ltac shape_branches :=
  repeat match goal with
    | |- assets_hierarchy (?s, _).1 = _ \/ _ => by left
    | |- assets_hierarchy (let '(_, _) := save_assets_to_json ?x in _).1 = _ \/ _ =>
        let Hh := fresh "Hh" in
        destruct (save_fields x) as (Hh & _);
        destruct (save_assets_to_json x) as [? ?]; simpl in *; rewrite Hh;
        right; eexists; reflexivity
    | |- assets_hierarchy (let '(_, _) := ?x in _).1 = _ \/ _ => destruct x as [? ?]
    | |- assets_hierarchy (match ?x with _ => _ end).1 = _ \/ _ => destruct x
    | |- assets_hierarchy (if ?x then _ else _).1 = _ \/ _ => destruct x
    end.

Lemma create_asset_shape py_repr p c d ok v s :
  assets_hierarchy (create_asset_clicked py_repr p c d ok v s).1 = assets_hierarchy s \/
  exists l', assets_hierarchy (create_asset_clicked py_repr p c d ok v s).1
             = put_assets (assets_hierarchy s) p c l'.
Proof. unfold create_asset_clicked. shape_branches. Qed.

Lemma edit_asset_shape py_repr p c d n ok v fp dp s :
  assets_hierarchy (edit_asset_clicked py_repr p c d n ok v fp dp s).1 = assets_hierarchy s \/
  exists l', assets_hierarchy (edit_asset_clicked py_repr p c d n ok v fp dp s).1
             = put_assets (assets_hierarchy s) p c l'.
Proof. unfold edit_asset_clicked. shape_branches. Qed.

Lemma delete_asset_shape p c d confirm s :
  assets_hierarchy (delete_asset_clicked p c d confirm s).1 = assets_hierarchy s \/
  exists l', assets_hierarchy (delete_asset_clicked p c d confirm s).1
             = put_assets (assets_hierarchy s) p c l'.
Proof. unfold delete_asset_clicked. shape_branches. Qed.

Lemma identifiers_elsewhere h h' p c project category ds :
  (h' = h \/ exists l', h' = put_assets h p c l') ->
  (project, category) <> (p, c) ->
  identifiers h project category = Some ds ->
  identifiers h' project category = Some ds.
Proof.
  intros [->|[l' ->]] Hne H; [done|]. by rewrite identifiers_put_other.
Qed.

Lemma identifiers_create py_repr p c d ok v s ds :
  identifiers (assets_hierarchy s) p c = Some ds -> NoDup ds ->
  exists ds', identifiers (assets_hierarchy (create_asset_clicked py_repr p c d ok v s).1) p c
              = Some ds' /\ NoDup ds'.
Proof.
  intros Hid Hnd. pose proof Hid as Hid0. unfold identifiers in Hid.
  destruct (get_assets (assets_hierarchy s) p c) as [[| | | |l|]|] eqn:Hget; try done.
  pose proof (mapM_Some_1 _ _ _ Hid) as Hview.
  unfold create_asset_clicked.
  destruct (negb _); [by exists ds|].
  destruct (resolve_db_name _ _ _ _ _) as [[db_name|]|]; try by exists ds.
  rewrite Hget. simpl. unfold_bind.
  destruct (any_db_name db_name l) as [[]|] eqn:Hany; try by exists ds.
  set (h := put_assets _ _ _ _).
  destruct (save_fields (with_hierarchy h s)) as (Hh & _).
  destruct (save_assets_to_json (with_hierarchy h s)) as [s1 failed]. simpl in *.
  rewrite Hh. unfold h. rewrite (identifiers_put_same _ _ _ _ _ Hget).
  exists (ds ++ [db_name]). split.
  - apply mapM_Some_2. apply Forall2_app; [done|]. by constructor.
  - apply NoDup_app. split_and!; [done| |apply NoDup_singleton].
    intros x Hx Hx'. apply list_elem_of_singleton in Hx'. subst x.
    by apply (any_db_name_fresh_view _ _ _ Hview Hany).
Qed.

Lemma identifiers_edit py_repr p c d n ok v fp dp s ds :
  identifiers (assets_hierarchy s) p c = Some ds -> NoDup ds ->
  exists ds', identifiers (assets_hierarchy
                             (edit_asset_clicked py_repr p c d n ok v fp dp s).1) p c
              = Some ds' /\ NoDup ds'.
Proof.
  intros Hid Hnd. pose proof Hid as Hid0. unfold identifiers in Hid.
  destruct (get_assets (assets_hierarchy s) p c) as [[| | | |l|]|] eqn:Hget; try done.
  pose proof (mapM_Some_1 _ _ _ Hid) as Hview.
  unfold edit_asset_clicked. rewrite Hget. simpl. unfold_bind.
  destruct (find_asset_by_display_name l d) as [[[i asset]|]|] eqn:Hfind; try by exists ds.
  destruct (negb _); [by exists ds|].
  destruct (resolve_db_name _ _ _ _ _) as [[new_db_name|]|]; try by exists ds.
  destruct (any_other_db_name asset new_db_name l) as [[]|] eqn:Hany; try by exists ds.
  destruct (find_asset_found _ _ _ _ Hfind) as [Hi _].
  destruct (Forall2_lookup_l _ _ _ _ _ Hview Hi) as (old & Hold & Hvold).
  rewrite (view_asset_Some _ _ Hvold). simpl.
  destruct (rename_on_disk _ _ _ _ _ _ _) as [t warned].
  set (h := put_assets _ _ _ _).
  destruct (save_fields (with_tree t (with_hierarchy h s))) as (Hh & _).
  destruct (save_assets_to_json _) as [s1 failed]. simpl in *.
  rewrite Hh. unfold h. rewrite (identifiers_put_same _ _ _ _ _ Hget).
  exists (<[i := new_db_name]> ds). split.
  - apply mapM_Some_2. apply Forall2_insert_both; [done|].
    by eapply view_asset_renamed.
  - apply NoDup_insert_fresh; [done|]. intros j Hj Hdj.
    destruct (Forall2_lookup_r _ _ _ _ _ Hview Hdj) as (a & Ha & Hva).
    destruct (py_eq a asset) eqn:Heq.
    + pose proof (py_eq_view_asset _ _ _ Heq Hva) as Hv'.
      rewrite Hvold in Hv'. injection Hv' as ->.
      apply Hj. by eapply NoDup_lookup.
    + eapply (any_other_db_name_fresh _ _ _ a new_db_name Hany); try done.
      by eapply list_elem_of_lookup_2.
Qed.

Lemma identifiers_delete p c d confirm s ds :
  identifiers (assets_hierarchy s) p c = Some ds -> NoDup ds ->
  exists ds', identifiers (assets_hierarchy (delete_asset_clicked p c d confirm s).1) p c
              = Some ds' /\ NoDup ds'.
Proof.
  intros Hid Hnd. pose proof Hid as Hid0. unfold identifiers in Hid.
  destruct (get_assets (assets_hierarchy s) p c) as [[| | | |l|]|] eqn:Hget; try done.
  pose proof (mapM_Some_1 _ _ _ Hid) as Hview.
  unfold delete_asset_clicked. rewrite Hget. simpl. unfold_bind.
  destruct (find_asset_by_display_name l d) as [[[i asset]|]|] eqn:Hfind; try by exists ds.
  destruct (negb confirm); [by exists ds|].
  set (h := put_assets _ _ _ _).
  destruct (save_fields (with_hierarchy h s)) as (Hh & _).
  destruct (save_assets_to_json _) as [s1 failed]. simpl in *.
  rewrite Hh. unfold h. rewrite (identifiers_put_same _ _ _ _ _ Hget).
  destruct (remove_asset_shape asset l) as [->|[j ->]]; [by exists ds|].
  exists (delete j ds). split.
  - apply mapM_Some_2. by apply Forall2_delete_both.
  - by apply NoDup_delete.
Qed.

(** X7.  Identifiers stay distinct: in a category whose entries carry
    pairwise distinct string identifiers, they still do after
    [create_asset_clicked], [edit_asset_clicked] or [delete_asset_clicked],
    whatever category the operation is aimed at and whatever the dialogs
    answer. *)
Theorem identifiers_stay_distinct (py_repr : json -> string) (op : operation) (s : state)
    (project category : string) (ds : list string) :
  asset_operation op = true ->
  identifiers (assets_hierarchy s) project category = Some ds ->
  NoDup ds ->
  exists ds',
    identifiers (assets_hierarchy (step py_repr op s).1) project category = Some ds' /\
    NoDup ds'.
Proof.
  intros Hop Hid Hnd.
  destruct op as [text|sel new_name ok permitted|sel confirm|p c d ok v
                 |p c d n ok v fp dp|p c d confirm]; try done; simpl;
    (destruct (decide ((project, category) = (p, c))) as [[= -> ->]|Hne]).
  - by apply (identifiers_create _ _ _ _ _ _ _ ds).
  - exists ds. split; [|done].
    eapply identifiers_elsewhere; [apply create_asset_shape|done..].
  - by apply (identifiers_edit _ _ _ _ _ _ _ _ _ _ ds).
  - exists ds. split; [|done].
    eapply identifiers_elsewhere; [apply edit_asset_shape|done..].
  - by apply (identifiers_delete _ _ _ _ _ ds).
  - exists ds. split; [|done].
    eapply identifiers_elsewhere; [apply delete_asset_shape|done..].
Qed.

Lemma identifiers_stay_distinct_witness :
  identifiers (assets_hierarchy mesh_state) "Show" "Static Meshes" = Some ["SM_HeroSword"] /\
  exists ds',
    identifiers
      (assets_hierarchy
         (step no_repr (CreateAsset "Show" "Static Meshes" "Hero Axe" true None) mesh_state).1)
      "Show" "Static Meshes" = Some ds' /\
    NoDup ds'.
Proof.
  split; [reflexivity|].
  apply (identifiers_stay_distinct no_repr
           (CreateAsset "Show" "Static Meshes" "Hero Axe" true None) mesh_state
           "Show" "Static Meshes" ["SM_HeroSword"] eq_refl eq_refl).
  apply NoDup_singleton.
Defined.

(** ** What the passes may do to the tree *)

Section Respects.

Variable R : fs -> fs -> Prop.
Hypothesis R_refl : forall t, R t t.
Hypothesis R_trans : forall t1 t2 t3, R t1 t2 -> R t2 t3 -> R t1 t3.

Lemma respects_skip : respects R skip.
Proof. intros t. apply R_refl. Qed.

Lemma respects_raise e : respects R (raise e).
Proof. intros t. apply R_refl. Qed.

Lemma respects_seq a b : respects R a -> respects R b -> respects R (a >> b).
Proof.
  intros Ha Hb t. unfold seq. specialize (Ha t).
  destruct (a t) as [t1 [|e]]; simpl in *; [|done].
  eapply R_trans; [exact Ha|apply Hb].
Qed.

Lemma respects_lift {A : Type} (r : result A) (k : A -> action) :
  (forall x, r = Ok x -> respects R (k x)) -> respects R (lift r k).
Proof.
  intros H. destruct r as [x|e]; simpl; [by apply H|apply respects_raise].
Qed.

Lemma respects_for_each {A : Type} (l : list A) (body : A -> action) :
  (forall x, x ∈ l -> respects R (body x)) -> respects R (for_each l body).
Proof.
  induction l as [|x l IH]; intros H; simpl; [apply respects_skip|].
  apply respects_seq; [apply H; left|]. apply IH. intros y Hy. apply H. by right.
Qed.

(** A loop over a listing taken from the tree it starts on. *)
Lemma respects_listing (ls : fs -> list string) (body : string -> action) :
  (forall x, respects R (body x)) -> respects R (fun t => for_each (ls t) body t).
Proof. intros H t. by apply respects_for_each. Qed.

End Respects.

Lemma shrunk_refl t : shrunk t t.
Proof. by intros q k. Qed.

Lemma shrunk_trans t1 t2 t3 : shrunk t1 t2 -> shrunk t2 t3 -> shrunk t1 t3.
Proof. intros H1 H2 q k H. by apply H1, H2. Qed.

Lemma grown_refl t : grown t t.
Proof. intros q. by left. Qed.

Lemma grown_trans t1 t2 t3 : grown t1 t2 -> grown t2 t3 -> grown t1 t3.
Proof.
  intros H1 H2 q. destruct (H1 q) as [E1|[E1 E1']], (H2 q) as [E2|[E2 E2']].
  - left. congruence.
  - right. split; congruence.
  - right. split; congruence.
  - congruence.
Qed.

Lemma no_new_file_refl t : no_new_file t t.
Proof. by intros q. Qed.

Lemma no_new_file_trans t1 t2 t3 : no_new_file t1 t2 -> no_new_file t2 t3 -> no_new_file t1 t3.
Proof. intros H1 H2 q H. by apply H1, H2. Qed.

Lemma same_below_refl n t : same_below n t t.
Proof. by intros r. Qed.

Lemma same_below_trans n t1 t2 t3 :
  same_below n t1 t2 -> same_below n t2 t3 -> same_below n t1 t3.
Proof. intros H1 H2 r. by rewrite H2, H1. Qed.

Lemma shrunk_no_new_file t t' : shrunk t t' -> no_new_file t t'.
Proof. intros H q. apply H. Qed.

Lemma grown_no_new_file t t' : grown t t' -> no_new_file t t'.
Proof. intros H q Hq. destruct (H q) as [E|[_ E]]; congruence. Qed.

Lemma respects_impl (R R' : fs -> fs -> Prop) a :
  (forall t t', R t t' -> R' t t') -> respects R a -> respects R' a.
Proof. intros H Ha t. apply H, Ha. Qed.

(** *** The removing calls *)

Lemma rmtree_shrunk p : respects shrunk (rmtree p).
Proof.
  intros t q k. rewrite rmtree_lookup. by case_decide.
Qed.

Lemma os_remove_shrunk p : respects shrunk (os_remove p).
Proof.
  intros t q k. unfold os_remove. destruct (t !! p) as [[|]|]; simpl; try done.
  intros H. apply lookup_delete_Some in H. tauto.
Qed.

Lemma cleanup_category_shrunk names p c : respects shrunk (cleanup_category names p c).
Proof.
  unfold cleanup_category.
  apply (respects_listing shrunk shrunk_refl shrunk_trans
           (fun t => listdir t [p; c])).
  intros x. destruct (splitext x) as [a e].
  destruct (_ && _); [apply os_remove_shrunk|apply respects_skip, shrunk_refl].
Qed.

Lemma cleanup_project_shrunk p cats : respects shrunk (cleanup_project p cats).
Proof.
  unfold cleanup_project.
  apply (respects_listing shrunk shrunk_refl shrunk_trans (fun t => listdir t [p])).
  intros c t. destruct (negb _); [apply shrunk_refl|].
  revert t. apply (respects_lift shrunk shrunk_refl). intros known _.
  destruct (negb known); [apply rmtree_shrunk|].
  apply (respects_lift shrunk shrunk_refl). intros cat_val _.
  apply (respects_lift shrunk shrunk_refl). intros names _.
  apply cleanup_category_shrunk.
Qed.

Lemma cleanup_filesystem_shrunk h : respects shrunk (cleanup_filesystem h).
Proof.
  unfold cleanup_filesystem.
  apply (respects_listing shrunk shrunk_refl shrunk_trans (fun t => listdir t [])).
  intros n t. destruct (negb _); [apply shrunk_refl|].
  destruct (dict_get n h); [apply cleanup_project_shrunk|apply rmtree_shrunk].
Qed.

(** X8.  The clean-up pass only removes: whatever the document and the
    tree, and whether [cleanup_filesystem] ends normally or in an
    exception, every entry of the tree it leaves was in the tree it
    started on, with the same kind; it creates nothing and turns nothing
    into something else. *)
Theorem cleanup_only_removes (h : dict) (t : fs) (q : path) (k : kind) :
  (cleanup_filesystem h t).1 !! q = Some k -> t !! q = Some k.
Proof. apply cleanup_filesystem_shrunk. Qed.

Lemma cleanup_only_removes_witness :
  (cleanup_filesystem two_projects stale_tree).1 !! ["A"; "X"] = Some KDir /\
  stale_tree !! ["A"; "X"] = Some KDir.
Proof.
  assert ((cleanup_filesystem two_projects stale_tree).1 !! ["A"; "X"] = Some KDir) as H.
  { by vm_compute. }
  split; [exact H|].
  exact (cleanup_only_removes two_projects stale_tree ["A"; "X"] KDir H).
Defined.

(** *** The creating calls *)

Lemma makedirs_from_grown pre rest : respects grown (makedirs_from pre rest).
Proof.
  revert pre. induction rest as [|n rest IH]; intros pre t; simpl; [apply grown_refl|].
  destruct (t !! (pre ++ [n])) as [[|]|] eqn:Hq.
  - apply grown_refl.
  - apply IH.
  - eapply grown_trans; [|apply IH]. intros q.
    destruct (decide (q = pre ++ [n])) as [->|Hne].
    + right. split; [done|apply lookup_insert_eq].
    + left. by apply lookup_insert_ne.
Qed.

Lemma makedirs_grown p : respects grown (makedirs p).
Proof. apply makedirs_from_grown. Qed.

Lemma makedirs_from_frame pre rest t q :
  ~ q `prefix_of` (pre ++ rest) -> (makedirs_from pre rest t).1 !! q = t !! q.
Proof.
  revert pre t. induction rest as [|n rest IH]; intros pre t Hq; simpl; [done|].
  assert (~ q `prefix_of` ((pre ++ [n]) ++ rest)) as Hq'.
  { by rewrite <- app_assoc. }
  destruct (t !! (pre ++ [n])) as [[|]|] eqn:Hn.
  - done.
  - by apply IH.
  - rewrite IH by done. apply lookup_insert_ne. intros <-. apply Hq.
    apply prefix_app, prefix_cons, prefix_nil.
Qed.

Lemma makedirs_same_below n p : head p <> Some n -> respects (same_below n) (makedirs p).
Proof.
  intros Hp t r. apply makedirs_from_frame. simpl. intros [k Hk].
  apply Hp. by rewrite Hk.
Qed.

Lemma make_hidden_grown p : respects grown (make_hidden p).
Proof.
  apply (respects_for_each grown grown_refl grown_trans). intros f _. apply makedirs_grown.
Qed.

Lemma make_hidden_same_below n p :
  head p <> Some n -> p <> [] -> respects (same_below n) (make_hidden p).
Proof.
  intros Hp Hne.
  apply (respects_for_each _ (same_below_refl n) (same_below_trans n)). intros f _.
  apply makedirs_same_below. by destruct p.
Qed.

Lemma ensure_project_grown item : respects grown (ensure_project item).
Proof.
  destruct item as [p cats]. unfold ensure_project.
  apply (respects_seq grown grown_trans); [apply makedirs_grown|].
  apply (respects_lift grown grown_refl). intros cs _.
  apply (respects_for_each grown grown_refl grown_trans). intros [c v] _.
  apply makedirs_grown.
Qed.

Lemma ensure_project_same_below n item :
  item.1 <> n -> respects (same_below n) (ensure_project item).
Proof.
  destruct item as [p cats]. simpl. intros Hp. unfold ensure_project.
  apply (respects_seq _ (same_below_trans n)).
  { apply makedirs_same_below. simpl. congruence. }
  apply (respects_lift _ (same_below_refl n)). intros cs _.
  apply (respects_for_each _ (same_below_refl n) (same_below_trans n)). intros [c v] _.
  apply makedirs_same_below. simpl. congruence.
Qed.

Lemma ensure_present_grown h : respects grown (ensure_present h).
Proof.
  unfold ensure_present.
  apply (respects_seq grown grown_trans); [apply makedirs_grown|].
  apply (respects_for_each grown grown_refl grown_trans). intros item _.
  apply ensure_project_grown.
Qed.

Lemma ensure_present_same_below n h :
  n ∉ dict_keys h -> respects (same_below n) (ensure_present h).
Proof.
  intros Hn. unfold ensure_present.
  apply (respects_seq _ (same_below_trans n)); [by apply makedirs_same_below|].
  apply (respects_for_each _ (same_below_refl n) (same_below_trans n)). intros item Hin.
  apply ensure_project_same_below. intros <-. apply Hn.
  apply list_elem_of_fmap. by exists item.
Qed.

Lemma hidden_asset_grown p c a : respects grown (hidden_asset p c a).
Proof.
  unfold hidden_asset.
  apply (respects_lift grown grown_refl). intros v _.
  apply (respects_lift grown grown_refl). intros d _.
  apply (respects_seq grown grown_trans); [apply makedirs_grown|apply make_hidden_grown].
Qed.

Lemma hidden_asset_same_below n p c a :
  p <> n -> respects (same_below n) (hidden_asset p c a).
Proof.
  intros Hp. unfold hidden_asset.
  apply (respects_lift _ (same_below_refl n)). intros v _.
  apply (respects_lift _ (same_below_refl n)). intros d _.
  apply (respects_seq _ (same_below_trans n)).
  - apply makedirs_same_below. simpl. congruence.
  - apply make_hidden_same_below; [simpl; congruence|done].
Qed.

Lemma hidden_category_grown p cats c : respects grown (hidden_category p cats c).
Proof.
  unfold hidden_category.
  apply (respects_lift grown grown_refl). intros category _.
  apply (respects_seq grown grown_trans); [apply make_hidden_grown|].
  apply (respects_lift grown grown_refl). intros cat_val _.
  apply (respects_lift grown grown_refl). intros assets _.
  apply (respects_for_each grown grown_refl grown_trans). intros a _.
  apply hidden_asset_grown.
Qed.

Lemma hidden_category_same_below n p cats c :
  p <> n -> respects (same_below n) (hidden_category p cats c).
Proof.
  intros Hp. unfold hidden_category.
  apply (respects_lift _ (same_below_refl n)). intros category _.
  apply (respects_seq _ (same_below_trans n)).
  { apply make_hidden_same_below; [simpl; congruence|done]. }
  apply (respects_lift _ (same_below_refl n)). intros cat_val _.
  apply (respects_lift _ (same_below_refl n)). intros assets _.
  apply (respects_for_each _ (same_below_refl n) (same_below_trans n)). intros a _.
  by apply hidden_asset_same_below.
Qed.

Lemma hidden_project_grown h p : respects grown (hidden_project h p).
Proof.
  unfold hidden_project.
  apply (respects_seq grown grown_trans); [apply make_hidden_grown|].
  apply (respects_lift grown grown_refl). intros cats _.
  apply (respects_lift grown grown_refl). intros cs _.
  apply (respects_for_each grown grown_refl grown_trans). intros c _.
  apply hidden_category_grown.
Qed.

Lemma hidden_project_same_below n h p :
  p <> n -> respects (same_below n) (hidden_project h p).
Proof.
  intros Hp. unfold hidden_project.
  apply (respects_seq _ (same_below_trans n)).
  { apply make_hidden_same_below; [simpl; congruence|done]. }
  apply (respects_lift _ (same_below_refl n)). intros cats _.
  apply (respects_lift _ (same_below_refl n)). intros cs _.
  apply (respects_for_each _ (same_below_refl n) (same_below_trans n)). intros c _.
  by apply hidden_category_same_below.
Qed.

Lemma create_hidden_folders_grown h : respects grown (create_hidden_folders h).
Proof.
  apply (respects_for_each grown grown_refl grown_trans). intros p _.
  apply hidden_project_grown.
Qed.

Lemma create_hidden_folders_same_below n h :
  n ∉ dict_keys h -> respects (same_below n) (create_hidden_folders h).
Proof.
  intros Hn.
  apply (respects_for_each _ (same_below_refl n) (same_below_trans n)). intros p Hp.
  apply hidden_project_same_below. by intros ->.
Qed.

(** X9.  The two creating passes only add directories: whatever the
    document and the tree, and whether the pass ends normally or in an
    exception, the first loop of [sync_filesystem_with_json] and
    [create_hidden_folders] leave every entry of the tree as it was and
    put directories where nothing was; so the whole synchronisation never
    creates a file, and what it removes is removed by the clean-up pass. *)
Theorem creating_passes_only_add (h : dict) (t : fs) :
  (forall q, (ensure_present h t).1 !! q = t !! q \/
             (t !! q = None /\ (ensure_present h t).1 !! q = Some KDir)) /\
  (forall q, (create_hidden_folders h t).1 !! q = t !! q \/
             (t !! q = None /\ (create_hidden_folders h t).1 !! q = Some KDir)) /\
  (forall q, (sync_filesystem_with_json h t).1 !! q = Some KFile -> t !! q = Some KFile).
Proof.
  split_and!.
  - apply ensure_present_grown.
  - apply create_hidden_folders_grown.
  - unfold sync_filesystem_with_json.
    apply (respects_seq no_new_file no_new_file_trans);
      [apply (respects_seq no_new_file no_new_file_trans)|].
    + eapply respects_impl; [apply grown_no_new_file|apply ensure_present_grown].
    + eapply respects_impl; [apply shrunk_no_new_file|apply cleanup_filesystem_shrunk].
    + eapply respects_impl; [apply grown_no_new_file|apply create_hidden_folders_grown].
Qed.

(** ** A synchronisation that completes *)

Lemma sync_done_inv h t t' :
  sync_filesystem_with_json h t = (t', Done) ->
  exists tA tB,
    ensure_present h t = (tA, Done) /\
    cleanup_filesystem h tA = (tB, Done) /\
    create_hidden_folders h tB = (t', Done).
Proof.
  unfold sync_filesystem_with_json, seq.
  destruct (ensure_present h t) as [tA [|e]] eqn:HA; [|done].
  destruct (cleanup_filesystem h tA) as [tB [|e]] eqn:HB; [|done].
  intros H. by exists tA, tB.
Qed.

Lemma grown_keeps t t' q k : grown t t' -> t !! q = Some k -> t' !! q = Some k.
Proof. intros H Hq. destruct (H q) as [E|[E _]]; congruence. Qed.

(** In a loop that ends normally every iteration ended normally, and what
    it made is still there when the bodies only add. *)
Lemma for_each_done_elem {A : Type} (l : list A) (body : A -> action) t t' x :
  (forall y, respects grown (body y)) ->
  for_each l body t = (t', Done) -> x ∈ l ->
  exists t0 t1, body x t0 = (t1, Done) /\ grown t1 t'.
Proof.
  intros Hb. revert t. induction l as [|y l IH]; intros t Hl Hx; [by apply elem_of_nil in Hx|].
  simpl in Hl. unfold seq in Hl. destruct (body y t) as [t1 [|e]] eqn:Hy; [|done].
  apply elem_of_cons in Hx as [->|Hx].
  - exists t, t1. split; [done|].
    pose proof (respects_for_each grown grown_refl grown_trans l body (fun z _ => Hb z) t1) as H.
    by rewrite Hl in H.
  - by apply (IH t1).
Qed.

Lemma ensure_present_dirs h t tA p cats :
  ensure_present h t = (tA, Done) -> dict_get p h = Some cats ->
  tA !! [p] = Some KDir /\
  forall c, py_in c cats = Ok true -> tA !! [p; c] = Some KDir.
Proof.
  unfold ensure_present, seq. destruct (makedirs [] t) as [t0 [|e]]; [|done].
  intros Hloop Hget. apply dict_get_elem in Hget.
  destruct (for_each_done_elem _ _ _ _ _ ensure_project_grown Hloop Hget)
    as (t1 & t2 & Hbody & Hgrown).
  unfold ensure_project, seq in Hbody.
  destruct (makedirs [p] t1) as [t3 [|e]] eqn:Hp; [|done].
  destruct cats as [| | | | |cs]; try done. simpl in Hbody.
  assert (grown t3 t2) as H32.
  { pose proof (respects_for_each grown grown_refl grown_trans cs
                  (fun '(category, _) => makedirs [p; category])) as H.
    specialize (H (fun '(c, v) _ => makedirs_grown [p; c]) t3). by rewrite Hbody in H. }
  split.
  - eapply grown_keeps; [exact Hgrown|]. eapply grown_keeps; [exact H32|].
    rewrite (makedirs_lookup _ _ _ [p] Hp). by rewrite decide_True.
  - intros c Hc. simpl in Hc. injection Hc as Hc. unfold dict_mem in Hc.
    destruct (dict_get c cs) as [v|] eqn:Hv; [|done]. apply dict_get_elem in Hv.
    destruct (for_each_done_elem cs (fun '(category, _) => makedirs [p; category])
                t3 t2 (c, v)) as (t4 & t5 & Hc5 & H52); [|done|done|].
    { intros [c' v']. apply makedirs_grown. }
    eapply grown_keeps; [exact Hgrown|]. eapply grown_keeps; [exact H52|].
    rewrite (makedirs_lookup _ _ _ [p; c] Hc5). by rewrite decide_True.
Qed.

Lemma sync_done_orphan h t t' n :
  sync_filesystem_with_json h t = (t', Done) ->
  n ∉ dict_keys h ->
  (t !! [n] = Some KDir -> forall r, t' !! (n :: r) = None) /\
  (t !! [n] <> Some KDir -> forall r, t' !! (n :: r) = t !! (n :: r)).
Proof.
  intros Hsync Hn. destruct (sync_done_inv _ _ _ Hsync) as (tA & tB & HA & HB & H1).
  pose proof (ensure_present_same_below n h Hn t) as HtA. rewrite HA in HtA.
  pose proof (create_hidden_folders_same_below n h Hn tB) as Ht1. rewrite H1 in Ht1.
  simpl in HtA, Ht1.
  assert (dict_get n h = None) as Hget by by apply dict_get_None_keys.
  split; intros Hdir r; rewrite Ht1, (cleanup_filesystem_lookup _ _ _ HB);
    unfold after_cleanup.
  - rewrite (proj2 (isdir_true _ _)) by by rewrite (HtA []).
    by rewrite Hget.
  - destruct (isdir tA [n]) eqn:Hd; [|apply HtA].
    apply isdir_true in Hd. by rewrite (HtA []) in Hd.
Qed.





Lemma make_hidden_done p t t' f :
  make_hidden p t = (t', Done) -> f ∈ hidden_folders ->
  t' !! (p ++ [f]) = Some KDir /\ (p <> [] -> t' !! p = Some KDir).
Proof.
  intros Hdone Hf. unfold make_hidden in Hdone.
  destruct (for_each_done_elem _ _ _ _ f (fun y => makedirs_grown (p ++ [y])) Hdone Hf)
    as (t0 & t1 & Hm & Hg).
  split; [|intros Hp]; (eapply grown_keeps; [exact Hg|]);
    rewrite (makedirs_lookup _ _ _ _ Hm); rewrite decide_True; try done.
  - split; [by destruct p|done].
  - split; [done|by apply prefix_app_r].
Qed.

Lemma hidden_folders_inhabited : "__temp" ∈ hidden_folders.
Proof. by left. Qed.

Lemma sync_done_structure (h : dict) (t t' : fs) (p : string) (cats : json) :
  sync_filesystem_with_json h t = (t', Done) ->
  dict_get p h = Some cats ->
  t' !! [p] = Some KDir /\
  (forall f, f ∈ hidden_folders -> t' !! [p; f] = Some KDir) /\
  (forall c cat_val,
     py_getitem cats c = Ok cat_val ->
     t' !! [p; c] = Some KDir /\
     (forall f, f ∈ hidden_folders -> t' !! [p; c; f] = Some KDir) /\
     (forall l a d,
        py_iter (asset_list_of cat_val) = Ok l -> a ∈ l ->
        py_getitem a "db_name" = Ok (JStr d) ->
        t' !! [p; c; d] = Some KDir /\
        (forall f, f ∈ hidden_folders -> t' !! [p; c; d; f] = Some KDir))).
Proof.
  intros Hsync Hget. destruct (sync_done_inv _ _ _ Hsync) as (tA & tB & _ & _ & H1).
  clear Hsync. unfold create_hidden_folders in H1.
  assert (p ∈ dict_keys h) as Hp by by eapply dict_get_Some_keys.
  destruct (for_each_done_elem _ _ _ _ p (hidden_project_grown h) H1 Hp)
    as (t0 & t1 & Hproj & Hg1).
  unfold hidden_project, seq in Hproj.
  destruct (make_hidden [p] t0) as [t2 [|e]] eqn:Hh; [|done].
  simpl in Hproj. rewrite Hget in Hproj. simpl in Hproj.
  destruct (py_iter cats) as [cs|] eqn:Hcs; [|done]. simpl in Hproj.
  assert (grown t2 t1) as Hg2.
  { pose proof (respects_for_each grown grown_refl grown_trans cs (hidden_category p cats)
                  (fun c _ => hidden_category_grown p cats c) t2) as H.
    by rewrite Hproj in H. }
  assert (forall q, t2 !! q = Some KDir -> t' !! q = Some KDir) as Hup2.
  { intros q Hq. eapply grown_keeps; [exact Hg1|]. by eapply grown_keeps. }
  split_and!.
  - apply Hup2. by apply (make_hidden_done [p] t0 t2 "__temp" Hh hidden_folders_inhabited).
  - intros f Hf. apply Hup2. by apply (make_hidden_done [p] t0 t2 f Hh Hf).
  - intros c cat_val Hc.
    assert (JStr c ∈ cs) as Hin.
    { destruct cats as [| | | | |d]; try done. simpl in Hcs. injection Hcs as <-.
      simpl in Hc. destruct (dict_get c d) as [v|] eqn:Hv; [|done].
      apply list_elem_of_fmap. exists c. split; [done|]. by eapply dict_get_Some_keys. }
    destruct (for_each_done_elem _ _ _ _ _ (hidden_category_grown p cats) Hproj Hin)
      as (t3 & t4 & Hcat & Hg4).
    unfold hidden_category in Hcat. simpl in Hcat. unfold seq in Hcat.
    destruct (make_hidden [p; c] t3) as [t5 [|e]] eqn:Hh5; [|done].
    rewrite Hc in Hcat. simpl in Hcat.
    destruct (py_iter (asset_list_of cat_val)) as [l0|] eqn:Hl0; [|done]. simpl in Hcat.
    assert (grown t5 t4) as Hg5.
    { pose proof (respects_for_each grown grown_refl grown_trans l0 (hidden_asset p c)
                    (fun a _ => hidden_asset_grown p c a) t5) as H.
      by rewrite Hcat in H. }
    assert (forall q, t4 !! q = Some KDir -> t' !! q = Some KDir) as Hup4.
    { intros q Hq. eapply grown_keeps; [exact Hg1|]. by eapply grown_keeps. }
    assert (forall q, t5 !! q = Some KDir -> t' !! q = Some KDir) as Hup5.
    { intros q Hq. apply Hup4. by eapply grown_keeps. }
    split_and!.
    + apply Hup5.
      by apply (make_hidden_done [p; c] t3 t5 "__temp" Hh5 hidden_folders_inhabited).
    + intros f Hf. apply Hup5. by apply (make_hidden_done [p; c] t3 t5 f Hh5 Hf).
    + intros l a d [= <-] Ha Hd.
      destruct (for_each_done_elem _ _ _ _ _ (hidden_asset_grown p c) Hcat Ha)
        as (t6 & t7 & Hasset & Hg7).
      unfold hidden_asset in Hasset. rewrite Hd in Hasset. simpl in Hasset.
      unfold seq in Hasset.
      destruct (makedirs [p; c; d] t6) as [t8 [|e]] eqn:Hm8; [|done].
      assert (forall q, t7 !! q = Some KDir -> t' !! q = Some KDir) as Hup7.
      { intros q Hq. apply Hup4. by eapply grown_keeps. }
      split.
      * apply Hup7.
        by apply (make_hidden_done [p; c; d] t8 t7 "__temp" Hasset hidden_folders_inhabited).
      * intros f Hf. apply Hup7.
        by apply (make_hidden_done [p; c; d] t8 t7 f Hasset Hf).
Qed.



Lemma ensure_paths_short D q : covered (ensure_paths D) q -> length q <= 2.
Proof.
  rewrite covered_ensure_paths. intros (pc & _ & [->|(cd & _ & ->)]); simpl; lia.
Qed.

(** What the passes make of an empty root. *)
Lemma sync_empty_root (h : dict) (D : list (string * list (string * list string))) :
  NoDup (dict_keys h) ->
  view h = Some D ->
  exists t',
    sync_filesystem_with_json h ∅ = (t', Done) /\
    forall q, t' !! q = if decide (covered (ensure_paths D ++ hidden_paths D) q)
                        then Some KDir else None.
Proof.
  intros Hnd HD.
  destruct (makedirs_all_ok (ensure_paths D) ∅) as [tA HA'].
  { intros q _. by rewrite lookup_empty. }
  assert (ensure_present h ∅ = (tA, Done)) as HA.
  { by rewrite (ensure_present_paths h D ∅ Hnd HD). }
  assert (forall q, tA !! q = if decide (covered (ensure_paths D) q) then Some KDir else None)
    as HtA.
  { intros q. rewrite (makedirs_all_lookup _ _ _ q HA'). by rewrite lookup_empty. }
  destruct (cleanup_filesystem_ok h tA) as [tB HB].
  { by eapply cleanup_safe_view. }
  { intros p cats c names x _ _ _ _. rewrite HtA. case_decide as Hc; [|done].
    apply ensure_paths_short in Hc. simpl in Hc. lia. }
  assert (forall q, tB !! q = tA !! q) as HtB.
  { intros q. destruct (decide (covered (ensure_paths D) q)) as [Hc|Hc].
    - rewrite (cleaned_keeps_ensured h D ∅ tA tB Hnd HD HA HB q Hc).
      by rewrite HtA, decide_True.
    - rewrite (cleanup_filesystem_lookup _ _ _ HB).
      destruct (after_cleanup_cases h tA q) as [->| ->]; [|done].
      by rewrite HtA, decide_False. }
  destruct (makedirs_all_ok (hidden_paths D) tB) as [t' H1'].
  { intros q _. rewrite HtB, HtA. by case_decide. }
  assert (create_hidden_folders h tB = (t', Done)) as H1.
  { by rewrite (create_hidden_folders_paths h D tB HD). }
  exists t'. split.
  - unfold sync_filesystem_with_json, seq. by rewrite HA, HB.
  - intros q. rewrite (makedirs_all_lookup _ _ _ q H1'), HtB, HtA.
    destruct (decide (covered (hidden_paths D) q)) as [Hh|Hh],
             (decide (covered (ensure_paths D) q)) as [He|He];
      (rewrite decide_True by (apply covered_app; tauto)) ||
      (rewrite decide_False by (rewrite covered_app; tauto)); done.
Qed.



(** ** Adding and deleting a project *)

Lemma dict_set_absent k v d : k ∉ dict_keys d -> dict_set k v d = d ++ [(k, v)].
Proof.
  unfold dict_keys. induction d as [|[k' v'] d IH]; intros Hk; simpl; [done|].
  rewrite fmap_cons, not_elem_of_cons in Hk. destruct Hk as [Hne Hk]. simpl in Hne.
  rewrite decide_False by done. by rewrite IH.
Qed.

Lemma get_assets_set_other h n v p c :
  p <> n -> get_assets (dict_set n v h) p c = get_assets h p c.
Proof. intros Hp. unfold get_assets. by rewrite dict_get_set_ne. Qed.

Lemma get_assets_del_other h n p c :
  p <> n -> get_assets (dict_del n h) p c = get_assets h p c.
Proof. intros Hp. unfold get_assets. by rewrite dict_get_del_ne. Qed.

(** A save that raises no warning has synchronised the tree. *)
Lemma save_synchronised s :
  (save_assets_to_json s).2 = [] ->
  sync_filesystem_with_json (assets_hierarchy s) (tree s)
  = (tree (save_assets_to_json s).1, Done).
Proof.
  unfold save_assets_to_json. simpl.
  destruct (sync_filesystem_with_json (assets_hierarchy s) (tree s)) as [t [|e]]; [done|].
  simpl. discriminate.
Qed.

(** X14.  Adding a project: the name typed is trimmed of the white space
    [str.strip] removes, Unicode spaces included; a name that is
    empty after trimming, or that is in the project list already, is
    refused with a warning and nothing changes; otherwise the project goes
    to the end of the list and of the hierarchy with the four categories
    "Static Meshes", "Textures", "Simulations" and "Flipbooks", each
    empty, every other project is as before, and the new hierarchy is
    saved; the saved document holds the new project under its name unless
    that name is the key of the naming conventions. *)
Theorem add_project_adds (s : state) (text : string) :
  store_ok s ->
  let project_name := strip text in
  let r := add_project text s in
  (project_name = "" -> r = (s, [Warning "Warning" "Please enter a project name."])) /\
  (project_name <> "" -> project_name <> master_assets -> project_name ∈ projects s ->
   r = (s, [Warning "Warning" "Project already exists."])) /\
  (project_name <> "" -> project_name <> master_assets -> project_name ∉ projects s ->
   projects r.1 = projects s ++ [project_name] /\
   assets_hierarchy r.1 = assets_hierarchy s ++ [(project_name, default_categories)] /\
   (forall c, c ∈ ["Static Meshes"; "Textures"; "Simulations"; "Flipbooks"] ->
      get_assets (assets_hierarchy r.1) project_name c = Ok (JArr [])) /\
   (forall p c, p <> project_name ->
      get_assets (assets_hierarchy r.1) p c = get_assets (assets_hierarchy s) p c) /\
   naming_conventions r.1 = naming_conventions s /\
   saved r.1 = JObj (dict_set "naming_conventions" (naming_conventions s)
                       (assets_hierarchy r.1)) /\
   (project_name <> "naming_conventions" ->
    py_getitem (saved r.1) project_name = Ok default_categories)).
Proof.
  intros (Hk & Hp & Hpk & Hm) project_name r. subst r. unfold add_project.
  fold project_name. split_and!.
  - intros ->. done.
  - intros Hne Hnm Hin. rewrite !bool_decide_eq_false_2 by done.
    by rewrite bool_decide_eq_true_2.
  - intros Hne Hnm Hnew. rewrite !bool_decide_eq_false_2 by done.
    assert (project_name ∉ dict_keys (assets_hierarchy s)) as Hnk by by rewrite <- Hpk.
    cbn [with_projects assets_hierarchy].
    rewrite (proj2 (dict_mem_false _ _) Hnk).
    set (h := dict_set project_name default_categories (assets_hierarchy s)).
    set (s1 := with_hierarchy h _).
    destruct (save_fields s1) as (Hh' & Hp' & Hn' & Hs').
    rewrite Hh', Hp', Hn', Hs'. unfold s1, h. cbn [with_hierarchy with_projects
      assets_hierarchy projects naming_conventions].
    assert (get_assets_new : forall c, c ∈ ["Static Meshes"; "Textures"; "Simulations"; "Flipbooks"] ->
              get_assets (dict_set project_name default_categories (assets_hierarchy s))
                project_name c = Ok (JArr [])).
    { intros c Hc. unfold get_assets. rewrite dict_get_set_eq.
      repeat (apply elem_of_cons in Hc as [->|Hc]; [reflexivity|]).
      by apply elem_of_nil in Hc. }
    split_and!; try done.
    + by apply dict_set_absent.
    + intros p c Hpn. by apply get_assets_set_other.
    + intros Hnc. simpl. rewrite dict_get_set_ne by done. by rewrite dict_get_set_eq.
Qed.

Lemma add_project_adds_witness :
  strip (bytes [32; 194; 160] +:+ "Show" +:+ bytes [227; 128; 128; 9]) = "Show" /\
  projects (add_project (bytes [32; 194; 160] +:+ "Show" +:+ bytes [227; 128; 128; 9])
              (init (JObj []) ∅)).1 = [master_assets; "Show"] /\
  get_assets (assets_hierarchy
                (add_project (bytes [32; 194; 160] +:+ "Show" +:+ bytes [227; 128; 128; 9])
                   (init (JObj []) ∅)).1) "Show" "Textures"
  = Ok (JArr []) /\
  add_project (bytes [194; 160; 32; 226; 128; 131]) (init (JObj []) ∅)
  = (init (JObj []) ∅, [Warning "Warning" "Please enter a project name."]).
Proof.
  assert (store_ok (init (JObj []) ∅)) as Hok.
  { apply store_ok_init. simpl. apply NoDup_nil_2. }
  split; [reflexivity|].
  destruct (proj2 (proj2 (add_project_adds (init (JObj []) ∅)
                            (bytes [32; 194; 160] +:+ "Show" +:+ bytes [227; 128; 128; 9])
                            Hok)))
    as (Hp & _ & Hc & _).
  - discriminate.
  - discriminate.
  - simpl. intros Hin. apply list_elem_of_singleton in Hin. discriminate.
  - split; [exact Hp|]. split; [apply Hc; right; by left|].
    exact (proj1 (add_project_adds (init (JObj []) ∅) (bytes [194; 160; 32; 226; 128; 131])
                    Hok) eq_refl).
Defined.



(** ** Renaming on disk *)

Lemma rebase_under (old new r : path) : rebase old new (old ++ r) = new ++ r.
Proof.
  induction old as [|a old IH]; simpl; [by destruct r|]. by rewrite decide_True.
Qed.

Lemma moved_under (old new r : path) : moved old new (old ++ r) = new ++ r.
Proof.
  unfold moved. rewrite decide_True by apply prefix_app_r, reflexivity.
  apply rebase_under.
Qed.

Lemma moved_outside (old new q : path) : ~ old `prefix_of` q -> moved old new q = q.
Proof. intros H. unfold moved. by rewrite decide_False. Qed.

(** The tree with its keys renamed by [f], when [f] sends no two of them
    to the same place. *)
Lemma lookup_kmap_on_dom (f : path -> path) (t : fs) q' k :
  (forall q1 q2, is_Some (t !! q1) -> is_Some (t !! q2) -> f q1 = f q2 -> q1 = q2) ->
  (kmap f t : fs) !! q' = Some k <-> exists q, f q = q' /\ t !! q = Some k.
Proof.
  intros Hinj. unfold kmap. rewrite <- elem_of_list_to_map.
  - rewrite list_elem_of_fmap. split.
    + intros ([q x] & [= -> ->] & Hin). exists q. split; [done|].
      by apply elem_of_map_to_list.
    + intros (q & <- & Hq). exists (q, k). split; [done|].
      by apply elem_of_map_to_list.
  - rewrite <- list_fmap_compose.
    assert (fst ∘ prod_map f id = f ∘ (fst : path * kind -> path)) as -> by done.
    rewrite list_fmap_compose. apply NoDup_fmap_2_strong; [|apply NoDup_fst_map_to_list].
    intros q1 q2 H1 H2. apply Hinj.
    + apply list_elem_of_fmap in H1 as ([q x] & -> & Hin). exists x.
      by apply elem_of_map_to_list.
    + apply list_elem_of_fmap in H2 as ([q x] & -> & Hin). exists x.
      by apply elem_of_map_to_list.
Qed.

Lemma moved_injective (old new : path) (t : fs) (q1 q2 : path) :
  (forall r, t !! (new ++ r) = None) ->
  is_Some (t !! q1) -> is_Some (t !! q2) ->
  moved old new q1 = moved old new q2 -> q1 = q2.
Proof.
  intros Hfree H1 H2. unfold moved.
  destruct (decide (old `prefix_of` q1)) as [[r1 ->]|N1],
           (decide (old `prefix_of` q2)) as [[r2 ->]|N2];
    rewrite ?rebase_under.
  - intros E. by apply app_inv_head in E as ->.
  - intros <-. rewrite Hfree in H2. by destruct H2.
  - intros ->. rewrite Hfree in H1. by destruct H1.
  - done.
Qed.

(** Where everything is after [os.rename(old, new)] went through, when
    nothing was at or below [new]. *)
Lemma os_rename_lookup (old new : path) (t t' : fs) :
  os_rename true old new t = (t', Done) -> old <> new ->
  (forall r, t !! (new ++ r) = None) ->
  (forall r, t' !! (new ++ r) = t !! (old ++ r)) /\
  (forall q, ~ new `prefix_of` q ->
             t' !! q = if decide (old `prefix_of` q) then None else t !! q).
Proof.
  intros Hren Hne Hfree. unfold os_rename in Hren. simpl in Hren.
  destruct (negb (path_exists t old)); [done|].
  rewrite decide_False in Hren by done.
  destruct (path_exists t new); [done|]. injection Hren as <-.
  pose proof (fun q' k => lookup_kmap_on_dom (moved old new) t q' k
                (fun q1 q2 => moved_injective old new t q1 q2 Hfree)) as Hk.
  split.
  - intros r. apply option_eq. intros k. rewrite Hk. split.
    + intros (q & Hq & Hlook). unfold moved in Hq.
      destruct (decide (old `prefix_of` q)) as [[r' ->]|N].
      * rewrite rebase_under in Hq. by apply app_inv_head in Hq as ->.
      * subst q. by rewrite Hfree in Hlook.
    + intros Hlook. exists (old ++ r). split; [apply moved_under|done].
  - intros q Hq. apply option_eq. intros k. rewrite Hk. split.
    + intros (q0 & Hq0 & Hlook). unfold moved in Hq0.
      destruct (decide (old `prefix_of` q0)) as [[r' ->]|N].
      * rewrite rebase_under in Hq0. subst q. exfalso. apply Hq.
        apply prefix_app_r. reflexivity.
      * subst q0. by rewrite decide_False.
    + case_decide as Hold; [done|]. intros Hlook. exists q.
      split; [by apply moved_outside|done].
Qed.

Lemma try_rename_done (old new : path) (what : string) (t : fs) :
  is_Some (t !! old) -> old <> new -> (forall r, t !! (new ++ r) = None) ->
  exists t', try_rename true old new what t = (t', []) /\
             os_rename true old new t = (t', Done).
Proof.
  intros Hold Hne Hfree. unfold try_rename.
  assert (path_exists t old = true) as Hex by by apply bool_decide_eq_true.
  rewrite Hex. unfold os_rename. rewrite Hex. simpl.
  rewrite decide_False by done.
  assert (path_exists t new = false) as Hnew.
  { apply bool_decide_eq_false. specialize (Hfree []). rewrite app_nil_r in Hfree.
    rewrite Hfree. by intros [? ?]. }
  rewrite Hnew. by eexists.
Qed.

Lemma string_length_append (s1 s2 : string) :
  String.length (s1 +:+ s2) = String.length s1 + String.length s2.
Proof. induction s1 as [|a s1 IH]; simpl; [done|]. by rewrite IH. Qed.

Lemma append_inj_l (s1 s2 x : string) : s1 +:+ x = s2 +:+ x -> s1 = s2.
Proof.
  intros H.
  assert (String.length s1 = String.length s2) as Hlen.
  { apply (f_equal String.length) in H. rewrite !string_length_append in H. lia. }
  revert s2 H Hlen. induction s1 as [|a s1 IH]; intros [|b s2]; simpl; try done.
  intros [= -> H] [= Hlen]. f_equal. by apply IH.
Qed.

(** The two renames of [edit_asset_clicked] when the system lets both
    through: the data file, then the folder with all it holds. *)
Lemma rename_on_disk_moves (p c old new : string) (t : fs) :
  old <> new ->
  is_Some (t !! [p; c; old]) ->
  is_Some (t !! [p; c; old; old +:+ ".hipnc"]) ->
  (forall r, t !! (p :: c :: new :: r) = None) ->
  (forall r, t !! (p :: c :: old :: (new +:+ ".hipnc") :: r) = None) ->
  exists t2,
    rename_on_disk true true p c old new t = (t2, []) /\
    (forall r, t2 !! (p :: c :: new :: (new +:+ ".hipnc") :: r)
               = t !! (p :: c :: old :: (old +:+ ".hipnc") :: r)) /\
    (forall z r, z <> old +:+ ".hipnc" -> z <> new +:+ ".hipnc" ->
       t2 !! (p :: c :: new :: z :: r) = t !! (p :: c :: old :: z :: r)) /\
    t2 !! [p; c; new] = t !! [p; c; old] /\
    (forall r, t2 !! (p :: c :: old :: r) = None) /\
    (forall q, ~ [p; c; old] `prefix_of` q -> ~ [p; c; new] `prefix_of` q ->
       t2 !! q = t !! q).
Proof.
  intros Hne Hfolder Hfile Hfree_new Hfree_file.
  assert (old +:+ ".hipnc" <> new +:+ ".hipnc") as Hne_file.
  { intros E. by apply append_inj_l in E. }
  unfold rename_on_disk. cbn [app].
  destruct (try_rename_done [p; c; old; old +:+ ".hipnc"] [p; c; old; new +:+ ".hipnc"]
              "Houdini file" t) as (t1 & -> & H1); [done|congruence|done|].
  destruct (os_rename_lookup _ _ _ _ H1) as [H1in H1out]; [congruence|done|].
  assert (forall q, ~ [p; c; old] `prefix_of` q -> t1 !! q = t !! q) as H1far.
  { intros q Hq. rewrite H1out.
    - rewrite decide_False; [done|]. intros [r ->]. apply Hq. by exists ((old +:+ ".hipnc") :: r).
    - intros [r ->]. apply Hq. by exists ((new +:+ ".hipnc") :: r). }
  assert (forall r, t1 !! (p :: c :: new :: r) = None) as Hfree1.
  { intros r. rewrite H1far; [done|]. intros [r' E]. simplify_eq/=. }
  destruct (try_rename_done [p; c; old] [p; c; new] "asset folder" t1)
    as (t2 & -> & H2); [|congruence|done|].
  { rewrite H1out.
    - rewrite decide_False; [done|]. intros [r E]. simplify_eq/=.
    - intros [r E]. simplify_eq/=. }
  destruct (os_rename_lookup _ _ _ _ H2) as [H2in H2out]; [congruence|done|].
  exists t2. split; [done|]. split_and!.
  - intros r. etrans; [exact (H2in ((new +:+ ".hipnc") :: r))|]. apply (H1in r).
  - intros z r Hz1 Hz2. etrans; [exact (H2in (z :: r))|]. simpl. rewrite H1out.
    + rewrite decide_False; [done|]. intros [r' E]. simplify_eq/=.
    + intros [r' E]. simplify_eq/=.
  - etrans; [exact (H2in [])|]. simpl. rewrite H1out.
    + rewrite decide_False; [done|]. intros [r' E]. simplify_eq/=.
    + intros [r' E]. simplify_eq/=.
  - intros r. rewrite H2out.
    + rewrite decide_True; [done|]. by exists r.
    + intros [r' E]. simplify_eq/=.
  - intros q Hold Hnew. rewrite H2out by done. rewrite decide_False by done.
    by apply H1far.
Qed.

Lemma sync_done_keeps_below h t t' p c v :
  sync_filesystem_with_json h t = (t', Done) ->
  get_assets h p c = Ok v ->
  forall x y r k,
    t !! (p :: c :: x :: y :: r) = Some k -> t' !! (p :: c :: x :: y :: r) = Some k.
Proof.
  intros Hsync Hget x y r k Hk.
  destruct (sync_done_inv _ _ _ Hsync) as (tA & tB & HA & HB & H1).
  pose proof (ensure_present_grown h t) as HtA. rewrite HA in HtA.
  pose proof (create_hidden_folders_grown h tB) as Ht1. rewrite H1 in Ht1.
  simpl in HtA, Ht1.
  eapply grown_keeps; [exact Ht1|]. rewrite (cleanup_filesystem_lookup _ _ _ HB).
  pose proof (grown_keeps _ _ _ _ HtA Hk) as HkA.
  unfold get_assets in Hget. destruct (dict_get p h) as [cats|] eqn:Hp; [|done].
  unfold_bind. destruct (py_getitem cats c) as [cat_val|] eqn:Hc; [|done].
  assert (py_in c cats = Ok true) as Hin.
  { destruct cats as [| | | | |d]; try done. simpl in *. unfold dict_mem.
    by destruct (dict_get c d). }
  unfold after_cleanup, after_project, after_category.
  destruct (isdir tA [p]); [|done]. rewrite Hp, decide_True by done.
  destruct (isdir tA [p; c]); [|done]. rewrite Hin.
  by destruct (category_db_names cats c).
Qed.


Lemma lookup_dirs_None ps q : q ∉ ps -> dirs ps !! q = None.
Proof.
  intros Hq. unfold dirs. apply not_elem_of_list_to_map.
  rewrite <- list_fmap_compose. intros Hin.
  apply list_elem_of_fmap in Hin as (q' & -> & Hin). done.
Qed.



(** ** Renaming a project on disk *)



(** ** The duplicate check of a rename *)

Lemma any_other_db_name_view asset old new l ds :
  Forall2 (fun a d => view_asset a = Some d) l ds ->
  (forall a, a ∈ l -> py_eq a asset = true <-> view_asset a = Some old) ->
  any_other_db_name asset new l = Ok (bool_decide (new ∈ ds /\ new <> old)).
Proof.
  induction 1 as [|a d l ds Ha _ IH]; intros Heq; simpl.
  - done.
  - rewrite IH by (intros a' Ha'; apply Heq; by right).
    pose proof (Heq a ltac:(by left)) as Hia. rewrite Ha in Hia.
    destruct (py_eq a asset) eqn:Hpa.
    + assert (d = old) as -> by (apply (inj Some); by apply Hia).
      f_equal. apply bool_decide_ext. rewrite elem_of_cons. intuition congruence.
    + assert (d <> old) as Hd.
      { intros ->. pose proof (proj2 Hia eq_refl). discriminate. }
      rewrite (view_asset_Some _ _ Ha). unfold_bind. simpl.
      destruct (decide (new = d)) as [->|Hnd].
      * rewrite (bool_decide_eq_true_2 (d = d)) by done.
        f_equal. symmetry. apply bool_decide_eq_true.
        split; [by left|done].
      * rewrite (bool_decide_eq_false_2 (new = d)) by done.
        f_equal. apply bool_decide_ext. rewrite elem_of_cons. intuition congruence.
Qed.

(** X18.  The duplicate check of [edit_asset_clicked]: in a category
    whose entries carry pairwise distinct string identifiers, a new name
    that resolves to the identifier of another asset is refused with the
    warning "Duplicate" and nothing changes, on disk or in the document;
    a new name that resolves to an identifier no asset has, or to the
    identifier the asset has already (only the spelling of the display
    name changes), is accepted, and the entry is rewritten in its place. *)
Theorem edit_asset_duplicate_check (py_repr : json -> string) (s : state)
    (p c display_name new_display_name : string) (variant : option string)
    (l : list json) (ds : list string) (i : nat) (asset : json) (old new : string)
    (file_permitted folder_permitted : bool) :
  new_display_name <> "" ->
  get_assets (assets_hierarchy s) p c = Ok (JArr l) ->
  mapM view_asset l = Some ds ->
  NoDup ds ->
  find_asset_by_display_name l display_name = Ok (Some (i, asset)) ->
  wf_json asset = true ->
  view_asset asset = Some old ->
  resolve_db_name py_repr (naming_conventions s) c new_display_name variant
  = Ok (Some new) ->
  let r := edit_asset_clicked py_repr p c display_name new_display_name true variant
             file_permitted folder_permitted s in
  (new ∈ ds -> new <> old ->
   r = (s, [Warning "Duplicate" "Asset name already exists."])) /\
  (new ∉ ds \/ new = old ->
   get_assets (assets_hierarchy r.1) p c
   = Ok (JArr (<[i := renamed_asset asset new_display_name new]> l)) /\
   exists before,
     r.2 = before ++ [Information "Asset Renamed"
                        ("Asset renamed to '" +:+ new_display_name +:+ "'.")]).
Proof.
  intros Hname Hget Hview Hnd Hfind Hwf Hold Hres r. subst r.
  apply mapM_Some_1 in Hview.
  destruct (find_asset_found _ _ _ _ Hfind) as [Hi _].
  assert (ds !! i = Some old) as Hdi.
  { destruct (Forall2_lookup_l _ _ _ _ _ Hview Hi) as (d & Hd & Hv). congruence. }
  assert (any_other_db_name asset new l = Ok (bool_decide (new ∈ ds /\ new <> old))) as Hany.
  { apply any_other_db_name_view; [done|]. intros a Ha. split.
    - intros Heq. apply list_elem_of_lookup_1 in Ha as [j Hj].
      destruct (Forall2_lookup_l _ _ _ _ _ Hview Hj) as (d & Hd & Hv).
      pose proof (py_eq_view_asset _ _ _ Heq Hv). congruence.
    - intros Hv. apply list_elem_of_lookup_1 in Ha as [j Hj].
      destruct (Forall2_lookup_l _ _ _ _ _ Hview Hj) as (d & Hd & Hv').
      assert (j = i) as -> by (eapply NoDup_lookup; [done| |done]; congruence).
      assert (a = asset) as -> by congruence. by apply py_eq_refl. }
  unfold edit_asset_clicked. rewrite Hget. simpl. rewrite Hfind. simpl.
  rewrite (bool_decide_eq_false_2 _ Hname). simpl. rewrite Hres, Hany.
  split.
  - intros Hin Hne. by rewrite bool_decide_eq_true_2.
  - intros Hfree. rewrite bool_decide_eq_false_2 by tauto.
    rewrite (view_asset_Some _ _ Hold). simpl.
    destruct (rename_on_disk _ _ _ _ _ _ _) as [t warned].
    set (h := put_assets _ _ _ _).
    destruct (save_fields (with_tree t (with_hierarchy h s))) as (Hh & _).
    destruct (save_assets_to_json _) as [s1 failed]. simpl in *.
    rewrite Hh. split.
    + unfold h. by eapply get_assets_put_same.
    + exists (warned ++ failed). by rewrite <- app_assoc.
Qed.

Lemma edit_asset_duplicate_check_witness :
  resolve_db_name no_repr (naming_conventions mesh_state) "Static Meshes" "HeroSword" None
  = Ok (Some "SM_HeroSword") /\
  get_assets
    (assets_hierarchy
       (edit_asset_clicked no_repr "Show" "Static Meshes" "Hero Sword" "HeroSword" true None
          true true mesh_state).1) "Show" "Static Meshes"
  = Ok (JArr [new_asset "HeroSword" "SM_HeroSword"]).
Proof.
  split; [reflexivity|].
  refine (proj1 (proj2 (edit_asset_duplicate_check no_repr mesh_state "Show" "Static Meshes"
    "Hero Sword" "HeroSword" None [hero_sword] ["SM_HeroSword"] 0 hero_sword
    "SM_HeroSword" "SM_HeroSword" true true _ eq_refl eq_refl _ eq_refl eq_refl eq_refl
    eq_refl) _)).
  - discriminate.
  - apply NoDup_singleton.
  - by right.
Defined.

(** ** The project list and the hierarchy *)

(** X20.  The project list mirrors the hierarchy: for a file without a
    repeated top-level key, after [__init__] and after any sequence of
    operations the names in the project list are exactly the keys of the
    hierarchy, and neither holds a name twice. *)
Theorem project_list_mirrors_hierarchy (py_repr : json -> string) (raw : json) (t : fs)
    (ops : list operation) :
  NoDup (top_keys raw) ->
  let s := run py_repr ops (init raw t) in
  NoDup (projects s) /\
  NoDup (dict_keys (assets_hierarchy s)) /\
  (forall x, x ∈ projects s <-> x ∈ dict_keys (assets_hierarchy s)).
Proof.
  intros Hraw s.
  destruct (store_ok_run py_repr ops _ (store_ok_init raw t Hraw)) as (Hk & Hp & Hpk & _).
  by split_and!.
Qed.

Lemma project_list_mirrors_hierarchy_witness :
  NoDup (top_keys wrapped_raw) /\
  forall x,
    x ∈ projects (run no_repr [AddProject "Show B"; DeleteProject ["Show"] true]
                    (init wrapped_raw ∅)) <->
    x ∈ dict_keys (assets_hierarchy
                     (run no_repr [AddProject "Show B"; DeleteProject ["Show"] true]
                        (init wrapped_raw ∅))).
Proof.
  assert (NoDup (top_keys wrapped_raw)) as H by (simpl; apply NoDup_singleton).
  split; [exact H|].
  exact (proj2 (proj2 (project_list_mirrors_hierarchy no_repr wrapped_raw ∅
    [AddProject "Show B"; DeleteProject ["Show"] true] H))).
Defined.

(** ** What loading keeps *)

Lemma load_category data loaded project cats category v :
  migrate (JObj data) = Ok loaded ->
  project <> "naming_conventions" ->
  dict_get project data = Some (JObj cats) ->
  dict_mem "Meshes" cats = false ->
  dict_get category cats = Some v ->
  exists cats' v',
    dict_get project loaded = Some (JObj cats') /\
    dict_get category cats' = Some v' /\
    migrate_category v = Ok v'.
Proof.
  intros Hm Hp Hproj Hmesh Hcat. unfold migrate in Hm. simpl in Hm. unfold_bind.
  destruct (for_result migrate_project_item data) as [d1|] eqn:H1; [|done].
  destruct (for_result_dict_get _ _ _ _ _ migrate_project_item_key H1 Hproj)
    as (w & Hw & Hget).
  rewrite <- (migrate_conventions_get _ _ _ Hp Hm) in Hget.
  unfold migrate_project_item in Hw. rewrite decide_False in Hw by done.
  unfold migrate_project in Hw. simpl in Hw. rewrite Hmesh in Hw. simpl in Hw.
  unfold_bind.
  destruct (for_result migrate_category_item cats) as [cats'|] eqn:H2; [|done].
  injection Hw as <-. exists cats'.
  destruct (for_result_dict_get _ _ _ _ _ migrate_category_item_key H2 Hcat)
    as (v' & Hv' & Hget2).
  exists v'. split_and!; [done|done|].
  unfold migrate_category_item in Hv'. unfold_bind.
  destruct (migrate_category v) as [v2|]; [|done]. by injection Hv' as ->.
Qed.

Lemma display_names_of_strings (names : list string) :
  for_result (fun a => py_getitem a "display_name") (migrate_entry <$> (JStr <$> names))
  = Ok (JStr <$> names).
Proof.
  induction names as [|n names IH]; [done|].
  rewrite !fmap_cons. cbn [for_result]. unfold_bind. by rewrite IH.
Qed.

Lemma identifiers_of_strings (names : list string) :
  mapM view_asset (migrate_entry <$> (JStr <$> names)) = Some (replace_spaces <$> names).
Proof.
  apply mapM_Some_2. induction names as [|n names IH]; simpl; by constructor.
Qed.

(** X21.  Loading keeps every asset, in its place: in a file that loads,
    a category that is a bare list comes out as the list of the same
    length in which every bare string has become an asset object and
    every other entry is as it was; for a legacy list of bare strings the
    rows shown are those strings, in their order, and the identifiers are
    the strings without their spaces. *)
Theorem load_keeps_assets (data loaded : dict) (project category : string) (cats : dict)
    (l : list json) :
  migrate (JObj data) = Ok loaded ->
  project <> "naming_conventions" ->
  dict_get project data = Some (JObj cats) ->
  dict_mem "Meshes" cats = false ->
  dict_get category cats = Some (JArr l) ->
  get_assets loaded project category = Ok (JArr (migrate_entry <$> l)) /\
  length (migrate_entry <$> l) = length l /\
  (forall j a, l !! j = Some a -> (forall s, a <> JStr s) ->
     (migrate_entry <$> l) !! j = Some a) /\
  (forall names, l = JStr <$> names ->
     get_display_names (JArr (migrate_entry <$> l)) = Ok (JStr <$> names) /\
     identifiers loaded project category = Some (replace_spaces <$> names)).
Proof.
  intros Hm Hp Hproj Hmesh Hcat.
  destruct (load_category _ _ _ _ _ _ Hm Hp Hproj Hmesh Hcat) as (cats' & v' & Hg1 & Hg2 & Hv).
  assert (v' = JArr (migrate_entry <$> l)) as ->.
  { unfold migrate_category in Hv. simpl in Hv. by injection Hv as <-. }
  assert (get_assets loaded project category = Ok (JArr (migrate_entry <$> l))) as Hget.
  { unfold get_assets. rewrite Hg1. simpl. by rewrite Hg2. }
  split_and!.
  - done.
  - apply length_fmap.
  - intros j a Hj Ha. rewrite list_lookup_fmap, Hj. simpl. f_equal.
    destruct a; try done. by destruct (Ha s).
  - intros names ->. split.
    + unfold get_display_names. simpl. apply display_names_of_strings.
    + unfold identifiers. rewrite Hget. apply identifiers_of_strings.
Qed.

Lemma load_keeps_assets_witness :
  migrate (JObj [("Show", JObj [("Textures", JArr [JStr "Mossy Rock"; JStr "Wet Sand"])])])
  = Ok [("Show", JObj [("Textures", JArr [asset_of_string "Mossy Rock";
                                           asset_of_string "Wet Sand"])])] /\
  identifiers [("Show", JObj [("Textures", JArr [asset_of_string "Mossy Rock";
                                                  asset_of_string "Wet Sand"])])]
    "Show" "Textures" = Some ["MossyRock"; "WetSand"].
Proof.
  split; [reflexivity|].
  refine (proj2 (proj2 (proj2 (proj2 (load_keeps_assets
    [("Show", JObj [("Textures", JArr [JStr "Mossy Rock"; JStr "Wet Sand"])])]
    [("Show", JObj [("Textures", JArr [asset_of_string "Mossy Rock";
                                       asset_of_string "Wet Sand"])])]
    "Show" "Textures" [("Textures", JArr [JStr "Mossy Rock"; JStr "Wet Sand"])]
    [JStr "Mossy Rock"; JStr "Wet Sand"] eq_refl _ eq_refl eq_refl eq_refl)))
    ["Mossy Rock"; "Wet Sand"] eq_refl)).
  discriminate.
Defined.

(** ** The folders an operation makes *)

Lemma get_assets_inv h p c l :
  get_assets h p c = Ok (JArr l) ->
  exists cats cat_val,
    dict_get p h = Some cats /\ py_getitem cats c = Ok cat_val /\
    py_iter (asset_list_of cat_val) = Ok l.
Proof.
  unfold get_assets. destruct (dict_get p h) as [cats|]; [|done]. unfold_bind.
  destruct (py_getitem cats c) as [cv|] eqn:Hc; [|done]. intros [= Hl].
  exists cats, cv. by rewrite Hl.
Qed.

Lemma sync_done_asset_folder h t t' p c l a d :
  sync_filesystem_with_json h t = (t', Done) ->
  get_assets h p c = Ok (JArr l) -> a ∈ l ->
  py_getitem a "db_name" = Ok (JStr d) ->
  t' !! [p; c; d] = Some KDir /\
  forall f, f ∈ hidden_folders -> t' !! [p; c; d; f] = Some KDir.
Proof.
  intros Hsync Hget Ha Hd.
  destruct (get_assets_inv _ _ _ _ Hget) as (cats & cv & Hp & Hc & Hl).
  destruct (sync_done_structure h t t' p cats Hsync Hp) as (_ & _ & Hcat).
  destruct (Hcat c cv Hc) as (_ & _ & Hasset).
  by apply (Hasset l a d).
Qed.


